(** * A JSON-RPC 2.0 dispatcher over HTTP: shallow embedding and properties

    The development follows the Go sources package by package:

    - [strings], [fmt]     the few functions of the Go library the code calls;
    - [json]               the part of encoding/json the codec relies on;
    - [wire]               the request and error types of package jsonrpc2;
    - [http]               requests, headers and a recording response writer;
    - [reflect]            type descriptors, as far as registration inspects them;
    - [rpc]                the codec interface of gorilla/rpc the server is written against;
    - [rpcserver]          method.go, the service registry and the server;
    - [jsonrpc2]           the JSON-RPC 2.0 codec (codec.go);
    - [methodcodec]        the nesting codec and its path/method check;
    - [method]             the path/method check of package method;
    - [mock]               the receiver and the server of the tests;
    - [arith]              the service of the sample program.

    Go strings are byte sequences, and so are the strings of Rocq. Maps of the
    source ([map[string]T]) are finite maps of stdpp. The properties follow
    the definitions, from [Join] on. *)

From stdpp Require Import base strings gmap list.
From Stdlib Require Import ZArith Ascii String List Lia DecimalString.

Set Warnings "-register-all".

Open Scope string_scope.

(** The double quote, which string literals here do without. *)
Definition dquote : ascii := ascii_of_nat 34.

(** ** Results of fallible library calls *)

Inductive result (A : Type) : Type :=
| Ok (a : A)
| Err (msg : string).
Arguments Ok {A} a.
Arguments Err {A} msg.

Definition rbind {A B : Type} (r : result A) (k : A -> result B) : result B :=
  match r with
  | Ok a => k a
  | Err msg => Err msg
  end.

Notation "x <-- r ;; k" := (rbind r (fun x => k))
  (at level 100, r at next level, right associativity).

(** ** Package strings *)

Module strings.

(** [strings.Split(s, sep)] for a separator of one byte, which is what every
    call site passes (["/"] and ["."]). The result is never empty: a string
    without separator yields itself, the empty string yields [[""]]. *)
Fixpoint Split (s : string) (sep : ascii) : list string :=
  match s with
  | EmptyString => [EmptyString]
  | String c s' =>
      if Ascii.eqb c sep then EmptyString :: Split s' sep
      else match Split s' sep with
           | [] => [String c EmptyString]
           | w :: ws => String c w :: ws
           end
  end.

(** [strings.Index(s, substr)]; [None] stands for the result [-1]. *)
Definition Index (s substr : string) : option nat := String.index 0 substr s.

Definition lower_byte (c : ascii) : ascii :=
  let n := nat_of_ascii c in
  if (65 <=? n)%nat && (n <=? 90)%nat then ascii_of_nat (n + 32) else c.

Definition upper_byte (c : ascii) : ascii :=
  let n := nat_of_ascii c in
  if (97 <=? n)%nat && (n <=? 122)%nat then ascii_of_nat (n - 32) else c.

(** [strings.ToLower] on ASCII letters; other bytes are kept. *)
Fixpoint ToLower (s : string) : string :=
  match s with
  | EmptyString => EmptyString
  | String c s' => String (lower_byte c) (ToLower s')
  end.

(** Number of occurrences of a byte. *)
Fixpoint Count (s : string) (sep : ascii) : nat :=
  match s with
  | EmptyString => 0
  | String c s' => (if Ascii.eqb c sep then 1 else 0) + Count s' sep
  end.

End strings.

(** ** Go values

    The contents of the variables that method arguments and replies live in.
    [int] is the 64-bit integer of the platforms the server is built for. A
    nil pointer remembers the zero value of what it would point to, which is
    what an allocation through it produces. [VChan] stands for a value of a type
    that encoding/json does not support, [VNilIface] for the nil value of an
    interface type with methods, such as [error]. *)

Inductive gval : Type :=
| VInt (n : Z)
| VString (s : string)
| VBool (b : bool)
| VStruct (fields : list (string * gval))
| VChan
| VPtr (target : gval)
| VNilPtr (zero : gval)
| VNilIface.

(** The zero value of the type a value has. *)
Fixpoint zeroOf (v : gval) : gval :=
  match v with
  | VInt _ => VInt 0
  | VString _ => VString ""
  | VBool _ => VBool false
  | VStruct fields =>
      VStruct ((fix zeros (fs : list (string * gval)) : list (string * gval) :=
                  match fs with
                  | [] => []
                  | (name, fv) :: fs' => (name, zeroOf fv) :: zeros fs'
                  end) fields)
  | VChan => VChan
  | VPtr target => VNilPtr (zeroOf target)
  | VNilPtr zero => VNilPtr zero
  | VNilIface => VNilIface
  end.

Definition minInt64 : Z := - 2 ^ 63.
Definition maxInt64 : Z := 2 ^ 63 - 1.

(** Wrap-around of [int] arithmetic. *)
Definition wrap64 (z : Z) : Z := (z + 2 ^ 63) mod 2 ^ 64 - 2 ^ 63.

(** ** Package encoding/json, as far as the codec uses it *)

Module json.

(** A parsed JSON text. Numbers keep their literal; the members of an object
    keep the bytes of their value, which is what a [json.RawMessage] field
    receives. *)
Inductive value : Type :=
| Null
| Bool (b : bool)
| Number (lit : string)
| Str (s : string)
| Array (elems : list value)
| Object (members : list (string * (string * value))).

Definition RawMessage : Type := string.

Definition isSpace (c : ascii) : bool :=
  let n := nat_of_ascii c in
  (n =? 32)%nat || (n =? 9)%nat || (n =? 13)%nat || (n =? 10)%nat.

Definition isDigit (c : ascii) : bool :=
  let n := nat_of_ascii c in (48 <=? n)%nat && (n <=? 57)%nat.

Fixpoint skipSpace (s : string) : string :=
  match s with
  | String c s' => if isSpace c then skipSpace s' else s
  | EmptyString => s
  end.

Definition quoteChar (c : ascii) : string :=
  "'" ++ String c "'".

Definition errUnexpectedEnd : string := "unexpected end of JSON input".

Definition errInvalid {A : Type} (c : ascii) (context : string) : result A :=
  Err ("invalid character " ++ quoteChar c ++ " " ++ context).

(** *** Numbers *)

Fixpoint spanDigits (s : string) : string * string :=
  match s with
  | String c s' =>
      if isDigit c then let '(d, r) := spanDigits s' in (String c d, r)
      else (EmptyString, s)
  | EmptyString => (EmptyString, s)
  end.

(** The digits of a part that needs at least one of them. *)
Definition scanDigits1 (s : string) (context : string) : result (string * string) :=
  match s with
  | EmptyString => Err errUnexpectedEnd
  | String c _ =>
      if isDigit c then Ok (spanDigits s) else errInvalid c context
  end.

Definition scanExponent (s : string) : result (string * string) :=
  match s with
  | String c s' =>
      if Ascii.eqb c "e" || Ascii.eqb c "E" then
        match s' with
        | String g s'' =>
            if Ascii.eqb g "+" || Ascii.eqb g "-" then
              p <-- scanDigits1 s'' "in exponent of numeric literal" ;;
              Ok (String c (String g (fst p)), snd p)
            else
              p <-- scanDigits1 s' "in exponent of numeric literal" ;;
              Ok (String c (fst p), snd p)
        | EmptyString => Err errUnexpectedEnd
        end
      else Ok (EmptyString, s)
  | EmptyString => Ok (EmptyString, s)
  end.

Definition scanFraction (s : string) : result (string * string) :=
  match s with
  | String c s' =>
      if Ascii.eqb c "." then
        p <-- scanDigits1 s' "after decimal point in numeric literal" ;;
        Ok (String c (fst p), snd p)
      else Ok (EmptyString, s)
  | EmptyString => Ok (EmptyString, s)
  end.

Definition scanIntPart (s : string) : result (string * string) :=
  match s with
  | EmptyString => Err errUnexpectedEnd
  | String c s' =>
      if Ascii.eqb c "0" then Ok ("0", s')
      else if isDigit c then Ok (spanDigits s)
      else errInvalid c "in numeric literal"
  end.

(** A number literal at the head of [s]: the literal and what follows it. *)
Definition scanNumber (s : string) : result (string * string) :=
  let '(sign, s1) :=
    match s with
    | String c s' => if Ascii.eqb c "-" then ("-", s') else ("", s)
    | EmptyString => ("", s)
    end in
  i <-- scanIntPart s1 ;;
  f <-- scanFraction (snd i) ;;
  e <-- scanExponent (snd f) ;;
  Ok (sign ++ fst i ++ fst f ++ fst e, snd e).

(** *** String literals *)

Definition hexVal (c : ascii) : option N :=
  let n := N_of_ascii c in
  if (48 <=? n)%N && (n <=? 57)%N then Some (n - 48)%N
  else if (97 <=? n)%N && (n <=? 102)%N then Some (n - 87)%N
  else if (65 <=? n)%N && (n <=? 70)%N then Some (n - 55)%N
  else None.

Definition hex4 (a b c d : ascii) : option N :=
  match hexVal a, hexVal b, hexVal c, hexVal d with
  | Some x, Some y, Some z, Some w => Some (((x * 16 + y) * 16 + z) * 16 + w)%N
  | _, _, _, _ => None
  end.

Definition byte (n : N) : string := String (ascii_of_N n) EmptyString.

(** UTF-8 encoding of a code point. *)
Definition utf8 (r : N) : string :=
  if (r <? 128)%N then byte r
  else if (r <? 2048)%N then
    byte (192 + N.shiftr r 6) ++ byte (128 + N.land r 63)
  else if (r <? 65536)%N then
    byte (224 + N.shiftr r 12) ++ byte (128 + N.land (N.shiftr r 6) 63)
    ++ byte (128 + N.land r 63)
  else
    byte (240 + N.shiftr r 18) ++ byte (128 + N.land (N.shiftr r 12) 63)
    ++ byte (128 + N.land (N.shiftr r 6) 63) ++ byte (128 + N.land r 63).

Definition replacementChar : string := utf8 65533.

Definition isHighSurrogate (r : N) : bool := (55296 <=? r)%N && (r <? 56320)%N.
Definition isLowSurrogate (r : N) : bool := (56320 <=? r)%N && (r <? 57344)%N.

Definition combineSurrogates (hi lo : N) : N :=
  ((hi - 55296) * 1024 + (lo - 56320) + 65536)%N.

(** A code point written alone: half a surrogate pair is replaced. *)
Definition utf8Single (r : N) : string :=
  if isLowSurrogate r || isHighSurrogate r then replacementChar else utf8 r.

Definition simpleEscape (e : ascii) : option ascii :=
  if Ascii.eqb e dquote then Some dquote
  else if Ascii.eqb e "\" then Some "\"%char
  else if Ascii.eqb e "/" then Some "/"%char
  else if Ascii.eqb e "b" then Some (ascii_of_nat 8)
  else if Ascii.eqb e "f" then Some (ascii_of_nat 12)
  else if Ascii.eqb e "n" then Some (ascii_of_nat 10)
  else if Ascii.eqb e "r" then Some (ascii_of_nat 13)
  else if Ascii.eqb e "t" then Some (ascii_of_nat 9)
  else None.

Definition flushSurrogate (hi : option N) : string :=
  match hi with
  | Some _ => replacementChar
  | None => EmptyString
  end.

Definition consResult (pre : string) (p : string * string) : result (string * string) :=
  Ok (pre ++ fst p, snd p).

(** The text after an opening quote: the string it denotes and what follows
    the closing quote. [hi] is a high surrogate read just before and still
    waiting for its second half. *)
Fixpoint scanString (hi : option N) (s : string) : result (string * string) :=
  match s with
  | EmptyString => Err errUnexpectedEnd
  | String c s' =>
      if Ascii.eqb c dquote then Ok (flushSurrogate hi, s')
      else if Ascii.eqb c "\" then
        match s' with
        | String "u" (String h1 (String h2 (String h3 (String h4 t)))) =>
            match hex4 h1 h2 h3 h4 with
            | None => Err "invalid character in \u hexadecimal character escape"
            | Some r =>
                match hi with
                | Some h =>
                    if isLowSurrogate r then
                      p <-- scanString None t ;;
                      consResult (utf8 (combineSurrogates h r)) p
                    else if isHighSurrogate r then
                      p <-- scanString (Some r) t ;;
                      consResult replacementChar p
                    else
                      p <-- scanString None t ;;
                      consResult (replacementChar ++ utf8 r) p
                | None =>
                    if isHighSurrogate r then scanString (Some r) t
                    else
                      p <-- scanString None t ;;
                      consResult (utf8Single r) p
                end
            end
        | String e s'' =>
            match simpleEscape e with
            | Some b =>
                p <-- scanString None s'' ;;
                consResult (flushSurrogate hi ++ String b EmptyString) p
            | None =>
                if Ascii.eqb e "u" then Err errUnexpectedEnd
                else errInvalid e "in string escape code"
            end
        | EmptyString => Err errUnexpectedEnd
        end
      else if (nat_of_ascii c <? 32)%nat then errInvalid c "in string literal"
      else
        p <-- scanString None s' ;;
        consResult (flushSurrogate hi ++ String c EmptyString) p
  end.

(** *** Values *)

Definition scanLiteral (lit : string) (v : value) (s : string) : result (value * string) :=
  if String.prefix lit s
  then Ok (v, String.substring (String.length lit) (String.length s - String.length lit) s)
  else if String.prefix s lit then Err errUnexpectedEnd
  else Err ("invalid character in literal " ++ lit).

(** The bytes of [s] up to the suffix [rest]. *)
Definition consumed (s rest : string) : string :=
  String.substring 0 (String.length s - String.length rest) s.

Section Parser.
(** The parser of values, for the members of objects and arrays. *)
Variable parseValue : string -> result (value * string).

(** One member of an object, ["key" : value]. *)
Definition parseMember (s : string)
  : result ((string * (string * value)) * string) :=
  match skipSpace s with
  | EmptyString => Err errUnexpectedEnd
  | String c s1 =>
      if Ascii.eqb c dquote then
        k <-- scanString None s1 ;;
        match skipSpace (snd k) with
        | EmptyString => Err errUnexpectedEnd
        | String d s2 =>
            if Ascii.eqb d ":" then
              let s3 := skipSpace s2 in
              v <-- parseValue s3 ;;
              Ok ((fst k, (consumed s3 (snd v), fst v)), snd v)
            else errInvalid d "after object key"
        end
      else errInvalid c "looking for beginning of object key string"
  end.
End Parser.

(** Parsing takes [fuel]; every call consumes a byte before it calls itself,
    so the length of the text is enough (see [Parse]). *)
Fixpoint parseValue (fuel : nat) (s : string) : result (value * string) :=
  match fuel with
  | O => Err "json: text too deeply nested"
  | S fuel' =>
      match skipSpace s with
      | EmptyString => Err errUnexpectedEnd
      | String c s' =>
          if Ascii.eqb c "{" then
            match skipSpace s' with
            | EmptyString => Err errUnexpectedEnd
            | String d s'' =>
                if Ascii.eqb d "}" then Ok (Object [], s'')
                else
                  m <-- parseMember (parseValue fuel') s' ;;
                  parseObjectTail fuel' (snd m) [fst m]
            end
          else if Ascii.eqb c "[" then
            match skipSpace s' with
            | EmptyString => Err errUnexpectedEnd
            | String d s'' =>
                if Ascii.eqb d "]" then Ok (Array [], s'')
                else
                  v <-- parseValue fuel' s' ;;
                  parseArrayTail fuel' (snd v) [fst v]
            end
          else if Ascii.eqb c dquote then
            k <-- scanString None s' ;;
            Ok (Str (fst k), snd k)
          else if Ascii.eqb c "-" || isDigit c then
            n <-- scanNumber (String c s') ;;
            Ok (Number (fst n), snd n)
          else if Ascii.eqb c "t" then scanLiteral "true" (Bool true) (String c s')
          else if Ascii.eqb c "f" then scanLiteral "false" (Bool false) (String c s')
          else if Ascii.eqb c "n" then scanLiteral "null" Null (String c s')
          else errInvalid c "looking for beginning of value"
      end
  end
with parseObjectTail (fuel : nat) (s : string) (acc : list (string * (string * value)))
  : result (value * string) :=
  match fuel with
  | O => Err "json: text too deeply nested"
  | S fuel' =>
      match skipSpace s with
      | EmptyString => Err errUnexpectedEnd
      | String c s' =>
          if Ascii.eqb c "}" then Ok (Object (rev acc), s')
          else if Ascii.eqb c "," then
            m <-- parseMember (parseValue fuel') s' ;;
            parseObjectTail fuel' (snd m) (fst m :: acc)
          else errInvalid c "after object key:value pair"
      end
  end
with parseArrayTail (fuel : nat) (s : string) (acc : list value)
  : result (value * string) :=
  match fuel with
  | O => Err "json: text too deeply nested"
  | S fuel' =>
      match skipSpace s with
      | EmptyString => Err errUnexpectedEnd
      | String c s' =>
          if Ascii.eqb c "]" then Ok (Array (rev acc), s')
          else if Ascii.eqb c "," then
            v <-- parseValue fuel' s' ;;
            parseArrayTail fuel' (snd v) (fst v :: acc)
          else errInvalid c "after array element"
      end
  end.

(** The first JSON value of a text and the rest of the text. *)
Definition Parse (s : string) : result (value * string) :=
  parseValue (S (String.length s)) s.

(** [json.NewDecoder(r).Decode]: the first value of the stream; what follows
    it is not read. *)
Definition DecodeValue (body : string) : result value :=
  match skipSpace body with
  | EmptyString => Err "EOF"
  | _ =>
      match Parse body with
      | Ok p => Ok (fst p)
      | Err msg => Err (if String.eqb msg errUnexpectedEnd then "unexpected EOF" else msg)
      end
  end.

(** [json.Unmarshal] first checks that the whole text is one value. *)
Definition ParseAll (data : string) : result value :=
  p <-- Parse data ;;
  match skipSpace (snd p) with
  | EmptyString => Ok (fst p)
  | String c _ => errInvalid c "after top-level value"
  end.

(** *** Storing a JSON value into a Go value *)

Fixpoint digitsValue (s : string) (acc : Z) : option Z :=
  match s with
  | EmptyString => Some acc
  | String c s' =>
      if isDigit c then digitsValue s' (10 * acc + Z.of_nat (nat_of_ascii c - 48))
      else None
  end.

(** [strconv.ParseInt(lit, 10, 64)] on a number literal. *)
Definition parseInt (lit : string) : option Z :=
  let '(neg, ds) :=
    match lit with
    | String "-" r => (true, r)
    | _ => (false, lit)
    end in
  match ds with
  | EmptyString => None
  | _ =>
      match digitsValue ds 0 with
      | Some n =>
          let z := if neg then (- n)%Z else n in
          if (minInt64 <=? z)%Z && (z <=? maxInt64)%Z then Some z else None
      | None => None
      end
  end.

Definition typeName (v : gval) : string :=
  match v with
  | VInt _ => "int"
  | VString _ => "string"
  | VBool _ => "bool"
  | VStruct _ => "struct"
  | VChan => "chan int"
  | VPtr _ | VNilPtr _ => "pointer"
  | VNilIface => "error"
  end.

Definition typeError (what : string) (v : gval) : option string :=
  Some ("json: cannot unmarshal " ++ what ++ " into Go value of type " ++ typeName v).

(** The decoder keeps the first error and goes on. *)
Definition firstError (e1 e2 : option string) : option string :=
  match e1 with
  | Some _ => e1
  | None => e2
  end.

Fixpoint findIndex {A : Type} (p : A -> bool) (l : list A) : option nat :=
  match l with
  | [] => None
  | x :: l' => if p x then Some O else S <$> findIndex p l'
  end.

(** The field a key of an object goes to: the one of that name, or else the
    first one whose name differs in the case of letters only. *)
Definition findField {A : Type} (key : string) (fields : list (string * A)) : option nat :=
  match findIndex (fun f => String.eqb (fst f) key) fields with
  | Some i => Some i
  | None =>
      findIndex (fun f => String.eqb (strings.ToLower (fst f)) (strings.ToLower key)) fields
  end.

(** Storing into a field that may be a pointer: a [null] makes the pointer
    nil; anything else goes to what it points to, allocated first if need be. *)
Definition throughPointers (store : gval -> gval * option string) (isNull : bool)
  : gval -> gval * option string :=
  fix through (v : gval) : gval * option string :=
    match v with
    | VPtr target =>
        if isNull then (VNilPtr (zeroOf target), None)
        else let '(t', e) := through target in (VPtr t', e)
    | VNilPtr zero =>
        if isNull then (v, None)
        else let '(t', e) := through zero in (VPtr t', e)
    | _ => store v
    end.

Definition isNull (j : value) : bool :=
  match j with
  | Null => true
  | _ => false
  end.

(** Storing [j] into the variable that holds [v]: the new contents and the
    first error, if any. A [null] leaves values that are no pointers alone. *)
Fixpoint unmarshal (j : value) (v : gval) {struct j} : gval * option string :=
  throughPointers
    (fun v =>
       match j with
       | Null => (v, None)
       | Bool b =>
           match v with
           | VBool _ => (VBool b, None)
           | _ => (v, typeError "bool" v)
           end
       | Number lit =>
           match v with
           | VInt _ =>
               match parseInt lit with
               | Some n => (VInt n, None)
               | None => (v, typeError ("number " ++ lit) v)
               end
           | _ => (v, typeError "number" v)
           end
       | Str s =>
           match v with
           | VString _ => (VString s, None)
           | _ => (v, typeError "string" v)
           end
       | Array _ => (v, typeError "array" v)
       | Object members =>
           match v with
           | VStruct fields =>
               (fix store (ms : list (string * (string * value)))
                          (fields : list (string * gval)) (err : option string)
                  : gval * option string :=
                  match ms with
                  | [] => (VStruct fields, err)
                  | (key, (_, jv)) :: ms' =>
                      match findField key fields with
                      | Some i =>
                          match fields !! i with
                          | Some (name, fv) =>
                              let '(fv', e) := unmarshal jv fv in
                              store ms' (<[i := (name, fv')]> fields) (firstError err e)
                          | None => store ms' fields err
                          end
                      | None => store ms' fields err
                      end
                  end) members fields None
           | _ => (v, typeError "object" v)
           end
       end)
    (isNull j) v.

(** [json.Unmarshal(data, &v)]. *)
Definition Unmarshal (data : RawMessage) (v : gval) : gval * option string :=
  match ParseAll data with
  | Ok j => unmarshal j v
  | Err msg => (v, Some msg)
  end.

(** [params := [1]interface{}{args}; json.Unmarshal(data, &params)]: the text
    has to be an array; its first element, unless [null], is stored into the
    value the interface points to, and further elements are dropped. *)
Definition UnmarshalArray1 (data : RawMessage) (v : gval) : gval * option string :=
  match ParseAll data with
  | Ok (Array []) => (v, None)
  | Ok (Array (j :: _)) => unmarshal j v
  | Ok Null => (v, None)
  | Ok (Bool _) => (v, Some "json: cannot unmarshal bool into Go value of type [1]interface {}")
  | Ok (Number _) => (v, Some "json: cannot unmarshal number into Go value of type [1]interface {}")
  | Ok (Str _) => (v, Some "json: cannot unmarshal string into Go value of type [1]interface {}")
  | Ok (Object _) => (v, Some "json: cannot unmarshal object into Go value of type [1]interface {}")
  | Err msg => (v, Some msg)
  end.

(** *** Encoding *)

Definition hexDigit (n : N) : ascii :=
  if (n <? 10)%N then ascii_of_N (48 + n) else ascii_of_N (87 + n).

Definition u00 (c : ascii) : string :=
  let n := N_of_ascii c in
  "\u00" ++ String (hexDigit (N.shiftr n 4)) (String (hexDigit (N.land n 15)) EmptyString).

Definition isHTML (c : ascii) : bool :=
  Ascii.eqb c "<" || Ascii.eqb c ">" || Ascii.eqb c "&".

Definition escapeByte (c : ascii) : string :=
  let n := nat_of_ascii c in
  if Ascii.eqb c dquote then String "\" (String dquote EmptyString)
  else if Ascii.eqb c "\" then "\\"
  else if (n =? 10)%nat then "\n"
  else if (n =? 13)%nat then "\r"
  else if (n =? 9)%nat then "\t"
  else if (n <? 32)%nat || isHTML c then u00 c
  else String c EmptyString.

(** The bytes of a string between the quotes, with the escapes of an encoder
    that has [EscapeHTML] on (the default). The text is taken to be UTF-8. *)
Fixpoint escape (s : string) : string :=
  match s with
  | EmptyString => EmptyString
  | String c s' =>
      match s' with
      | String c2 (String c3 s3) =>
          if (nat_of_ascii c =? 226)%nat && (nat_of_ascii c2 =? 128)%nat
             && ((nat_of_ascii c3 =? 168)%nat || (nat_of_ascii c3 =? 169)%nat)
          then "\u202" ++ String (hexDigit (N_of_ascii c3 - 160)) (escape s3)
          else escapeByte c ++ escape s'
      | _ => escapeByte c ++ escape s'
      end
  end.

Definition quote (s : string) : string :=
  String dquote (escape s ++ String dquote EmptyString).

(** The key of a member, with its colon. *)
Definition key (name : string) : string := quote name ++ ":".

Definition intString (n : Z) : string :=
  DecimalString.NilZero.string_of_int (Z.to_int n).

(** The encoding of a value, or [None] for a value of an unsupported type. *)
Fixpoint marshal (v : gval) : option string :=
  match v with
  | VInt n => Some (intString n)
  | VString s => Some (quote s)
  | VBool b => Some (if b then "true" else "false")
  | VStruct fields =>
      let fix members (fs : list (string * gval)) (sep : string) : option string :=
        match fs with
        | [] => Some EmptyString
        | (name, fv) :: fs' =>
            match marshal fv, members fs' "," with
            | Some x, Some r => Some (sep ++ key name ++ x ++ r)
            | _, _ => None
            end
        end in
      match members fields "" with
      | Some body => Some ("{" ++ body ++ "}")
      | None => None
      end
  | VChan => None
  | VPtr target => marshal target
  | VNilPtr _ | VNilIface => Some "null"
  end.

(** The error of the encoder for a value it has no encoding for. *)
Definition errUnsupportedType : string := "json: unsupported type: chan int".

(** What the encoder writes for a [RawMessage]: the text without the white
    space between tokens, and with the HTML escapes. *)
Fixpoint compact (inString escaped : bool) (s : string) : string :=
  match s with
  | EmptyString => EmptyString
  | String c s' =>
      if inString then
        if escaped then String c (compact true false s')
        else if Ascii.eqb c "\" then String c (compact true true s')
        else if Ascii.eqb c dquote then String c (compact false false s')
        else
          match s' with
          | String c2 (String c3 s3) =>
              if (nat_of_ascii c =? 226)%nat && (nat_of_ascii c2 =? 128)%nat
                 && ((nat_of_ascii c3 =? 168)%nat || (nat_of_ascii c3 =? 169)%nat)
              then "\u202" ++ String (hexDigit (N_of_ascii c3 - 160)) (compact true false s3)
              else (if isHTML c then u00 c else String c EmptyString) ++ compact true false s'
          | _ => (if isHTML c then u00 c else String c EmptyString) ++ compact true false s'
          end
      else if isSpace c then compact false false s'
      else String c (compact (Ascii.eqb c dquote) false s')
  end.

Definition marshalRaw (m : RawMessage) : string := compact false false m.

End json.

(** ** The wire types of package jsonrpc2

    They are declared ahead of the package: a method of a service may return
    a [*jsonrpc2.Error] as its [error], and the server hands it on to the
    codec without looking into it. *)

Module wire.

(** [serverRequest]: a JSON-RPC request received by the server. The two
    [*json.RawMessage] members are [None] when absent or [null]. *)
Record serverRequest : Type := mkServerRequest {
  Version : string;
  Method : string;
  Params : option json.RawMessage;
  Id : option json.RawMessage
}.

(** What the [Data] member of an error holds, an [interface{}]: a pointer to
    a Go value, to a raw message or to the request. *)
Inductive data : Type :=
| DataValue (v : gval)
| DataRaw (m : json.RawMessage)
| DataRequest (req : serverRequest).

(** [jsonrpc2.Error]. *)
Record Error : Type := mkError {
  Code : Z;
  Message : string;
  Data : option data
}.

End wire.

(** The values of the interface [error] in this program: a plain message
    ([errors.New], [fmt.Errorf], the errors of encoding/json) or a
    [*jsonrpc2.Error], a pointer that is not nil. *)
Inductive error : Type :=
| errorString (msg : string)
| jsonError (e : wire.Error).

(** [err.Error()]. *)
Definition errorMessage (err : error) : string :=
  match err with
  | errorString msg => msg
  | jsonError e => wire.Message e
  end.

(** ** Package fmt *)

Module fmt.

(** The verb [%q] on a string: the text between double quotes, with a
    backslash before a quote or a backslash. Other bytes are taken to be
    printable and stand for themselves. *)
Fixpoint quoted (s : string) : string :=
  match s with
  | EmptyString => EmptyString
  | String c s' =>
      if Ascii.eqb c dquote || Ascii.eqb c "\" then String "\" (String c (quoted s'))
      else String c (quoted s')
  end.

Definition q (s : string) : string :=
  String dquote (quoted s ++ String dquote EmptyString).

End fmt.

(** ** Package net/http *)

Module http.

(** The header of a message: field names in canonical form, each with its
    values. *)
Abbreviation Header := (gmap string (list string)).

Definition validHeaderFieldByte (c : ascii) : bool :=
  let n := nat_of_ascii c in
  ((48 <=? n)%nat && (n <=? 57)%nat)
  || ((65 <=? n)%nat && (n <=? 90)%nat)
  || ((97 <=? n)%nat && (n <=? 122)%nat)
  || existsb (Ascii.eqb c) (list_ascii_of_string "!#$%&'*+-.^_`|~").

Fixpoint canonical (upper : bool) (s : string) : string :=
  match s with
  | EmptyString => EmptyString
  | String c s' =>
      let c' := if upper then strings.upper_byte c else strings.lower_byte c in
      String c' (canonical (Ascii.eqb c' "-") s')
  end.

(** [textproto.CanonicalMIMEHeaderKey]. *)
Definition CanonicalMIMEHeaderKey (s : string) : string :=
  if forallb validHeaderFieldByte (list_ascii_of_string s) then canonical true s else s.

(** [h.Get(key)]: the first value of the field, or the empty string. *)
Definition HeaderGet (h : Header) (key : string) : string :=
  match h !! CanonicalMIMEHeaderKey key with
  | Some (v :: _) => v
  | _ => EmptyString
  end.

(** [h.Set(key, value)]. *)
Definition HeaderSet (h : Header) (key value : string) : Header :=
  <[CanonicalMIMEHeaderKey key := [value]]> h.

(** What the server reads of a request. *)
Record Request : Type := mkRequest {
  ReqMethod : string;     (* r.Method *)
  Path : string;          (* r.URL.Path *)
  ReqHeader : Header;     (* r.Header *)
  Body : string
}.

(** A response writer that records, as [httptest.ResponseRecorder] does. The
    header fields sent are those present when the status line is written,
    [snapHeader]; later changes of [HeaderMap] do not reach the client. *)
Record ResponseWriter : Type := mkResponseWriter {
  Status : Z;             (* Code *)
  HeaderMap : Header;
  wroteHeader : bool;
  snapHeader : Header;
  BodyBytes : string
}.

Definition NewRecorder : ResponseWriter :=
  {| Status := 200; HeaderMap := ∅; wroteHeader := false; snapHeader := ∅;
     BodyBytes := EmptyString |}.

(** [w.Header().Set(key, value)]. *)
Definition SetHeader (w : ResponseWriter) (key value : string) : ResponseWriter :=
  {| Status := Status w; HeaderMap := HeaderSet (HeaderMap w) key value;
     wroteHeader := wroteHeader w; snapHeader := snapHeader w;
     BodyBytes := BodyBytes w |}.

(** [w.WriteHeader(code)]: only the first call counts. *)
Definition WriteHeader (w : ResponseWriter) (code : Z) : ResponseWriter :=
  if wroteHeader w then w
  else {| Status := code; HeaderMap := HeaderMap w; wroteHeader := true;
          snapHeader := HeaderMap w; BodyBytes := BodyBytes w |}.

(** [w.Write(data)], which sends the status 200 first if none was sent. *)
Definition Write (w : ResponseWriter) (data : string) : ResponseWriter :=
  let w' := WriteHeader w 200 in
  {| Status := Status w'; HeaderMap := HeaderMap w'; wroteHeader := true;
     snapHeader := snapHeader w'; BodyBytes := BodyBytes w' ++ data |}.

(** The header fields the client receives. *)
Definition sentHeader (w : ResponseWriter) : Header :=
  if wroteHeader w then snapHeader w else HeaderMap w.

End http.

(** ** Package reflect, as far as registration looks at types *)

Module reflect.

Inductive Type_ : Type :=
| TInt
| TString
| TBool
| TChan
| TStruct (pkgPath name : string) (fields : list (string * Type_))
| TPtr (elem : Type_)
| TInterface (pkgPath name : string).

Inductive Kind : Type := Int | String_ | Bool | Chan | Struct | Ptr | Interface.

Definition kind (t : Type_) : Kind :=
  match t with
  | TInt => Int
  | TString => String_
  | TBool => Bool
  | TChan => Chan
  | TStruct _ _ _ => Struct
  | TPtr _ => Ptr
  | TInterface _ _ => Interface
  end.

Definition isPtr (t : Type_) : bool :=
  match t with
  | TPtr _ => true
  | _ => false
  end.

(** [t.Name()]: empty for a type without a name. *)
Definition Name (t : Type_) : string :=
  match t with
  | TInt => "int"
  | TString => "string"
  | TBool => "bool"
  | TChan => ""
  | TStruct _ name _ => name
  | TPtr _ => ""
  | TInterface _ name => name
  end.

(** [t.PkgPath()]: empty for a predeclared or unnamed type. *)
Definition PkgPath (t : Type_) : string :=
  match t with
  | TStruct pkgPath _ _ => pkgPath
  | TInterface pkgPath _ => pkgPath
  | _ => ""
  end.

(** [t.String()]: the name with the last part of the package path before it. *)
Fixpoint TypeString (t : Type_) : string :=
  let qualified (pkgPath name : string) :=
    if String.eqb pkgPath "" then name
    else List.last (strings.Split pkgPath "/") "" ++ "." ++ name in
  match t with
  | TInt => "int"
  | TString => "string"
  | TBool => "bool"
  | TChan => "chan int"
  | TStruct pkgPath name _ => if String.eqb name "" then "struct {...}" else qualified pkgPath name
  | TPtr elem => "*" ++ TypeString elem
  | TInterface pkgPath name => qualified pkgPath name
  end.

(** Identity of types. *)
Fixpoint eqb (t u : Type_) {struct t} : bool :=
  match t, u with
  | TInt, TInt | TString, TString | TBool, TBool | TChan, TChan => true
  | TStruct p n fs, TStruct p' n' fs' =>
      String.eqb p p' && String.eqb n n'
      && (fix fields (l l' : list (string * Type_)) : bool :=
            match l, l' with
            | [], [] => true
            | (f, ft) :: r, (f', ft') :: r' => String.eqb f f' && eqb ft ft' && fields r r'
            | _, _ => false
            end) fs fs'
  | TPtr e, TPtr e' => eqb e e'
  | TInterface p n, TInterface p' n' => String.eqb p p' && String.eqb n n'
  | _, _ => false
  end.

(** The zero value of a type, which [reflect.New] allocates. *)
Fixpoint Zero (t : Type_) : gval :=
  match t with
  | TInt => VInt 0
  | TString => VString ""
  | TBool => VBool false
  | TChan => VChan
  | TStruct _ _ fields =>
      VStruct ((fix zeros (fs : list (string * Type_)) : list (string * gval) :=
                  match fs with
                  | [] => []
                  | (name, ft) :: fs' => (name, Zero ft) :: zeros fs'
                  end) fields)
  | TPtr elem => VNilPtr (Zero elem)
  | TInterface _ _ => VNilIface
  end.

(** A method of the receiver's type: [Type.In(0)] is the receiver. The
    function gets the receiver, the request and what the argument and reply
    pointers point to, and gives back the receiver and the reply as it leaves
    them, with the error it returns. *)
Record Method (R : Type) : Type := mkMethod {
  MethodName : string;
  MethodPkgPath : string;
  In : list Type_;
  Out : list Type_;
  Func : R -> http.Request -> gval -> gval -> R * gval * option error
}.

Arguments MethodName {R} _.
Arguments MethodPkgPath {R} _.
Arguments In {R} _.
Arguments Out {R} _.
Arguments Func {R} _.

(** A receiver as registration sees it: the value, its type and the methods
    of that type. The receiver is not nil: [Interface_] is what it holds or
    points to. *)
Record Value (R : Type) : Type := mkValue {
  Interface_ : R;
  TypeOf : Type_;
  Methods : list (Method R)
}.
Arguments Interface_ {R} _.
Arguments TypeOf {R} _.
Arguments Methods {R} _.

(** [reflect.Indirect(v).Type()], for a value [v] that is not a nil pointer. *)
Definition IndirectType (t : Type_) : Type_ :=
  match t with
  | TPtr elem => elem
  | _ => t
  end.

End reflect.

(** ** The codec interface, of package github.com/gorilla/rpc/v2 *)

Module rpc.

(** [CodecRequest]: decodes a request and encodes a response. An
    [interface{}] argument is [None] when nil; [ReadRequest] gets what its
    argument points to and gives back what it has stored there. *)
Class CodecRequest (CR : Type) : Type := {
  Method : CR -> string * option error;
  ReadRequest : CR -> gval -> CR * gval * option error;
  WriteResponse : CR -> http.ResponseWriter -> option gval -> http.ResponseWriter;
  WriteError : CR -> http.ResponseWriter -> Z -> error -> http.ResponseWriter
}.

(** [Codec]: creates a [CodecRequest] for each request. *)
Record Codec : Type := mkCodec {
  Request : Type;
  RequestOps : CodecRequest Request;
  NewRequest : http.Request -> Request
}.

End rpc.

(** ** Package rpcserver *)

Module rpcserver.

(** *** method.go *)

Definition LastPart (path : string) : string :=
  let pathWords := strings.Split path "/" in
  let length := List.length pathWords in
  if (length =? 0)%nat then path   (* should not be *)
  else nth (length - 1) pathWords EmptyString.

Definition PathHasMethod (path : string) (method : string) : bool :=
  let pathLastPart := LastPart path in
  String.eqb pathLastPart method.

(** *** The plain-text error writer of server.go *)

Definition WriteError (w : http.ResponseWriter) (status : Z) (msg : string)
  : http.ResponseWriter :=
  let w := http.WriteHeader w status in
  let w := http.SetHeader w "Content-Type" "text/plain; charset=utf-8" in
  http.Write w msg.

(** *** service.go *)

Definition TypeOfError : reflect.Type_ := reflect.TInterface "" "error".
Definition TypeOfRequest : reflect.Type_ := reflect.TStruct "net/http" "Request" [].

(** [IsExported]: the name starts with an upper-case letter. The letters are
    those of ASCII: a name that starts with another upper-case letter of
    Unicode is outside of what is embedded. *)
Definition IsExported (name : string) : bool :=
  match name with
  | String c _ => let n := nat_of_ascii c in (65 <=? n)%nat && (n <=? 90)%nat
  | EmptyString => false
  end.

Fixpoint IsExportedOrBuiltin (t : reflect.Type_) : bool :=
  match t with
  | reflect.TPtr elem => IsExportedOrBuiltin elem
  | _ => IsExported (reflect.Name t) || String.eqb (reflect.PkgPath t) ""
  end.

Section Service.
Context {R : Type}.

Record RpcServiceMethod : Type := mkRpcServiceMethod {
  method : reflect.Method R;      (* receiver method *)
  argsType : reflect.Type_;       (* type of the request argument *)
  replyType : reflect.Type_       (* type of the response argument *)
}.

Record RpcService : Type := mkRpcService {
  name : string;                          (* name of service *)
  rcvr : R;                               (* receiver of methods for the service *)
  rcvrType : reflect.Type_;               (* type of the receiver *)
  methods : gmap string RpcServiceMethod  (* registered methods *)
}.

(** One turn of the loop over the methods of the receiver: the entry the
    method gets in the table, or [None] where the loop says [continue]. *)
Definition suitable (m : reflect.Method R) : option RpcServiceMethod :=
  (* Method must be exported. *)
  if negb (String.eqb (reflect.MethodPkgPath m) "") then None
  (* Method needs four ins: receiver, *http.Request, *args, *reply. *)
  else match reflect.In m with
  | [_; reqType; args; reply] =>
      (* First argument must be a pointer and must be http.Request. *)
      match reqType with
      | reflect.TPtr reqElem =>
          if negb (reflect.eqb reqElem TypeOfRequest) then None
          else
          (* Second argument must be a pointer and must be exported. *)
          match args with
          | reflect.TPtr argsElem =>
              if negb (IsExportedOrBuiltin args) then None
              else
              (* Third argument must be a pointer and must be exported. *)
              match reply with
              | reflect.TPtr replyElem =>
                  if negb (IsExportedOrBuiltin reply) then None
                  else
                  (* Method needs one out: error. *)
                  match reflect.Out m with
                  | [returnType] =>
                      if negb (reflect.eqb returnType TypeOfError) then None
                      else Some {| method := m; argsType := argsElem;
                                   replyType := replyElem |}
                  | _ => None
                  end
              | _ => None
              end
          | _ => None
          end
      | _ => None
      end
  | _ => None
  end.

Fixpoint setupMethods (ms : list (reflect.Method R))
    (table : gmap string RpcServiceMethod) : gmap string RpcServiceMethod :=
  match ms with
  | [] => table
  | m :: ms' =>
      match suitable m with
      | Some entry => setupMethods ms' (<[reflect.MethodName m := entry]> table)
      | None => setupMethods ms' table
      end
  end.

(** [NewRpcService] creates a service with its methods. *)
Definition NewRpcService (receiver : reflect.Value R) (name_ : string)
  : RpcService + error :=
  let rcvrType_ := reflect.TypeOf receiver in
  let inferred := reflect.Name (reflect.IndirectType rcvrType_) in
  if String.eqb name_ "" && negb (IsExported inferred) then
    inr (errorString ("rpc: type " ++ fmt.q inferred ++ " is not exported"))
  else
    let sname := if String.eqb name_ "" then inferred else name_ in
    if String.eqb sname "" then
      inr (errorString ("rpc: no service name for type "
                        ++ fmt.q (reflect.TypeString rcvrType_)))
    else
      let table := setupMethods (reflect.Methods receiver) ∅ in
      if (size table =? 0)%nat then
        inr (errorString ("rpc: " ++ fmt.q sname
                          ++ " has no exported methods of suitable type"))
      else
        inl {| name := sname; rcvr := reflect.Interface_ receiver;
               rcvrType := rcvrType_; methods := table |}.

Definition errIllFormed (method_ : string) : error :=
  errorString ("rpc: service/method request ill-formed: " ++ fmt.q method_).
Definition errNoService (method_ : string) : error :=
  errorString ("rpc: can't find service " ++ fmt.q method_).
Definition errNoMethod (method_ : string) : error :=
  errorString ("rpc: can't find method " ++ fmt.q method_).

(** [Get] returns a registered method given a method name in the dotted
    notation ["Service.Method"]. The service is a pointer and may be nil. *)
Definition Get (service : option RpcService) (method_ : string)
  : RpcServiceMethod + error :=
  let parts := strings.Split method_ "." in
  if negb (List.length parts =? 2)%nat then inr (errIllFormed method_)
  else match service with
  | None => inr (errNoService method_)
  | Some service =>
      match methods service !! nth 1 parts EmptyString with
      | None => inr (errNoMethod method_)
      | Some serviceMethod => inl serviceMethod
      end
  end.

(** *** server.go *)

Record Server : Type := mkServer {
  codecs : gmap string rpc.Codec;
  service : RpcService
}.

(** [NewServer] passes the receiver alone; the service gets the name of
    the type of the receiver, as it does for an empty name. *)
Definition NewServer (receiver : reflect.Value R) : Server + error :=
  match NewRpcService receiver "" with
  | inr err => inr err
  | inl service_ => inl {| codecs := ∅; service := service_ |}
  end.

Definition RegisterCodec (s : Server) (codec : rpc.Codec) (contentType : string)
  : Server :=
  {| codecs := <[strings.ToLower contentType := codec]> (codecs s);
     service := service s |}.

Definition HasMethod (s : Server) (method_ : string) : bool :=
  match Get (Some (service s)) method_ with
  | inl _ => true
  | inr _ => false
  end.

(** What serving a request leaves behind: the receiver as the method left
    it, the response, and the calls of service methods that took place,
    each with its arguments. *)
Record Served : Type := mkServed {
  receiver : R;
  response : http.ResponseWriter;
  calls : list (string * gval)
}.

Definition untouched (s : Server) (w : http.ResponseWriter) : Served :=
  {| receiver := rcvr (service s); response := w; calls := [] |}.

(** The codec for a content type: the only one registered when the type is
    empty, and else the one registered under the type in lower case. *)
Definition selectCodec (s : Server) (contentType : string) : option rpc.Codec :=
  if String.eqb contentType "" && (size (codecs s) =? 1)%nat then
    match map_to_list (codecs s) with
    | (_, c) :: _ => Some c
    | [] => None
    end
  else codecs s !! strings.ToLower contentType.

(** The content type of the request, without what follows a semicolon. *)
Definition contentTypeOf (r : http.Request) : string :=
  let contentType := http.HeaderGet (http.ReqHeader r) "Content-Type" in
  match strings.Index contentType ";" with
  | Some idx => String.substring 0 idx contentType
  | None => contentType
  end.

Definition ServeHTTP (s : Server) (w : http.ResponseWriter) (r : http.Request)
  : Served :=
  if negb (String.eqb (http.ReqMethod r) "POST") then
    untouched s
      (WriteError w 405 ("rpc: POST method required, received " ++ http.ReqMethod r))
  else
  let contentType := contentTypeOf r in
  match selectCodec s contentType with
  | None =>
      untouched s (WriteError w 415 ("rpc: unrecognized Content-Type: " ++ contentType))
  | Some codec =>
  (* Create a new codec request. *)
  let ops := rpc.RequestOps codec in
  let codecReq := rpc.NewRequest codec r in
  (* Get service method to be called. *)
  let '(methodName, errMethod) := rpc.Method codecReq in
  match errMethod with
  | Some errMethod => untouched s (WriteError w 400 (errorMessage errMethod))
  | None =>
  if String.eqb methodName "" then
    untouched s (WriteError w 400 "rpc: method field should not be empty")
  else if negb (PathHasMethod (http.Path r) methodName) then
    untouched s
      (WriteError w 404 ("rpc: URL.Path '" ++ http.Path r ++ "' does not end with '"
                         ++ methodName ++ "' methodName"))
  else
  match Get (Some (service s)) methodName with
  | inr errGet => untouched s (WriteError w 404 (errorMessage errGet))
  | inl methodSpec =>
  (* Decode the args. *)
  let args := reflect.Zero (argsType methodSpec) in
  let '(codecReq, args, errRead) := rpc.ReadRequest codecReq args in
  match errRead with
  | Some errRead => untouched s (rpc.WriteError codecReq w 400 errRead)
  | None =>
  (* Call the service method. *)
  let reply := reflect.Zero (replyType methodSpec) in
  let '(rcvr_, reply, errResult) :=
    reflect.Func (method methodSpec) (rcvr (service s)) r args reply in
  let called := [(reflect.MethodName (method methodSpec), args)] in
  (* Prevents Internet Explorer from MIME-sniffing a response away
     from the declared content-type *)
  let w := http.SetHeader w "x-content-type-options" "nosniff" in
  (* Encode the response. *)
  match errResult with
  | None =>
      {| receiver := rcvr_; calls := called;
         response := rpc.WriteResponse codecReq w (Some (VPtr reply)) |}
  | Some errResult =>
      {| receiver := rcvr_; calls := called;
         response := rpc.WriteError codecReq w 400 errResult |}
  end
  end end end end.

End Service.

Arguments RpcServiceMethod R : clear implicits.
Arguments RpcService R : clear implicits.
Arguments Server R : clear implicits.
Arguments Served R : clear implicits.

End rpcserver.

(** ** Package jsonrpc2 *)

Module jsonrpc2.

Definition Version : string := "2.0".

Definition E_PARSE : Z := -32700.
Definition E_INVALID_REQ : Z := -32600.
Definition E_NO_METHOD : Z := -32601.
Definition E_BAD_PARAMS : Z := -32602.
Definition E_INTERNAL : Z := -32603.
Definition E_SERVER : Z := -32000.

Definition NewError (code : Z) (msg : string) (data_ : option wire.data) : error :=
  jsonError {| wire.Code := code; wire.Message := msg; wire.Data := data_ |}.

(** [serverResponse]: a JSON-RPC response returned by the server. *)
Record serverResponse : Type := mkServerResponse {
  ResVersion : string;                 (* Version, "jsonrpc" *)
  Result : option gval;                (* "result,omitempty" *)
  ResError : option wire.Error;             (* Error, "error,omitempty" *)
  ResId : option json.RawMessage       (* Id, "id,omitempty" *)
}.

(** [Codec] creates a [CodecRequest] to process each request. *)
Record Codec : Type := mkCodec {
  RespectNotifyMessages : bool
}.

Definition NewCodec : Codec := {| RespectNotifyMessages := false |}.

(** [CodecRequest] decodes and encodes a single request. *)
Record CodecRequest : Type := mkCodecRequest {
  request : wire.serverRequest;
  err : option error;
  respectNotifyMessages : bool
}.

(** *** Decoding the request *)

Definition emptyRequest : wire.serverRequest :=
  {| wire.Version := ""; wire.Method := ""; wire.Params := None; wire.Id := None |}.

Definition requestFields : list (string * nat) :=
  [("jsonrpc", 0%nat); ("method", 1%nat); ("params", 2%nat); ("id", 3%nat)].

Definition kindOf (j : json.value) : string :=
  match j with
  | json.Null => "null"
  | json.Bool _ => "bool"
  | json.Number _ => "number"
  | json.Str _ => "string"
  | json.Array _ => "array"
  | json.Object _ => "object"
  end.

Definition cannot (j : json.value) (type : string) : option string :=
  Some ("json: cannot unmarshal " ++ kindOf j ++ " into Go value of type " ++ type).

(** Storing one member of the JSON object into the request. *)
Definition storeMember (req : wire.serverRequest) (key : string)
    (raw : json.RawMessage) (j : json.value) : wire.serverRequest * option string :=
  let rawPtr := if json.isNull j then None else Some raw in
  match json.findField key requestFields with
  | Some 0%nat =>
      match j with
      | json.Str v =>
          ({| wire.Version := v; wire.Method := wire.Method req;
              wire.Params := wire.Params req; wire.Id := wire.Id req |}, None)
      | json.Null => (req, None)
      | _ => (req, cannot j "string")
      end
  | Some 1%nat =>
      match j with
      | json.Str v =>
          ({| wire.Version := wire.Version req; wire.Method := v;
              wire.Params := wire.Params req; wire.Id := wire.Id req |}, None)
      | json.Null => (req, None)
      | _ => (req, cannot j "string")
      end
  | Some 2%nat =>
      ({| wire.Version := wire.Version req; wire.Method := wire.Method req;
          wire.Params := rawPtr; wire.Id := wire.Id req |}, None)
  | Some 3%nat =>
      ({| wire.Version := wire.Version req; wire.Method := wire.Method req;
          wire.Params := wire.Params req; wire.Id := rawPtr |}, None)
  | _ => (req, None)
  end.

Fixpoint storeMembers (members : list (string * (string * json.value)))
    (req : wire.serverRequest) (e : option string)
  : wire.serverRequest * option string :=
  match members with
  | [] => (req, e)
  | (key, (raw, j)) :: members' =>
      let '(req', e') := storeMember req key raw j in
      storeMembers members' req' (json.firstError e e')
  end.

(** [json.NewDecoder(r.Body).Decode(req)] for a fresh request [req]: what the
    request holds afterwards, and the error. *)
Definition decodeRequest (body : string) : wire.serverRequest * option string :=
  match json.DecodeValue body with
  | Err msg => (emptyRequest, Some msg)
  | Ok (json.Object members) => storeMembers members emptyRequest None
  | Ok json.Null => (emptyRequest, None)
  | Ok j => (emptyRequest, cannot j "jsonrpc2.serverRequest")
  end.

(** [NewRequest] returns a [CodecRequest]: it decodes the request body and
    checks that the RPC signature is valid. *)
Definition NewRequest (c : Codec) (r : http.Request) : CodecRequest :=
  let '(req, decodeErr) := decodeRequest (http.Body r) in
  let err_ :=
    match decodeErr with
    | Some msg => Some (NewError E_PARSE msg (Some (wire.DataRequest req)))
    | None =>
        if negb (String.eqb (wire.Version req) Version) then
          Some (NewError E_INVALID_REQ ("jsonrpc must be " ++ Version)
                         (Some (wire.DataRequest req)))
        else if String.eqb (wire.Method req) "" then
          Some (NewError E_NO_METHOD "method field empty or missing"
                         (Some (wire.DataRequest req)))
        else
          let pathMethod := rpcserver.LastPart (http.Path r) in
          if negb (String.eqb pathMethod (wire.Method req)) then
            Some (NewError E_NO_METHOD
                    ("rpc: URL.Path '" ++ http.Path r
                     ++ "' does not end with method Name '" ++ wire.Method req ++ "'")
                    (Some (wire.DataRequest req)))
          else None
    end in
  {| request := req; err := err_;
     respectNotifyMessages := RespectNotifyMessages c |}.

(** [Error] returns if request was valid or incorrect. *)
Definition CodecRequest_Error (c : CodecRequest) : option error := err c.

(** [Method] returns the RPC method for the current request. *)
Definition Method (c : CodecRequest) : string * option error :=
  match err c with
  | None => (wire.Method (request c), None)
  | Some e => (EmptyString, Some e)
  end.

(** [ReadRequest] fills the request object for the RPC method: by name, and
    if that fails, by position. *)
Definition ReadRequest (c : CodecRequest) (args : gval)
  : CodecRequest * gval * option error :=
  match err c, wire.Params (request c) with
  | None, Some params =>
      let '(args1, e1) := json.Unmarshal params args in
      match e1 with
      | None => (c, args1, err c)
      | Some _ =>
          let '(args2, e2) := json.UnmarshalArray1 params args1 in
          match e2 with
          | None => (c, args2, err c)
          | Some msg =>
              let err_ := Some (jsonError {| wire.Code := E_INVALID_REQ;
                                             wire.Message := msg;
                                             wire.Data := Some (wire.DataRaw params) |}) in
              ({| request := request c; err := err_;
                  respectNotifyMessages := respectNotifyMessages c |}, args2, err_)
          end
      end
  | _, _ => (c, args, err c)
  end.

(** *** Encoding the response *)

Definition encodeRawPtr (m : option json.RawMessage) : string :=
  match m with
  | Some raw => json.marshalRaw raw
  | None => "null"
  end.

Definition encodeData (d : wire.data) : option string :=
  match d with
  | wire.DataValue v => json.marshal v
  | wire.DataRaw m => Some (json.marshalRaw m)
  | wire.DataRequest req =>
      Some ("{" ++ json.key "jsonrpc" ++ json.quote (wire.Version req)
            ++ "," ++ json.key "method" ++ json.quote (wire.Method req)
            ++ "," ++ json.key "params" ++ encodeRawPtr (wire.Params req)
            ++ "," ++ json.key "id" ++ encodeRawPtr (wire.Id req) ++ "}")
  end.

(** A member with [omitempty]: left out when there is nothing to encode, and
    [None] when what there is cannot be encoded. *)
Definition member {A : Type} (name : string) (encode : A -> option string)
    (x : option A) : option string :=
  match x with
  | None => Some EmptyString
  | Some a =>
      match encode a with
      | Some text => Some ("," ++ json.key name ++ text)
      | None => None
      end
  end.

Definition encodeError (e : wire.Error) : option string :=
  match member "data" encodeData (wire.Data e) with
  | Some d =>
      Some ("{" ++ json.key "code" ++ json.intString (wire.Code e)
            ++ "," ++ json.key "message" ++ json.quote (wire.Message e) ++ d ++ "}")
  | None => None
  end.

(** [json.Marshal] of a [serverResponse]. *)
Definition encodeResponse (res : serverResponse) : option string :=
  match member "result" json.marshal (Result res),
        member "error" encodeError (ResError res),
        member "id" (fun raw => Some (json.marshalRaw raw)) (ResId res) with
  | Some r, Some e, Some i =>
      Some ("{" ++ json.key "jsonrpc" ++ json.quote (ResVersion res) ++ r ++ e ++ i ++ "}")
  | _, _, _ => None
  end.

Definition newline : string := String (ascii_of_nat 10) EmptyString.

(** [p == nil] for a pointer. *)
Definition isNil {A : Type} (p : option A) : bool :=
  match p with
  | None => true
  | Some _ => false
  end.

Definition writeServerResponse (c : CodecRequest) (w : http.ResponseWriter)
    (res : serverResponse) : http.ResponseWriter :=
  (* Id is null for notifications and they don't have a response. *)
  if isNil (wire.Id (request c)) && respectNotifyMessages c then w
  else
    let w := http.SetHeader w "Content-Type" "application/json; charset=utf-8" in
    match encodeResponse res with
    | Some bytes => http.Write w (bytes ++ newline)
    (* Not sure in which case will this happen. But seems harmless. *)
    | None => rpcserver.WriteError w 400 json.errUnsupportedType
    end.

(** The envelope [WriteResponse] builds. *)
Definition responseOf (c : CodecRequest) (reply : option gval) : serverResponse :=
  {| ResVersion := Version; Result := reply; ResError := None;
     ResId := wire.Id (request c) |}.

(** [WriteResponse] encodes the response and writes it to the
    [ResponseWriter]. *)
Definition WriteResponse (c : CodecRequest) (w : http.ResponseWriter)
    (reply : option gval) : http.ResponseWriter :=
  writeServerResponse c w (responseOf c reply).

(** The envelope [WriteError] builds. *)
Definition errorResponseOf (c : CodecRequest) (status : Z) (err_ : error)
  : serverResponse :=
  let jsonErr :=
    match err_ with
    | jsonError e => e
    | _ => {| wire.Code := status; wire.Message := errorMessage err_;
             wire.Data := None |}
    end in
  {| ResVersion := Version; Result := None; ResError := Some jsonErr;
     ResId := wire.Id (request c) |}.

Definition WriteError (c : CodecRequest) (w : http.ResponseWriter) (status : Z)
    (err_ : error) : http.ResponseWriter :=
  writeServerResponse c w (errorResponseOf c status err_).

#[export] Instance CodecRequest_ops : rpc.CodecRequest CodecRequest :=
  {| rpc.Method := Method; rpc.ReadRequest := ReadRequest;
     rpc.WriteResponse := WriteResponse; rpc.WriteError := WriteError |}.

(** The codec as the server holds it, behind the interface. *)
Definition asCodec (c : Codec) : rpc.Codec :=
  {| rpc.Request := CodecRequest; rpc.RequestOps := CodecRequest_ops;
     rpc.NewRequest := NewRequest c |}.

End jsonrpc2.

(** ** Package methodcodec *)

Module methodcodec.

Definition PathHasMethod (path : string) (method : string) : bool :=
  let pathWords := strings.Split path "/" in
  if String.eqb method "" || (List.length pathWords <? 1)%nat then false
  else String.eqb (nth (List.length pathWords - 1) pathWords EmptyString) method.

Section Nested.
(** The codec underneath, [jsonrpc.Codec] of gorilla in the source. *)
Variable super : rpc.Codec.

Record NestedCodecRequest : Type := mkNested {
  nestedSuper : rpc.Request super;
  nestedErr : option error
}.

Definition Method (c : NestedCodecRequest) : string * option error :=
  match nestedErr c with
  | Some e => (EmptyString, Some e)
  | None => @rpc.Method _ (rpc.RequestOps super) (nestedSuper c)
  end.

Definition ReadRequest (c : NestedCodecRequest) (args : gval)
  : NestedCodecRequest * gval * option error :=
  match nestedErr c with
  | Some e => (c, args, Some e)
  | None =>
      let '(super', args', e) :=
        @rpc.ReadRequest _ (rpc.RequestOps super) (nestedSuper c) args in
      ({| nestedSuper := super'; nestedErr := nestedErr c |}, args', e)
  end.

Definition WriteResponse (c : NestedCodecRequest) (w : http.ResponseWriter)
    (reply : option gval) : http.ResponseWriter :=
  @rpc.WriteResponse _ (rpc.RequestOps super) (nestedSuper c) w reply.

Definition WriteError (c : NestedCodecRequest) (w : http.ResponseWriter)
    (status : Z) (err : error) : http.ResponseWriter :=
  @rpc.WriteError _ (rpc.RequestOps super) (nestedSuper c) w status err.

(** [NewRequest] of [MethodCodec]. Where the request underneath has an
    error, the source returns that request itself, which behaves as the
    nested request without an error of its own does. *)
Definition NewRequest (r : http.Request) : NestedCodecRequest :=
  let result := rpc.NewRequest super r in
  let path := http.Path r in
  let '(method, err) := @rpc.Method _ (rpc.RequestOps super) result in
  match err with
  | Some _ => {| nestedSuper := result; nestedErr := None |}
  | None =>
      {| nestedSuper := result;
         nestedErr :=
           if negb (PathHasMethod path method) then
             Some (errorString ("URL.Path '" ++ path
                                ++ "' does not end with method '" ++ method ++ "'"))
           else None |}
  end.
End Nested.

Arguments nestedSuper {super} _.
Arguments nestedErr {super} _.

Definition NewNestedCodecRequest (super : rpc.Codec) (superRequest : rpc.Request super)
    (err : option error) : NestedCodecRequest super :=
  {| nestedSuper := superRequest; nestedErr := err |}.

Definition NestedCodecRequest_ops (super : rpc.Codec)
  : rpc.CodecRequest (NestedCodecRequest super) :=
  {| rpc.Method := Method super; rpc.ReadRequest := ReadRequest super;
     rpc.WriteResponse := WriteResponse super; rpc.WriteError := WriteError super |}.

(** [MethodCodec] over the codec underneath, as the server holds it. *)
Definition MethodCodec (super : rpc.Codec) : rpc.Codec :=
  {| rpc.Request := NestedCodecRequest super;
     rpc.RequestOps := NestedCodecRequest_ops super;
     rpc.NewRequest := NewRequest super |}.

End methodcodec.

(** ** Package method

    The path/method check once more, in a package of its own. *)

Module method.

Definition PathHasMethod (path : string) (method : string) : bool :=
  let pathWords := strings.Split path "/" in
  if String.eqb method "" || (List.length pathWords <? 1)%nat then false
  else String.eqb (nth (List.length pathWords - 1) pathWords EmptyString) method.

End method.

(** ** The receiver of the tests

    [MockRpcObject] with its method [Action], of the test of the server with
    the codec of package jsonrpc2. *)

Module mock.

Record MockRpcObject : Type := mkMock {
  Called : Z;
  A : Z;
  B : Z;
  Result : Z;
  Err : option error
}.

Definition NewMockRpcObject : MockRpcObject :=
  {| Called := 0; A := 0; B := 0; Result := 0; Err := None |}.

Definition MockArgs : reflect.Type_ :=
  reflect.TStruct "main" "MockArgs" [("A", reflect.TInt); ("B", reflect.TInt)].

Definition MockReply : reflect.Type_ :=
  reflect.TStruct "main" "MockReply" [("Value", reflect.TInt)].

Definition MockRpcObjectType : reflect.Type_ :=
  reflect.TStruct "main" "MockRpcObject"
    [("Called", reflect.TInt); ("A", reflect.TInt); ("B", reflect.TInt);
     ("Result", reflect.TInt); ("Err", reflect.TInterface "" "error")].

(** The [int] in a field of a struct. *)
Definition intField (v : gval) (field : string) : Z :=
  match v with
  | VStruct fields =>
      match json.findIndex (fun f => String.eqb (fst f) field) fields with
      | Some i =>
          match fields !! i with
          | Some (_, VInt n) => n
          | _ => 0
          end
      | None => 0
      end
  | _ => 0
  end.

(** [Action]; both pointers are those of the server and not nil. *)
Definition Action (m : MockRpcObject) (r : http.Request) (args reply : gval)
  : MockRpcObject * gval * option error :=
  let called := wrap64 (Called m + 1) in
  let a := intField args "A" in
  let b := intField args "B" in
  if (a =? b)%Z then
    let e := errorString "expected error A==B - simple" in
    ({| Called := called; A := a; B := b; Result := Result m; Err := Some e |},
     reply, Some e)
  else if (a =? wrap64 (b * 10))%Z then
    let e := jsonrpc2.NewError 500 "expected error A==Bx10 - jsonrpc-aware"
               (Some (wire.DataValue (VPtr args))) in
    ({| Called := called; A := a; B := b; Result := Result m; Err := Some e |},
     reply, Some e)
  else
    let result := wrap64 (a - b) in
    ({| Called := called; A := a; B := b; Result := result; Err := Err m |},
     VStruct [("Value", VInt result)], None).

Definition ActionMethod : reflect.Method MockRpcObject :=
  {| reflect.MethodName := "Action";
     reflect.MethodPkgPath := "";
     reflect.In := [reflect.TPtr MockRpcObjectType; reflect.TPtr rpcserver.TypeOfRequest;
                    reflect.TPtr MockArgs; reflect.TPtr MockReply];
     reflect.Out := [rpcserver.TypeOfError];
     reflect.Func := Action |}.

(** The mock as [NewServer] receives it. *)
Definition receiverOf (m : MockRpcObject) : reflect.Value MockRpcObject :=
  {| reflect.Interface_ := m; reflect.TypeOf := reflect.TPtr MockRpcObjectType;
     reflect.Methods := [ActionMethod] |}.

(** The entry of [Action] in the method table, and the service registration
    builds for the mock (see [NewRpcService_mock]). *)
Definition ActionSpec : rpcserver.RpcServiceMethod MockRpcObject :=
  {| rpcserver.method := ActionMethod; rpcserver.argsType := MockArgs;
     rpcserver.replyType := MockReply |}.

Definition service (m : MockRpcObject) : rpcserver.RpcService MockRpcObject :=
  {| rpcserver.name := "MockRpcObject"; rpcserver.rcvr := m;
     rpcserver.rcvrType := reflect.TPtr MockRpcObjectType;
     rpcserver.methods := {["Action" := ActionSpec]} |}.

(** The server of the tests: the mock behind the codec of package jsonrpc2,
    registered for [application/json]. *)
Definition server (codec : jsonrpc2.Codec) : rpcserver.Server MockRpcObject :=
  rpcserver.RegisterCodec
    {| rpcserver.codecs := ∅; rpcserver.service := service NewMockRpcObject |}
    (jsonrpc2.asCodec codec) "application/json".

(** The texts of the tests are written with an apostrophe where JSON has a
    double quote. *)
Fixpoint text (s : string) : string :=
  match s with
  | EmptyString => EmptyString
  | String c s' => String (if Ascii.eqb c "'" then dquote else c) (text s')
  end.

Definition post (path body : string) : http.Request :=
  {| http.ReqMethod := "POST"; http.Path := path; http.ReqHeader := ∅;
     http.Body := body |}.

(** [performRequest] of the tests, with the codec left to the test: the mock
    afterwards and the recorded response, or the error of [NewServer]. *)
Definition performRequest (codec : jsonrpc2.Codec) (getOrPost path body : string)
  : rpcserver.Served MockRpcObject + error :=
  match rpcserver.NewServer (receiverOf NewMockRpcObject) with
  | inr e => inr e
  | inl server =>
      let server := rpcserver.RegisterCodec server (jsonrpc2.asCodec codec)
                      "application/json" in
      let req := {| http.ReqMethod := getOrPost; http.Path := path;
                    http.ReqHeader := ∅; http.Body := body |} in
      inl (rpcserver.ServeHTTP server http.NewRecorder req)
  end.

End mock.

(** ** The service of the sample program

    The two methods of [Arith], of jsonrpc-sample/main.go. [Arith] is an
    [int] that the methods do not look at. *)

Module arith.

Definition Args : reflect.Type_ :=
  reflect.TStruct "main" "Args" [("A", reflect.TInt); ("B", reflect.TInt)].

Definition Quotient : reflect.Type_ :=
  reflect.TStruct "main" "Quotient" [("Quo", reflect.TInt); ("Rem", reflect.TInt)].

Definition Multiply (t : Z) (r : http.Request) (args reply : gval)
  : Z * gval * option error :=
  (t, VInt (wrap64 (mock.intField args "A" * mock.intField args "B")), None).

(** The division of Go truncates towards zero, and the remainder has the
    sign of the dividend. *)
Definition Divide (t : Z) (r : http.Request) (args quo : gval)
  : Z * gval * option error :=
  if (mock.intField args "B" =? 0)%Z then (t, quo, Some (errorString "divide by zero"))
  else
    (t, VStruct [("Quo", VInt (wrap64 (Z.quot (mock.intField args "A")
                                              (mock.intField args "B"))));
                 ("Rem", VInt (Z.rem (mock.intField args "A") (mock.intField args "B")))],
     None).

End arith.

(** * Properties *)

(** ** Notions the properties are stated with *)

(** The segments of a text, joined again by the separator. *)
Fixpoint Join (sep : ascii) (ws : list string) : string :=
  match ws with
  | [] => ""
  | [w] => w
  | w :: ws' => w ++ String sep (Join sep ws')
  end.

(** [seg] is the final segment of [path]: it has no slash, and it is the whole
    path or what follows a slash of it. It is empty for a path that ends in a
    slash. *)
Definition isFinalSegment (path seg : string) : Prop :=
  strings.Count seg "/" = 0%nat /\
  (path = seg \/ exists pre, path = pre ++ String "/" seg).

(** The numeric code of the error of a codec request, if it has one. *)
Definition codeOf (e : option error) : option Z :=
  match e with
  | Some (jsonError e) => Some (wire.Code e)
  | _ => None
  end.

(** [w'] is [w] after more bytes, at least one, went into the body. *)
Definition wrote (w w' : http.ResponseWriter) : Prop :=
  exists bytes, bytes <> "" /\ http.BodyBytes w' = http.BodyBytes w ++ bytes.

(** The envelopes the codec builds for a codec request: the one of
    [WriteResponse] for a reply, the nil interface among them, and the one of
    [WriteError]. *)
Inductive envelopeOf (cr : jsonrpc2.CodecRequest) : jsonrpc2.serverResponse -> Prop :=
| envelope_result (reply : option gval) :
    envelopeOf cr (jsonrpc2.responseOf cr reply)
| envelope_error (status : Z) (e : error) :
    envelopeOf cr (jsonrpc2.errorResponseOf cr status e).


(** The same service under another name. *)
Definition renamed {R : Type} (n : string) (s : rpcserver.RpcService R)
  : rpcserver.RpcService R :=
  {| rpcserver.name := n; rpcserver.rcvr := rpcserver.rcvr s;
     rpcserver.rcvrType := rpcserver.rcvrType s;
     rpcserver.methods := rpcserver.methods s |}.

(** The signature of a method that registration takes: exported, with a
    pointer to the request, a pointer to the arguments and a pointer to the
    reply after the receiver, the two of types that are exported or
    predeclared, and with [error] as its only result. *)
Definition eligible {R : Type} (m : reflect.Method R) (e : rpcserver.RpcServiceMethod R)
  : Prop :=
  rpcserver.method e = m /\
  reflect.MethodPkgPath m = "" /\
  (exists receiverType,
     reflect.In m = [receiverType; reflect.TPtr rpcserver.TypeOfRequest;
                     reflect.TPtr (rpcserver.argsType e);
                     reflect.TPtr (rpcserver.replyType e)]) /\
  rpcserver.IsExportedOrBuiltin (rpcserver.argsType e) = true /\
  rpcserver.IsExportedOrBuiltin (rpcserver.replyType e) = true /\
  reflect.Out m = [rpcserver.TypeOfError].

(** The id member of an envelope: left out for a request without id. *)
Definition idMember (id : option json.RawMessage) : string :=
  match id with
  | Some raw => "," ++ json.key "id" ++ json.marshalRaw raw
  | None => ""
  end.

(** The text of a result envelope, for the text of the result. *)
Definition resultEnvelope (result : string) (id : option json.RawMessage) : string :=
  "{" ++ json.key "jsonrpc" ++ json.quote "2.0"
  ++ "," ++ json.key "result" ++ result ++ idMember id ++ "}".

(** The text of an error envelope; [data] is the data member with its comma
    and key, or empty. *)
Definition errorEnvelope (code : Z) (message data : string)
    (id : option json.RawMessage) : string :=
  "{" ++ json.key "jsonrpc" ++ json.quote "2.0"
  ++ "," ++ json.key "error"
  ++ "{" ++ json.key "code" ++ json.intString code
  ++ "," ++ json.key "message" ++ json.quote message ++ data ++ "}"
  ++ idMember id ++ "}".

(** A text the encoder copies as it is: no white space, none of the
    characters it escapes for HTML, and no byte [0xE2], which starts the line
    separators it escapes. *)
Definition verbatim (raw : string) : bool :=
  forallb (fun c => negb (json.isSpace c) && negb (json.isHTML c)
                    && negb (nat_of_ascii c =? 226)%nat)
    (list_ascii_of_string raw).

(** The requests of the scenarios, sent to the server of the tests. *)
Module scenario.

(** [Test_01_Sanity]: the method is named as the tests name it. *)
Definition sanity : http.Request :=
  mock.post "/svc/Action"
    (mock.text "{'jsonrpc':'2.0','method':'Action','id':1,'params':{'A':5,'B':2}}").

(** The same call with the method name qualified by the service. *)
Definition qualified : http.Request :=
  mock.post "/svc/MockRpcObject.Action"
    (mock.text "{'jsonrpc':'2.0','method':'MockRpcObject.Action','id':1,'params':{'A':5,'B':2}}").

(** [Test_05_MissingMethodHandle]: the path names another method. *)
Definition wrongPath : http.Request :=
  mock.post "/svc/Wrong"
    (mock.text "{'jsonrpc':'2.0','method':'Action','id':1,'params':{'A':5,'B':2}}").

(** Parameters that bind neither by name nor by position. *)
Definition badParams : http.Request :=
  mock.post "/svc/MockRpcObject.Action"
    (mock.text "{'jsonrpc':'2.0','method':'MockRpcObject.Action','id':1,'params':'x'}").

(** A notification, to a method that returns an error. *)
Definition notification : http.Request :=
  mock.post "/svc/MockRpcObject.Action"
    (mock.text "{'jsonrpc':'2.0','method':'MockRpcObject.Action','params':{'A':5,'B':5}}").

(** The codec with notification suppression on. *)
Definition quietCodec : jsonrpc2.Codec := {| jsonrpc2.RespectNotifyMessages := true |}.

(** The qualified call, asked for with GET. *)
Definition withGet : http.Request :=
  {| http.ReqMethod := "GET"; http.Path := http.Path qualified; http.ReqHeader := ∅;
     http.Body := http.Body qualified |}.

(** The qualified call under a content type. *)
Definition typed (contentType : string) : http.Request :=
  {| http.ReqMethod := "POST"; http.Path := http.Path qualified;
     http.ReqHeader := {["Content-Type" := [contentType]]};
     http.Body := http.Body qualified |}.

(** A call of a method the mock does not have. *)
Definition unknownMethod : http.Request :=
  mock.post "/svc/MockRpcObject.Missing"
    (mock.text "{'jsonrpc':'2.0','method':'MockRpcObject.Missing','id':1}").

(** The call without parameters. *)
Definition noParams : http.Request :=
  mock.post "/svc/MockRpcObject.Action"
    (mock.text "{'jsonrpc':'2.0','method':'MockRpcObject.Action','id':1}").

(** The call of [Test_07_ErrorAny], qualified: equal arguments, for which
    [Action] returns a plain error. *)
Definition equalArgs : http.Request :=
  mock.post "/svc/MockRpcObject.Action"
    (mock.text "{'jsonrpc':'2.0','method':'MockRpcObject.Action','id':1,'params':{'A':5,'B':5}}").

(** The call of [Test_08_ErrorSpecific], qualified: one argument ten times
    the other, for which [Action] returns an error of package jsonrpc2 with
    the arguments as its data. *)
Definition tenfold : http.Request :=
  mock.post "/svc/MockRpcObject.Action"
    (mock.text "{'jsonrpc':'2.0','method':'MockRpcObject.Action','id':1,'params':{'A':10,'B':1}}").

(** A codec that leaves the path alone, as the one of gorilla does: it takes
    the body of the request for the name of the method, binds nothing and
    writes nothing. *)
Definition bodyNameOps : rpc.CodecRequest string :=
  {| rpc.Method := fun body => (body, None);
     rpc.ReadRequest := fun body args => (body, args, None);
     rpc.WriteResponse := fun _ w _ => w;
     rpc.WriteError := fun _ w _ _ => w |}.

Definition bodyNameCodec : rpc.Codec :=
  {| rpc.Request := string; rpc.RequestOps := bodyNameOps; rpc.NewRequest := http.Body |}.

(** The mock behind a codec of any kind. *)
Definition serverWith (codec : rpc.Codec) : rpcserver.Server mock.MockRpcObject :=
  rpcserver.RegisterCodec
    {| rpcserver.codecs := ∅; rpcserver.service := mock.service mock.NewMockRpcObject |}
    codec "application/json".

(** A receiver with a method whose reply encoding/json has no encoding for:
    [func (f *Feed) Watch(r *http.Request, args *MockArgs, reply *chan int) error],
    which returns nil. *)
Definition FeedType : reflect.Type_ := reflect.TStruct "main" "Feed" [].

Definition WatchMethod : reflect.Method unit :=
  {| reflect.MethodName := "Watch";
     reflect.MethodPkgPath := "";
     reflect.In := [reflect.TPtr FeedType; reflect.TPtr rpcserver.TypeOfRequest;
                    reflect.TPtr mock.MockArgs; reflect.TPtr reflect.TChan];
     reflect.Out := [rpcserver.TypeOfError];
     reflect.Func := fun f _ _ reply => (f, reply, None) |}.

Definition feed : reflect.Value unit :=
  {| reflect.Interface_ := tt; reflect.TypeOf := reflect.TPtr FeedType;
     reflect.Methods := [WatchMethod] |}.

Definition WatchSpec : rpcserver.RpcServiceMethod unit :=
  {| rpcserver.method := WatchMethod; rpcserver.argsType := mock.MockArgs;
     rpcserver.replyType := reflect.TChan |}.

Definition feedServer : rpcserver.Server unit :=
  rpcserver.RegisterCodec
    {| rpcserver.codecs := ∅;
       rpcserver.service :=
         {| rpcserver.name := "Feed"; rpcserver.rcvr := tt;
            rpcserver.rcvrType := reflect.TPtr FeedType;
            rpcserver.methods := {["Watch" := WatchSpec]} |} |}
    (jsonrpc2.asCodec jsonrpc2.NewCodec) "application/json".

Definition watch : http.Request :=
  mock.post "/svc/Feed.Watch"
    (mock.text "{'jsonrpc':'2.0','method':'Feed.Watch','id':1}").

End scenario.

(** ** Strings and their segments *)

#[local] Arguments String.append !_ _ : simpl nomatch.

Lemma append_assoc (a b c : string) : (a ++ b) ++ c = a ++ (b ++ c).
Proof. induction a as [|x a IH]; simpl; [reflexivity|now rewrite IH]. Qed.

Lemma append_not_empty (a : string) (c : ascii) (b : string) : a ++ String c b <> "".
Proof. destruct a; discriminate. Qed.

Lemma nth_pred_length {A : Type} (l : list A) (d : A) :
  nth (List.length l - 1) l d = List.last l d.
Proof.
  induction l as [|x l IH]; [reflexivity|].
  destruct l as [|y l]; [reflexivity|].
  cbn [List.length List.last] in *.
  replace (S (S (List.length l)) - 1)%nat with (S (S (List.length l) - 1)) by lia.
  exact IH.
Qed.

Section SplitFacts.
Variable sep : ascii.

Lemma Split_not_nil (s : string) : strings.Split s sep <> [].
Proof.
  destruct s as [|c s]; simpl; [discriminate|].
  destruct (Ascii.eqb c sep); [discriminate|].
  destruct (strings.Split s sep); discriminate.
Qed.

Lemma Split_length (s : string) :
  List.length (strings.Split s sep) = S (strings.Count s sep).
Proof.
  induction s as [|c s IH]; simpl; [reflexivity|].
  destruct (Ascii.eqb c sep); simpl.
  - now rewrite IH.
  - destruct (strings.Split s sep) as [|w ws] eqn:E; simpl in *; lia.
Qed.

Lemma Split_no_sep (s : string) :
  strings.Count s sep = 0%nat -> strings.Split s sep = [s].
Proof.
  induction s as [|c s IH]; simpl; [reflexivity|].
  destruct (Ascii.eqb c sep); simpl; [discriminate|].
  intros H. now rewrite (IH H).
Qed.

Lemma Split_app (a b : string) :
  strings.Split (a ++ String sep b) sep
  = (strings.Split a sep ++ strings.Split b sep)%list.
Proof.
  revert b. induction a as [|c a IH]; intros b; simpl.
  - now rewrite Ascii.eqb_refl.
  - destruct (Ascii.eqb c sep); simpl.
    + now rewrite IH.
    + rewrite IH.
      destruct (strings.Split a sep) as [|w ws] eqn:E; simpl.
      * now destruct (Split_not_nil a).
      * reflexivity.
Qed.

Lemma Count_app (a b : string) :
  strings.Count (a ++ b) sep = (strings.Count a sep + strings.Count b sep)%nat.
Proof.
  induction a as [|c a IH]; simpl; [reflexivity|]. rewrite IH. lia.
Qed.

(** The segments have no separator in them. *)
Lemma Split_segments (s w : string) :
  In w (strings.Split s sep) -> strings.Count w sep = 0%nat.
Proof.
  revert w. induction s as [|c s IH]; simpl; intros w.
  - intros [<-|[]]. reflexivity.
  - destruct (Ascii.eqb c sep) eqn:Ec.
    + intros [<-|H]; [reflexivity|now apply IH].
    + destruct (strings.Split s sep) as [|x xs] eqn:E.
      * intros [<-|[]]. simpl. now rewrite Ec.
      * intros [<-|H].
        -- simpl. rewrite Ec. apply IH. now left.
        -- apply IH. now right.
Qed.

(** Joining the segments with the separator gives the text back. *)
Lemma Join_Split (s : string) : Join sep (strings.Split s sep) = s.
Proof.
  induction s as [|c s IH]; simpl; [reflexivity|].
  destruct (Ascii.eqb c sep) eqn:Ec.
  - apply Ascii.eqb_eq in Ec. subst c.
    destruct (strings.Split s sep) as [|x xs] eqn:E.
    + now destruct (Split_not_nil s).
    + cbn [Join]. cbn [Join] in IH. simpl. now rewrite IH.
  - destruct (strings.Split s sep) as [|x xs] eqn:E.
    + now destruct (Split_not_nil s).
    + destruct xs; simpl in *; now rewrite <- IH.
Qed.

Lemma Join_snoc (ws : list string) (w : string) :
  ws <> [] -> Join sep (ws ++ [w]) = Join sep ws ++ String sep w.
Proof.
  induction ws as [|x ws IH]; [congruence|]. intros _.
  destruct ws as [|y ws]; [reflexivity|].
  change (Join sep ((x :: y :: ws) ++ [w]))
    with (x ++ String sep (Join sep ((y :: ws) ++ [w]))).
  rewrite IH by discriminate.
  change (Join sep (x :: y :: ws)) with (x ++ String sep (Join sep (y :: ws))).
  now rewrite append_assoc.
Qed.

(** A text splits in two at a separator exactly when it is two texts without
    separator, joined by one. *)
Lemma Split_two (s a b : string) :
  strings.Split s sep = [a; b] <->
  s = a ++ String sep b /\ strings.Count a sep = 0%nat /\ strings.Count b sep = 0%nat.
Proof.
  split.
  - intros E. pose proof (Join_Split s) as J. rewrite E in J. simpl in J.
    split; [now rewrite <- J|].
    split; apply (Split_segments s); rewrite E; simpl; auto.
  - intros (-> & Ha & Hb). now rewrite Split_app, !Split_no_sep.
Qed.

End SplitFacts.

(** ** The path/method check *)

Lemma LastPart_last (path : string) :
  rpcserver.LastPart path = List.last (strings.Split path "/") "".
Proof.
  unfold rpcserver.LastPart.
  rewrite Split_length. cbn [Nat.eqb]. rewrite <- Split_length.
  apply nth_pred_length.
Qed.

Lemma LastPart_final (path : string) : isFinalSegment path (rpcserver.LastPart path).
Proof.
  rewrite LastPart_last.
  destruct (exists_last (Split_not_nil "/" path)) as (init & seg & E).
  rewrite E, List.last_last. split.
  - apply (Split_segments "/" path). rewrite E. apply in_or_app. right. now left.
  - pose proof (Join_Split "/" path) as J. rewrite E in J.
    destruct init as [|x init].
    + left. now rewrite <- J.
    + right. exists (Join "/" (x :: init)). rewrite <- J. now apply Join_snoc.
Qed.

Lemma final_LastPart (path seg : string) :
  isFinalSegment path seg -> rpcserver.LastPart path = seg.
Proof.
  intros [H0 [->|[pre ->]]]; rewrite LastPart_last.
  - now rewrite Split_no_sep.
  - rewrite Split_app, (Split_no_sep _ seg H0). apply List.last_last.
Qed.

(** C8 (amended). The check of package rpcserver holds exactly when the
    method is the final segment of the path, which is the text after the last
    slash and is empty for a path that ends in one. The check of package
    methodcodec is that check together with the method not being empty: the
    two agree on every path for every method that is not empty, and on the
    empty method the one of methodcodec always fails. *)
Theorem PathHasMethod_checks (path method : string) :
  (rpcserver.PathHasMethod path method = true <-> isFinalSegment path method) /\
  methodcodec.PathHasMethod path method
  = negb (String.eqb method "") && rpcserver.PathHasMethod path method.
Proof.
  split.
  - unfold rpcserver.PathHasMethod. rewrite String.eqb_eq. split.
    + intros <-. apply LastPart_final.
    + apply final_LastPart.
  - unfold methodcodec.PathHasMethod, rpcserver.PathHasMethod, rpcserver.LastPart.
    rewrite Split_length. cbn [Nat.ltb Nat.leb Nat.eqb].
    destruct (String.eqb method ""); reflexivity.
Qed.

(** C8 as stated fails: on the path [/svc/] and the empty method the check of
    rpcserver holds and the one of methodcodec does not; and a path that ends
    in a slash fails both checks for the segment before that slash. *)
Lemma PathHasMethod_checks_disagree :
  ~ (forall path method : string,
       rpcserver.PathHasMethod path method = methodcodec.PathHasMethod path method) /\
  rpcserver.PathHasMethod "/svc/Action/" "Action" = false /\
  methodcodec.PathHasMethod "/svc/Action/" "Action" = false.
Proof.
  split; [|split; reflexivity].
  intros H. specialize (H "/svc/" ""). vm_compute in H. discriminate.
Qed.

(** ** Resolving a method *)

Section GetFacts.
Context {R : Type}.
Implicit Types (s : rpcserver.RpcService R) (method : string).

Lemma Get_ill_formed (o : option (rpcserver.RpcService R)) method :
  List.length (strings.Split method ".") <> 2%nat ->
  rpcserver.Get o method = inr (rpcserver.errIllFormed method).
Proof.
  intros H. unfold rpcserver.Get.
  destruct (Nat.eqb_spec (List.length (strings.Split method ".")) 2);
    [contradiction|reflexivity].
Qed.

Lemma Get_two s method a b :
  strings.Split method "." = [a; b] ->
  rpcserver.Get (Some s) method =
  match rpcserver.methods s !! b with
  | Some m => inl m
  | None => inr (rpcserver.errNoMethod method)
  end.
Proof. intros E. unfold rpcserver.Get. rewrite E. reflexivity. Qed.

Lemma errNoService_other method method' :
  rpcserver.errNoService method <> rpcserver.errIllFormed method' /\
  rpcserver.errNoService method <> rpcserver.errNoMethod method'.
Proof.
  split; intros H;
    unfold rpcserver.errNoService, rpcserver.errIllFormed, rpcserver.errNoMethod in H;
    simpl in H; discriminate.
Qed.

(** C4 (amended). [Get] on a service: a name whose split at the dots does not
    give two segments fails as ill-formed; a name of two segments fails with
    the unknown-method error when the second segment is no key of the method
    table, and resolves to the entry of the second segment otherwise. Nothing
    asks a segment to be non-empty. *)
Theorem Get_segments s method :
  (List.length (strings.Split method ".") <> 2%nat ->
   rpcserver.Get (Some s) method = inr (rpcserver.errIllFormed method)) /\
  (forall a b, strings.Split method "." = [a; b] ->
     rpcserver.methods s !! b = None ->
     rpcserver.Get (Some s) method = inr (rpcserver.errNoMethod method)) /\
  (forall a b m, strings.Split method "." = [a; b] ->
     rpcserver.methods s !! b = Some m ->
     rpcserver.Get (Some s) method = inl m).
Proof.
  split; [apply Get_ill_formed|].
  split; intros a b; [intros E H|intros m E H];
    rewrite (Get_two _ _ _ _ E), H; reflexivity.
Qed.

(** C10 (amended). [Get] on [a.b] succeeds exactly when neither [a] nor [b]
    has a dot in it and [b] is a key of the method table; the name of the
    service plays no part, and on a service that is not nil the
    unknown-service error never comes out. *)
Theorem Get_ignores_service s (a b : string) :
  ((exists m, rpcserver.Get (Some s) (a ++ String "." b) = inl m) <->
   strings.Count a "." = 0%nat /\ strings.Count b "." = 0%nat /\
   is_Some (rpcserver.methods s !! b)) /\
  (forall n, rpcserver.Get (Some (renamed n s)) (a ++ String "." b)
             = rpcserver.Get (Some s) (a ++ String "." b)) /\
  (forall method method',
     rpcserver.Get (Some s) method <> inr (rpcserver.errNoService method')).
Proof.
  split; [|split].
  - split.
    + intros [m Hm].
      destruct (Nat.eq_dec (List.length (strings.Split (a ++ String "." b) ".")) 2)
        as [L|L].
      * rewrite Split_length, Count_app in L. simpl in L.
        assert (Ha : strings.Count a "." = 0%nat) by lia.
        assert (Hb : strings.Count b "." = 0%nat) by lia.
        rewrite (Get_two s _ a b) in Hm by (apply Split_two; auto).
        destruct (rpcserver.methods s !! b) eqn:E; [eauto|discriminate].
      * rewrite Get_ill_formed in Hm by assumption. discriminate.
    + intros (Ha & Hb & [m Hm]). exists m.
      rewrite (Get_two s _ a b) by (apply Split_two; auto). now rewrite Hm.
  - intros n. reflexivity.
  - intros method method' H.
    unfold rpcserver.Get in H.
    destruct (negb _).
    + assert (E : rpcserver.errNoService method' = rpcserver.errIllFormed method)
        by congruence.
      now apply errNoService_other in E.
    + destruct (rpcserver.methods s !! _); [discriminate|].
      assert (E : rpcserver.errNoService method' = rpcserver.errNoMethod method)
        by congruence.
      now apply errNoService_other in E.
Qed.

End GetFacts.

(** The three outcomes of [Get], on the service of the mock. *)
Lemma Get_segments_witness :
  rpcserver.Get (Some (mock.service mock.NewMockRpcObject)) "Action"
  = inr (rpcserver.errIllFormed "Action") /\
  rpcserver.Get (Some (mock.service mock.NewMockRpcObject)) ".Nothing"
  = inr (rpcserver.errNoMethod ".Nothing") /\
  rpcserver.Get (Some (mock.service mock.NewMockRpcObject)) ".Action"
  = inl mock.ActionSpec.
Proof.
  split; [|split].
  - apply (proj1 (Get_segments (mock.service mock.NewMockRpcObject) "Action")).
    vm_compute. lia.
  - apply (proj1 (proj2 (Get_segments (mock.service mock.NewMockRpcObject) ".Nothing"))
             "" "Nothing"); reflexivity.
  - apply (proj2 (proj2 (Get_segments (mock.service mock.NewMockRpcObject) ".Action"))
             "" "Action"); reflexivity.
Defined.

(** C4 as stated fails: [.Action] has an empty segment and resolves. *)
Lemma Get_resolves_empty_segment :
  ~ (forall method : string,
       In "" (strings.Split method ".") ->
       forall m, rpcserver.Get (Some (mock.service mock.NewMockRpcObject)) method <> inl m).
Proof.
  intros H. apply (H ".Action" (or_introl eq_refl) mock.ActionSpec). reflexivity.
Qed.

(** C10 as stated fails: [Action] is a key of the table, and [x.y.Action],
    which is [a.b] for [a = x.y] and [b = Action], does not resolve. *)
Lemma Get_dotted_service_fails :
  ~ (forall a b : string,
       (exists m, rpcserver.Get (Some (mock.service mock.NewMockRpcObject))
                    (a ++ String "." b) = inl m)
       <-> is_Some (rpcserver.methods (mock.service mock.NewMockRpcObject) !! b)).
Proof.
  intros H. destruct (proj2 (H "x.y" "Action")) as [m Hm].
  - exists mock.ActionSpec. reflexivity.
  - vm_compute in Hm. discriminate.
Qed.

(** ** Registration *)

Section Registration.
Context {R : Type}.
Implicit Types (ms : list (reflect.Method R))
               (table : gmap string (rpcserver.RpcServiceMethod R)).

Lemma setupMethods_none ms table :
  Forall (fun m => rpcserver.suitable m = None) ms ->
  rpcserver.setupMethods ms table = table.
Proof.
  intros H. revert table. induction H as [|m ms Hm _ IH]; intros table; [reflexivity|].
  cbn [rpcserver.setupMethods]. rewrite Hm. apply IH.
Qed.

Lemma setupMethods_keeps ms table (k : string) :
  is_Some (table !! k) -> is_Some (rpcserver.setupMethods ms table !! k).
Proof.
  revert table. induction ms as [|m ms IH]; intros table H; [exact H|].
  cbn [rpcserver.setupMethods]. destruct (rpcserver.suitable m); [|now apply IH].
  apply IH. destruct (decide (reflect.MethodName m = k)) as [->|Hne].
  - rewrite lookup_insert_eq. eauto.
  - now rewrite lookup_insert_ne.
Qed.

Lemma setupMethods_some ms table m entry :
  In m ms -> rpcserver.suitable m = Some entry ->
  is_Some (rpcserver.setupMethods ms table !! reflect.MethodName m).
Proof.
  revert table. induction ms as [|m' ms IH]; intros table [].
  - subst m'. intros Hs. cbn [rpcserver.setupMethods]. rewrite Hs.
    apply setupMethods_keeps. rewrite lookup_insert_eq. eauto.
  - intros Hs. cbn [rpcserver.setupMethods].
    destruct (rpcserver.suitable m'); now apply IH.
Qed.

(** Registration fails for a receiver none of whose methods is suitable; and
    under a name that is given it succeeds as soon as one method is, with
    that method in the table. *)
Theorem NewRpcService_registers (receiver : reflect.Value R) (name : string) :
  (Forall (fun m => rpcserver.suitable m = None) (reflect.Methods receiver) ->
   exists e, rpcserver.NewRpcService receiver name = inr e) /\
  (forall m entry,
     name <> "" -> In m (reflect.Methods receiver) -> rpcserver.suitable m = Some entry ->
     exists service,
       rpcserver.NewRpcService receiver name = inl service /\
       rpcserver.name service = name /\
       is_Some (rpcserver.methods service !! reflect.MethodName m)).
Proof.
  split.
  - intros H. unfold rpcserver.NewRpcService.
    destruct (_ && _); [eauto|]. destruct (String.eqb _ ""); [eauto|].
    rewrite (setupMethods_none _ _ H). rewrite map_size_empty. cbn. eauto.
  - intros m entry Hn Hin Hs. unfold rpcserver.NewRpcService.
    apply String.eqb_neq in Hn. rewrite Hn. cbn [andb]. rewrite Hn.
    pose proof (setupMethods_some _ ∅ m entry Hin Hs) as [x Hx].
    destruct (Nat.eqb_spec (size (rpcserver.setupMethods (reflect.Methods receiver) ∅)) 0)
      as [E|_].
    + apply map_size_empty_iff in E. rewrite E, lookup_empty in Hx. discriminate.
    + eexists. split; [reflexivity|]. split; [reflexivity|]. cbn. eauto.
Qed.

End Registration.

Lemma NewRpcService_registers_witness :
  exists service,
    rpcserver.NewRpcService (mock.receiverOf mock.NewMockRpcObject) "Mock" = inl service /\
    rpcserver.name service = "Mock" /\
    is_Some (rpcserver.methods service !! "Action").
Proof.
  apply (proj2 (NewRpcService_registers (mock.receiverOf mock.NewMockRpcObject) "Mock")
           mock.ActionMethod mock.ActionSpec).
  - discriminate.
  - now left.
  - reflexivity.
Defined.

(** The service and the server the tests build are those of module [mock]. *)
Lemma NewRpcService_mock (m : mock.MockRpcObject) :
  rpcserver.NewRpcService (mock.receiverOf m) "" = inl (mock.service m).
Proof. reflexivity. Qed.

Lemma performRequest_server codec getOrPost path body :
  mock.performRequest codec getOrPost path body
  = inl (rpcserver.ServeHTTP (mock.server codec) http.NewRecorder
           {| http.ReqMethod := getOrPost; http.Path := path; http.ReqHeader := ∅;
              http.Body := body |}).
Proof. reflexivity. Qed.

(** ** The codec *)

Lemma NewRequest_request c r :
  jsonrpc2.request (jsonrpc2.NewRequest c r) = fst (jsonrpc2.decodeRequest (http.Body r)) /\
  jsonrpc2.respectNotifyMessages (jsonrpc2.NewRequest c r) = jsonrpc2.RespectNotifyMessages c.
Proof.
  unfold jsonrpc2.NewRequest. destruct (jsonrpc2.decodeRequest _). split; reflexivity.
Qed.

(** The code of the error of a new request: that of the first check that
    fails, in the order of the checks. *)
Lemma NewRequest_code c r :
  codeOf (jsonrpc2.err (jsonrpc2.NewRequest c r)) =
  let '(req, decodeErr) := jsonrpc2.decodeRequest (http.Body r) in
  match decodeErr with
  | Some _ => Some jsonrpc2.E_PARSE
  | None =>
      if negb (String.eqb (wire.Version req) "2.0") then Some jsonrpc2.E_INVALID_REQ
      else if String.eqb (wire.Method req) "" then Some jsonrpc2.E_NO_METHOD
      else if negb (String.eqb (rpcserver.LastPart (http.Path r)) (wire.Method req))
           then Some jsonrpc2.E_NO_METHOD
      else None
  end.
Proof.
  unfold jsonrpc2.NewRequest.
  destruct (jsonrpc2.decodeRequest _) as [req [msg|]]; [reflexivity|].
  cbn [jsonrpc2.err]. unfold jsonrpc2.Version.
  destruct (negb (String.eqb (wire.Version req) "2.0")); [reflexivity|].
  destruct (String.eqb (wire.Method req) ""); [reflexivity|].
  destruct (negb _); reflexivity.
Qed.

Lemma NewRequest_valid c r :
  jsonrpc2.err (jsonrpc2.NewRequest c r) = None ->
  let req := jsonrpc2.request (jsonrpc2.NewRequest c r) in
  wire.Version req = "2.0" /\ wire.Method req <> "" /\
  rpcserver.LastPart (http.Path r) = wire.Method req.
Proof.
  unfold jsonrpc2.NewRequest.
  destruct (jsonrpc2.decodeRequest _) as [req [msg|]];
    cbn [jsonrpc2.err jsonrpc2.request]; [discriminate|].
  unfold jsonrpc2.Version.
  destruct (String.eqb_spec (wire.Version req) "2.0"); cbn [negb]; [|discriminate].
  destruct (String.eqb_spec (wire.Method req) ""); [discriminate|].
  destruct (String.eqb_spec (rpcserver.LastPart (http.Path r)) (wire.Method req));
    cbn [negb]; [|discriminate].
  auto.
Qed.

(** C2. [NewRequest] checks in a fixed order and stops at the first check
    that fails: a body that does not decode into a request, the empty body
    among them, gives the code -32700; a body that decodes, with a version
    other than 2.0, gives -32600 whatever the other members and the path are;
    a body that decodes, with the version 2.0 and an empty or missing method,
    gives -32601 whatever the path is. *)
Theorem NewRequest_validation_order (c : jsonrpc2.Codec) (r : http.Request) :
  let req := fst (jsonrpc2.decodeRequest (http.Body r)) in
  let parsed := snd (jsonrpc2.decodeRequest (http.Body r)) = None in
  let code := codeOf (jsonrpc2.err (jsonrpc2.NewRequest c r)) in
  (http.Body r = "" -> code = Some (-32700)%Z) /\
  (~ parsed -> code = Some (-32700)%Z) /\
  (parsed -> wire.Version req <> "2.0" -> code = Some (-32600)%Z) /\
  (parsed -> wire.Version req = "2.0" -> wire.Method req = "" -> code = Some (-32601)%Z).
Proof.
  cbv zeta. rewrite NewRequest_code. split.
  - intros ->. reflexivity.
  - destruct (jsonrpc2.decodeRequest (http.Body r)) as [req [msg|]]; cbn [fst snd].
    + repeat split; try discriminate.
    + repeat split; try discriminate; try congruence.
      * intros _ H. apply String.eqb_neq in H. now rewrite H.
      * intros _ -> ->. reflexivity.
Qed.

(** The order of the checks at work: a body that is no JSON, a body with
    another version and no trouble with its method, and a body without a
    method. *)
Lemma NewRequest_validation_order_witness :
  codeOf (jsonrpc2.err (jsonrpc2.NewRequest jsonrpc2.NewCodec (mock.post "/svc/Action" "")))
  = Some (-32700)%Z /\
  codeOf (jsonrpc2.err (jsonrpc2.NewRequest jsonrpc2.NewCodec (mock.post "/svc/Action" "wtf")))
  = Some (-32700)%Z /\
  codeOf (jsonrpc2.err (jsonrpc2.NewRequest jsonrpc2.NewCodec
            (mock.post "/svc/Wrong" (mock.text "{'method':'','jsonrpc':'1.0'}"))))
  = Some (-32600)%Z /\
  codeOf (jsonrpc2.err (jsonrpc2.NewRequest jsonrpc2.NewCodec
            (mock.post "/svc/Wrong" (mock.text "{'jsonrpc':'2.0'}"))))
  = Some (-32601)%Z.
Proof.
  split; [|split; [|split]].
  - apply (proj1 (NewRequest_validation_order _ _)). reflexivity.
  - apply (proj1 (proj2 (NewRequest_validation_order _ _))). vm_compute. discriminate.
  - apply (proj1 (proj2 (proj2 (NewRequest_validation_order _ _))));
      vm_compute; [reflexivity|discriminate].
  - apply (proj2 (proj2 (proj2 (NewRequest_validation_order _ _)))); reflexivity.
Defined.

Lemma ReadRequest_request cr args :
  let cr' := fst (fst (jsonrpc2.ReadRequest cr args)) in
  jsonrpc2.request cr' = jsonrpc2.request cr /\
  jsonrpc2.respectNotifyMessages cr' = jsonrpc2.respectNotifyMessages cr.
Proof.
  unfold jsonrpc2.ReadRequest.
  destruct (jsonrpc2.err cr); [split; reflexivity|].
  destruct (wire.Params (jsonrpc2.request cr)) as [params|]; [|split; reflexivity].
  destruct (json.Unmarshal params args) as [args1 [e1|]]; [|split; reflexivity].
  destruct (json.UnmarshalArray1 params args1) as [args2 [e2|]]; split; reflexivity.
Qed.

(** C3, what the code does: when the parameters bind neither by name nor by
    position, [ReadRequest] reports an error that carries the raw parameters
    as its data, and whose code is -32600, the code of an invalid request, not
    the -32602 of invalid parameters. *)
Theorem ReadRequest_both_fail cr params args :
  jsonrpc2.err cr = None ->
  wire.Params (jsonrpc2.request cr) = Some params ->
  snd (json.Unmarshal params args) <> None ->
  snd (json.UnmarshalArray1 params (fst (json.Unmarshal params args))) <> None ->
  exists msg,
    snd (jsonrpc2.ReadRequest cr args)
    = Some (jsonError {| wire.Code := (-32600)%Z; wire.Message := msg;
                         wire.Data := Some (wire.DataRaw params) |}).
Proof.
  intros He Hp H1 H2. unfold jsonrpc2.ReadRequest. rewrite He, Hp.
  destruct (json.Unmarshal params args) as [args1 [e1|]]; [|now destruct H1].
  cbn [fst] in H2.
  destruct (json.UnmarshalArray1 params args1) as [args2 [e2|]]; [|now destruct H2].
  exists e2. reflexivity.
Qed.

(** The parameters ["x"], a string, for the arguments of [Action]. *)
Lemma ReadRequest_both_fail_witness :
  exists msg,
    snd (jsonrpc2.ReadRequest (jsonrpc2.NewRequest jsonrpc2.NewCodec scenario.badParams)
           (reflect.Zero mock.MockArgs))
    = Some (jsonError {| wire.Code := (-32600)%Z; wire.Message := msg;
                         wire.Data := Some (wire.DataRaw (mock.text "'x'")) |}).
Proof.
  apply ReadRequest_both_fail; vm_compute; (reflexivity || discriminate).
Defined.

(** ** Writing *)

Lemma Write_body w data : http.BodyBytes (http.Write w data) = http.BodyBytes w ++ data.
Proof. unfold http.Write, http.WriteHeader. destruct (http.wroteHeader w); reflexivity. Qed.

Lemma WriteError_body w status msg :
  http.BodyBytes (rpcserver.WriteError w status msg) = http.BodyBytes w ++ msg.
Proof.
  unfold rpcserver.WriteError. rewrite Write_body.
  unfold http.SetHeader, http.WriteHeader. destruct (http.wroteHeader w); reflexivity.
Qed.

Lemma WriteError_status w status msg :
  http.wroteHeader w = false ->
  http.Status (rpcserver.WriteError w status msg) = status.
Proof.
  intros H. unfold rpcserver.WriteError, http.Write, http.SetHeader, http.WriteHeader.
  rewrite H. reflexivity.
Qed.

Lemma writeServerResponse_quiet cr w res :
  wire.Id (jsonrpc2.request cr) = None -> jsonrpc2.respectNotifyMessages cr = true ->
  jsonrpc2.writeServerResponse cr w res = w.
Proof. intros Hid Hflag. unfold jsonrpc2.writeServerResponse. now rewrite Hid, Hflag. Qed.

Lemma not_quiet cr :
  wire.Id (jsonrpc2.request cr) <> None \/ jsonrpc2.respectNotifyMessages cr = false ->
  jsonrpc2.isNil (wire.Id (jsonrpc2.request cr)) && jsonrpc2.respectNotifyMessages cr
  = false.
Proof.
  intros [H| ->]; [|apply andb_false_r].
  destruct (wire.Id (jsonrpc2.request cr)); [reflexivity|congruence].
Qed.

Lemma writeServerResponse_wrote cr w res :
  wire.Id (jsonrpc2.request cr) <> None \/ jsonrpc2.respectNotifyMessages cr = false ->
  wrote w (jsonrpc2.writeServerResponse cr w res).
Proof.
  intros H. unfold jsonrpc2.writeServerResponse. rewrite (not_quiet cr H).
  destruct (jsonrpc2.encodeResponse res) as [bytes|].
  - exists (bytes ++ jsonrpc2.newline). split; [apply append_not_empty|].
    now rewrite Write_body.
  - exists json.errUnsupportedType. split; [discriminate|].
    now rewrite WriteError_body.
Qed.

Lemma writeServerResponse_nosniff cr w res :
  http.wroteHeader w = false ->
  wire.Id (jsonrpc2.request cr) <> None \/ jsonrpc2.respectNotifyMessages cr = false ->
  http.sentHeader
    (jsonrpc2.writeServerResponse cr (http.SetHeader w "x-content-type-options" "nosniff") res)
  !! "X-Content-Type-Options" = Some ["nosniff"].
Proof.
  intros Hw H. unfold jsonrpc2.writeServerResponse. rewrite (not_quiet cr H).
  assert (L : http.HeaderSet
                (http.HeaderSet (http.HeaderMap w) "x-content-type-options" "nosniff")
                "Content-Type" "application/json; charset=utf-8"
              !! "X-Content-Type-Options" = Some ["nosniff"]).
  { unfold http.HeaderSet.
    change (http.CanonicalMIMEHeaderKey "Content-Type") with "Content-Type".
    change (http.CanonicalMIMEHeaderKey "x-content-type-options")
      with "X-Content-Type-Options".
    rewrite lookup_insert_ne by discriminate. apply lookup_insert_eq. }
  destruct (jsonrpc2.encodeResponse res) as [bytes|];
    unfold rpcserver.WriteError, http.Write, http.WriteHeader, http.SetHeader,
      http.sentHeader;
    cbn [http.wroteHeader http.snapHeader http.HeaderMap]; rewrite Hw;
    cbn [http.wroteHeader http.snapHeader http.HeaderMap]; exact L.
Qed.

(** ** The server, with the codec of package jsonrpc2 *)

Section Dispatch.
Context {R : Type}.
Variables (s : rpcserver.Server R) (c : jsonrpc2.Codec) (r : http.Request).
Hypothesis post : http.ReqMethod r = "POST".
Hypothesis selected :
  rpcserver.selectCodec s (rpcserver.contentTypeOf r) = Some (jsonrpc2.asCodec c).

(** An error of the codec request ends the request with the status 400. *)
Lemma ServeHTTP_codec_error w e :
  jsonrpc2.err (jsonrpc2.NewRequest c r) = Some e ->
  rpcserver.ServeHTTP s w r
  = rpcserver.untouched s (rpcserver.WriteError w 400 (errorMessage e)).
Proof.
  intros He. unfold rpcserver.ServeHTTP. rewrite post.
  cbn [String.eqb Ascii.eqb Bool.eqb negb]. cbv zeta. rewrite selected.
  cbn [rpc.NewRequest rpc.RequestOps jsonrpc2.asCodec rpc.Method jsonrpc2.CodecRequest_ops].
  unfold jsonrpc2.Method. rewrite He. reflexivity.
Qed.

(** A request the codec finds no fault with passes the checks of the server
    on the method name and the path, which repeat those of the codec. *)
Lemma ServeHTTP_resolved w :
  jsonrpc2.err (jsonrpc2.NewRequest c r) = None ->
  rpcserver.ServeHTTP s w r =
  match rpcserver.Get (Some (rpcserver.service s))
          (wire.Method (jsonrpc2.request (jsonrpc2.NewRequest c r))) with
  | inr errGet => rpcserver.untouched s (rpcserver.WriteError w 404 (errorMessage errGet))
  | inl methodSpec =>
      let '(cr', args, errRead) :=
        jsonrpc2.ReadRequest (jsonrpc2.NewRequest c r)
          (reflect.Zero (rpcserver.argsType methodSpec)) in
      match errRead with
      | Some errRead => rpcserver.untouched s (jsonrpc2.WriteError cr' w 400 errRead)
      | None =>
          let '(rcvr_, reply, errResult) :=
            reflect.Func (rpcserver.method methodSpec) (rpcserver.rcvr (rpcserver.service s))
              r args (reflect.Zero (rpcserver.replyType methodSpec)) in
          let w := http.SetHeader w "x-content-type-options" "nosniff" in
          {| rpcserver.receiver := rcvr_;
             rpcserver.calls := [(reflect.MethodName (rpcserver.method methodSpec), args)];
             rpcserver.response :=
               match errResult with
               | None => jsonrpc2.WriteResponse cr' w (Some (VPtr reply))
               | Some e => jsonrpc2.WriteError cr' w 400 e
               end |}
      end
  end.
Proof.
  intros He. destruct (NewRequest_valid c r He) as (_ & Hm & Hp).
  unfold rpcserver.ServeHTTP. rewrite post.
  cbn [String.eqb Ascii.eqb Bool.eqb negb]. cbv zeta. rewrite selected.
  cbn [rpc.NewRequest rpc.RequestOps jsonrpc2.asCodec rpc.Method rpc.ReadRequest
       rpc.WriteError rpc.WriteResponse jsonrpc2.CodecRequest_ops].
  unfold jsonrpc2.Method. rewrite He.
  apply String.eqb_neq in Hm. rewrite Hm.
  unfold rpcserver.PathHasMethod. rewrite Hp, String.eqb_refl. cbn [negb].
  destruct (rpcserver.Get _ _) as [methodSpec|errGet]; [|reflexivity].
  destruct (jsonrpc2.ReadRequest _ _) as [[cr' args] [errRead|]]; [reflexivity|].
  destruct (reflect.Func _ _ _ _ _) as [[rcvr_ reply] [e|]]; reflexivity.
Qed.

End Dispatch.






(** C1, what the code does: on the request of [Test_01_Sanity], which names
    the method [Action] without a service, the server answers 404 with the
    ill-formed-name message of [Get], and [Action] is not called. *)
Theorem ServeHTTP_unqualified_method :
  let out := rpcserver.ServeHTTP (mock.server jsonrpc2.NewCodec) http.NewRecorder
               scenario.sanity in
  http.Status (rpcserver.response out) = 404%Z /\
  http.BodyBytes (rpcserver.response out)
  = "rpc: service/method request ill-formed: " ++ fmt.q "Action" /\
  rpcserver.calls out = [] /\
  mock.Called (rpcserver.receiver out) = 0%Z.
Proof. vm_compute. repeat split. Qed.

(** The call of C1 with the method name qualified by a service: the status
    is 200, the body is the result envelope followed by a newline, and
    [Action] is called once. *)
Theorem ServeHTTP_qualified_method :
  let out := rpcserver.ServeHTTP (mock.server jsonrpc2.NewCodec) http.NewRecorder
               scenario.qualified in
  http.Status (rpcserver.response out) = 200%Z /\
  http.BodyBytes (rpcserver.response out)
  = mock.text "{'jsonrpc':'2.0','result':{'Value':3},'id':1}" ++ jsonrpc2.newline /\
  rpcserver.calls out = [("Action", VStruct [("A", VInt 5); ("B", VInt 2)])] /\
  mock.Called (rpcserver.receiver out) = 1%Z.
Proof. vm_compute. repeat split. Qed.

(** C5, what the code does: when the body is a well-formed request for a
    method that the last part of the path does not name, the codec reports
    the mismatch as an error of its own, and the server answers with the
    status 400, not 404; the body is that plain message and no method is
    called. *)
Theorem ServeHTTP_path_mismatch {R : Type} (s : rpcserver.Server R)
    (c : jsonrpc2.Codec) (r : http.Request) (w : http.ResponseWriter)
    (req : wire.serverRequest) :
  http.ReqMethod r = "POST" ->
  rpcserver.selectCodec s (rpcserver.contentTypeOf r) = Some (jsonrpc2.asCodec c) ->
  jsonrpc2.decodeRequest (http.Body r) = (req, None) ->
  wire.Version req = "2.0" ->
  wire.Method req <> "" ->
  rpcserver.LastPart (http.Path r) <> wire.Method req ->
  http.wroteHeader w = false ->
  let out := rpcserver.ServeHTTP s w r in
  http.Status (rpcserver.response out) = 400%Z /\
  http.BodyBytes (rpcserver.response out)
  = http.BodyBytes w ++ "rpc: URL.Path '" ++ http.Path r
    ++ "' does not end with method Name '" ++ wire.Method req ++ "'" /\
  rpcserver.calls out = [] /\
  rpcserver.receiver out = rpcserver.rcvr (rpcserver.service s).
Proof.
  intros Hpost Hsel Hdec Hv Hm Hp Hw out.
  assert (E : jsonrpc2.err (jsonrpc2.NewRequest c r)
              = Some (jsonrpc2.NewError jsonrpc2.E_NO_METHOD
                        ("rpc: URL.Path '" ++ http.Path r
                         ++ "' does not end with method Name '" ++ wire.Method req ++ "'")
                        (Some (wire.DataRequest req)))).
  { unfold jsonrpc2.NewRequest. rewrite Hdec. cbn [jsonrpc2.err].
    rewrite Hv. unfold jsonrpc2.Version. rewrite String.eqb_refl. cbn [negb].
    apply String.eqb_neq in Hm, Hp. now rewrite Hm, Hp. }
  subst out. rewrite (ServeHTTP_codec_error s c r Hpost Hsel w _ E).
  cbn [rpcserver.untouched rpcserver.response rpcserver.calls rpcserver.receiver].
  rewrite WriteError_body, (WriteError_status w 400 _ Hw).
  repeat split.
Qed.

(** [Test_05_MissingMethodHandle]: the call of [Action] sent to [/svc/Wrong]. *)
Lemma ServeHTTP_path_mismatch_witness :
  let out := rpcserver.ServeHTTP (mock.server jsonrpc2.NewCodec) http.NewRecorder
               scenario.wrongPath in
  http.Status (rpcserver.response out) = 400%Z /\
  http.BodyBytes (rpcserver.response out)
  = "rpc: URL.Path '/svc/Wrong' does not end with method Name 'Action'" /\
  rpcserver.calls out = [] /\
  rpcserver.receiver out = mock.NewMockRpcObject.
Proof.
  cbv zeta.
  refine (ServeHTTP_path_mismatch (mock.server jsonrpc2.NewCodec) jsonrpc2.NewCodec
            scenario.wrongPath http.NewRecorder
            {| wire.Version := "2.0"; wire.Method := "Action";
               wire.Params := Some (mock.text "{'A':5,'B':2}"); wire.Id := Some "1" |}
            _ _ _ _ _ _ _); try reflexivity; vm_compute; discriminate.
Defined.

(** C7. The codec made by [NewCodec] has suppression off, and a codec request
    takes the flag of its codec. For a request without id: with the flag on,
    [WriteResponse] and [WriteError] leave the writer as it is, and with the
    flag off they write a body. For a request with an id they write a body
    whatever the flag. And a request without id that reaches its method, with
    the flag on, has the method called once while the response gets no byte
    and no status line, for a method that succeeds and for one that fails. *)
Theorem notification_suppression (c : jsonrpc2.Codec) :
  jsonrpc2.RespectNotifyMessages jsonrpc2.NewCodec = false /\
  (forall r, jsonrpc2.respectNotifyMessages (jsonrpc2.NewRequest c r)
             = jsonrpc2.RespectNotifyMessages c) /\
  (forall cr w reply status e,
     wire.Id (jsonrpc2.request cr) = None ->
     jsonrpc2.respectNotifyMessages cr = true ->
     jsonrpc2.WriteResponse cr w reply = w /\ jsonrpc2.WriteError cr w status e = w) /\
  (forall cr w reply status e,
     wire.Id (jsonrpc2.request cr) = None ->
     jsonrpc2.respectNotifyMessages cr = false ->
     wrote w (jsonrpc2.WriteResponse cr w reply) /\
     wrote w (jsonrpc2.WriteError cr w status e)) /\
  (forall cr w reply status e,
     wire.Id (jsonrpc2.request cr) <> None ->
     wrote w (jsonrpc2.WriteResponse cr w reply) /\
     wrote w (jsonrpc2.WriteError cr w status e)) /\
  (forall (R : Type) (s : rpcserver.Server R) (r : http.Request) (w : http.ResponseWriter)
          methodSpec cr' args,
     http.ReqMethod r = "POST" ->
     rpcserver.selectCodec s (rpcserver.contentTypeOf r) = Some (jsonrpc2.asCodec c) ->
     jsonrpc2.err (jsonrpc2.NewRequest c r) = None ->
     rpcserver.Get (Some (rpcserver.service s))
       (wire.Method (jsonrpc2.request (jsonrpc2.NewRequest c r))) = inl methodSpec ->
     jsonrpc2.ReadRequest (jsonrpc2.NewRequest c r)
       (reflect.Zero (rpcserver.argsType methodSpec)) = (cr', args, None) ->
     wire.Id (jsonrpc2.request (jsonrpc2.NewRequest c r)) = None ->
     jsonrpc2.RespectNotifyMessages c = true ->
     let out := rpcserver.ServeHTTP s w r in
     rpcserver.calls out = [(reflect.MethodName (rpcserver.method methodSpec), args)] /\
     http.BodyBytes (rpcserver.response out) = http.BodyBytes w /\
     http.wroteHeader (rpcserver.response out) = http.wroteHeader w).
Proof.
  split; [reflexivity|].
  split; [intros r; apply NewRequest_request|].
  split; [intros; split; now apply writeServerResponse_quiet|].
  split; [intros; split; apply writeServerResponse_wrote; now right|].
  split; [intros; split; apply writeServerResponse_wrote; now left|].
  intros R s r w methodSpec cr' args Hpost Hsel He Hget Hread Hid Hflag out.
  subst out. rewrite (ServeHTTP_resolved s c r Hpost Hsel w He), Hget, Hread.
  pose proof (ReadRequest_request (jsonrpc2.NewRequest c r)
                (reflect.Zero (rpcserver.argsType methodSpec))) as Hcr.
  rewrite Hread in Hcr. cbn [fst] in Hcr. destruct Hcr as [Hreq Hfl].
  assert (Hid' : wire.Id (jsonrpc2.request cr') = None) by now rewrite Hreq.
  assert (Hflag' : jsonrpc2.respectNotifyMessages cr' = true).
  { rewrite Hfl. now rewrite (proj2 (NewRequest_request c r)). }
  destruct (reflect.Func _ _ _ _ _) as [[rcvr_ reply] [e|]];
    cbn [rpcserver.calls rpcserver.response];
    unfold jsonrpc2.WriteError, jsonrpc2.WriteResponse;
    rewrite writeServerResponse_quiet by assumption; repeat split.
Qed.

(** A notification to [Action] with equal arguments, which makes it return an
    error, under a codec with suppression on. *)
Lemma notification_suppression_witness :
  let out := rpcserver.ServeHTTP (mock.server scenario.quietCodec) http.NewRecorder
               scenario.notification in
  rpcserver.calls out = [("Action", VStruct [("A", VInt 5); ("B", VInt 5)])] /\
  http.BodyBytes (rpcserver.response out) = "" /\
  http.wroteHeader (rpcserver.response out) = false.
Proof.
  refine (proj2 (proj2 (proj2 (proj2 (proj2 (notification_suppression scenario.quietCodec)))))
            _ (mock.server scenario.quietCodec) scenario.notification http.NewRecorder
            mock.ActionSpec
            (jsonrpc2.NewRequest scenario.quietCodec scenario.notification)
            (VStruct [("A", VInt 5); ("B", VInt 5)]) _ _ _ _ _ _ _); reflexivity.
Defined.

(** C9, what the code does: when the parameters do not bind, the server
    writes the error envelope and returns before it sets the nosniff header;
    the response carries the envelope and its content type, and no
    [X-Content-Type-Options]. *)
Theorem ServeHTTP_binding_error_without_nosniff :
  let out := rpcserver.ServeHTTP (mock.server jsonrpc2.NewCodec) http.NewRecorder
               scenario.badParams in
  http.BodyBytes (rpcserver.response out)
  = mock.text "{'jsonrpc':'2.0','error':{'code':-32600,'message':'json: cannot unmarshal string into Go value of type [1]interface {}','data':'x'},'id':1}"
    ++ jsonrpc2.newline /\
  http.sentHeader (rpcserver.response out) !! "Content-Type"
  = Some ["application/json; charset=utf-8"] /\
  http.sentHeader (rpcserver.response out) !! "X-Content-Type-Options" = None /\
  rpcserver.calls out = [].
Proof. vm_compute. repeat split. Qed.

(** The other two envelopes of C9: a request that reaches its method, and
    whose response is not suppressed, is answered with the nosniff header
    among the header fields sent, whether the method succeeds or fails. *)
Theorem ServeHTTP_nosniff_after_call {R : Type} (s : rpcserver.Server R)
    (c : jsonrpc2.Codec) (r : http.Request) (w : http.ResponseWriter) methodSpec cr' args :
  http.ReqMethod r = "POST" ->
  rpcserver.selectCodec s (rpcserver.contentTypeOf r) = Some (jsonrpc2.asCodec c) ->
  jsonrpc2.err (jsonrpc2.NewRequest c r) = None ->
  rpcserver.Get (Some (rpcserver.service s))
    (wire.Method (jsonrpc2.request (jsonrpc2.NewRequest c r))) = inl methodSpec ->
  jsonrpc2.ReadRequest (jsonrpc2.NewRequest c r)
    (reflect.Zero (rpcserver.argsType methodSpec)) = (cr', args, None) ->
  wire.Id (jsonrpc2.request (jsonrpc2.NewRequest c r)) <> None
  \/ jsonrpc2.RespectNotifyMessages c = false ->
  http.wroteHeader w = false ->
  http.sentHeader (rpcserver.response (rpcserver.ServeHTTP s w r))
  !! "X-Content-Type-Options" = Some ["nosniff"].
Proof.
  intros Hpost Hsel He Hget Hread Hid Hw.
  rewrite (ServeHTTP_resolved s c r Hpost Hsel w He), Hget, Hread.
  pose proof (ReadRequest_request (jsonrpc2.NewRequest c r)
                (reflect.Zero (rpcserver.argsType methodSpec))) as Hcr.
  rewrite Hread in Hcr. cbn [fst] in Hcr. destruct Hcr as [Hreq Hfl].
  assert (H' : wire.Id (jsonrpc2.request cr') <> None
               \/ jsonrpc2.respectNotifyMessages cr' = false).
  { rewrite Hreq, Hfl, (proj2 (NewRequest_request c r)). exact Hid. }
  destruct (reflect.Func _ _ _ _ _) as [[rcvr_ reply] [e|]];
    cbn [rpcserver.response]; unfold jsonrpc2.WriteError, jsonrpc2.WriteResponse;
    now apply writeServerResponse_nosniff.
Qed.

Lemma ServeHTTP_nosniff_after_call_witness :
  http.sentHeader
    (rpcserver.response
       (rpcserver.ServeHTTP (mock.server jsonrpc2.NewCodec) http.NewRecorder
          scenario.qualified))
  !! "X-Content-Type-Options" = Some ["nosniff"].
Proof.
  refine (ServeHTTP_nosniff_after_call (mock.server jsonrpc2.NewCodec) jsonrpc2.NewCodec
            scenario.qualified http.NewRecorder mock.ActionSpec
            (jsonrpc2.NewRequest jsonrpc2.NewCodec scenario.qualified)
            (VStruct [("A", VInt 5); ("B", VInt 2)]) _ _ _ _ _ _ _); try reflexivity.
  left. vm_compute. discriminate.
Defined.

(** * Further properties of the packages *)

(** ** The last part of a path *)

Lemma last_app_cons {A : Type} (l l' : list A) (d : A) :
  l' <> [] -> List.last (l ++ l') d = List.last l' d.
Proof.
  intros H. destruct (exists_last H) as (init & x & ->).
  now rewrite app_assoc, !List.last_last.
Qed.

(** X4. [LastPart] gives the text after the last slash of the path, and the
    path itself when it has no slash: a text is the last part of a path
    exactly when it has no slash in it and the path is that text or ends with
    a slash followed by it. So a path without slash is its own last part,
    what stands before a slash plays no part, and taking the last part twice
    is taking it once. *)
Theorem LastPart_after_last_slash (pre path : string) :
  (forall seg,
     rpcserver.LastPart path = seg <->
     strings.Count seg "/" = 0%nat /\
     (path = seg \/ exists front, path = front ++ String "/" seg)) /\
  (strings.Count path "/" = 0%nat ->
   rpcserver.LastPart path = path /\ rpcserver.LastPart (pre ++ String "/" path) = path) /\
  rpcserver.LastPart (pre ++ String "/" path) = rpcserver.LastPart path /\
  rpcserver.LastPart (rpcserver.LastPart path) = rpcserver.LastPart path.
Proof.
  destruct (LastPart_final path) as [H0 H].
  assert (Hpre : rpcserver.LastPart (pre ++ String "/" path) = rpcserver.LastPart path).
  { rewrite !LastPart_last, Split_app. apply last_app_cons, Split_not_nil. }
  split; [|split; [|split]].
  - intros seg. split.
    + intros <-. split; assumption.
    + intros Hseg. now apply final_LastPart.
  - intros Hc.
    assert (E : rpcserver.LastPart path = path)
      by (apply final_LastPart; split; [exact Hc|now left]).
    split; [exact E|]. now rewrite Hpre.
  - exact Hpre.
  - apply final_LastPart. split; [exact H0|now left].
Qed.

(** The path of the tests. *)
Lemma LastPart_after_last_slash_witness :
  rpcserver.LastPart "/svc/Action" = "Action" /\
  (rpcserver.LastPart "Action" = "Action" /\
   rpcserver.LastPart ("/svc" ++ String "/" "Action") = "Action").
Proof.
  split.
  - apply (proj1 (LastPart_after_last_slash "" "/svc/Action") "Action").
    split; [reflexivity|]. right. exists "/svc". reflexivity.
  - apply (proj1 (proj2 (LastPart_after_last_slash "/svc" "Action"))). reflexivity.
Defined.

(** X5. The check of package method holds exactly for a method that is not
    empty and is the final segment of the path; it is the check of package
    methodcodec. *)
Theorem method_PathHasMethod_final (path m : string) :
  (method.PathHasMethod path m = true <-> m <> "" /\ isFinalSegment path m) /\
  method.PathHasMethod path m = methodcodec.PathHasMethod path m.
Proof.
  split; [|reflexivity].
  unfold method.PathHasMethod. rewrite Split_length. cbn [Nat.ltb Nat.leb].
  rewrite orb_false_r, <- Split_length, nth_pred_length, <- LastPart_last.
  destruct (String.eqb_spec m "") as [->|Hm].
  - split; [discriminate|]. intros [H _]. now destruct H.
  - rewrite String.eqb_eq. split.
    + intros <-. split; [exact Hm|apply LastPart_final].
    + intros [_ H]. now apply final_LastPart.
Qed.

(** ** Registration *)

Section Table.
Context {R : Type}.
Implicit Types (ms : list (reflect.Method R))
               (table : gmap string (rpcserver.RpcServiceMethod R)).

Lemma eqb_TypeOfRequest (t : reflect.Type_) :
  reflect.eqb t rpcserver.TypeOfRequest = true -> t = rpcserver.TypeOfRequest.
Proof.
  destruct t as [| | | |p n fs| |]; try discriminate. cbn.
  destruct (String.eqb_spec p "net/http") as [->|]; [|discriminate].
  destruct (String.eqb_spec n "Request") as [->|]; [|discriminate].
  destruct fs as [|[f ft] fs]; [reflexivity|discriminate].
Qed.

Lemma eqb_TypeOfError (t : reflect.Type_) :
  reflect.eqb t rpcserver.TypeOfError = true -> t = rpcserver.TypeOfError.
Proof.
  destruct t as [| | | |p n fs| |p n]; try discriminate. cbn.
  destruct (String.eqb_spec p "") as [->|]; [|discriminate].
  destruct (String.eqb_spec n "error") as [->|]; [|discriminate].
  reflexivity.
Qed.

Lemma suitable_eligible (m : reflect.Method R) e :
  rpcserver.suitable m = Some e <-> eligible m e.
Proof.
  unfold rpcserver.suitable, eligible. split.
  - destruct (String.eqb_spec (reflect.MethodPkgPath m) "") as [Hp|]; [|discriminate].
    cbn [negb].
    destruct (reflect.In m) as [|rt [|rq [|a [|b [|]]]]]; try discriminate.
    destruct rq as [| | | | |rq|]; try discriminate.
    destruct (reflect.eqb rq rpcserver.TypeOfRequest) eqn:Erq; [|discriminate].
    apply eqb_TypeOfRequest in Erq. subst rq. cbn [negb].
    destruct a as [| | | | |a|]; try discriminate.
    cbn [rpcserver.IsExportedOrBuiltin].
    destruct (rpcserver.IsExportedOrBuiltin a) eqn:Ea; [|discriminate]. cbn [negb].
    destruct b as [| | | | |b|]; try discriminate.
    cbn [rpcserver.IsExportedOrBuiltin].
    destruct (rpcserver.IsExportedOrBuiltin b) eqn:Eb; [|discriminate]. cbn [negb].
    destruct (reflect.Out m) as [|o [|]]; try discriminate.
    destruct (reflect.eqb o rpcserver.TypeOfError) eqn:Eo; [|discriminate].
    apply eqb_TypeOfError in Eo. subst o. cbn [negb].
    intros [= <-]. cbn. repeat split; eauto.
  - intros (Hm & Hp & [rt Hin] & Ha & Hb & Ho).
    rewrite Hp, Hin, Ho. cbn [String.eqb negb rpcserver.IsExportedOrBuiltin].
    rewrite Ha, Hb. cbn. destruct e; cbn in *; now subst.
Qed.

Lemma setupMethods_entry ms table (k : string) e :
  rpcserver.setupMethods ms table !! k = Some e ->
  table !! k = Some e \/
  exists m, In m ms /\ reflect.MethodName m = k /\ rpcserver.suitable m = Some e.
Proof.
  revert table. induction ms as [|m ms IH]; intros table H; [now left|].
  cbn [rpcserver.setupMethods] in H.
  destruct (rpcserver.suitable m) as [entry|] eqn:Es.
  - destruct (IH _ H) as [H'|(m' & Hin & Hn & Hs)].
    + destruct (decide (reflect.MethodName m = k)) as [<-|Hne].
      * rewrite lookup_insert_eq in H'. injection H' as <-.
        right. exists m. split; [now left|]. split; [reflexivity|exact Es].
      * rewrite lookup_insert_ne in H' by exact Hne. now left.
    + right. exists m'. split; [now right|]. split; assumption.
  - destruct (IH _ H) as [H'|(m' & Hin & Hn & Hs)]; [now left|].
    right. exists m'. split; [now right|]. split; assumption.
Qed.

End Table.

Section Table2.
Context {R : Type}.

Lemma NewRpcService_entries (receiver : reflect.Value R) (n : string)
    (svc : rpcserver.RpcService R) :
  rpcserver.NewRpcService receiver n = inl svc ->
  (forall k e, rpcserver.methods svc !! k = Some e ->
     exists m, In m (reflect.Methods receiver) /\ reflect.MethodName m = k /\
               rpcserver.suitable m = Some e) /\
  (forall m e, In m (reflect.Methods receiver) -> rpcserver.suitable m = Some e ->
     is_Some (rpcserver.methods svc !! reflect.MethodName m)).
Proof.
  unfold rpcserver.NewRpcService.
  destruct (_ && _); [discriminate|]. destruct (String.eqb _ ""); [discriminate|].
  destruct (_ =? _)%nat; [discriminate|]. intros [= <-]. cbn [rpcserver.methods].
  split.
  - intros k e H. apply setupMethods_entry in H as [H|H]; [|exact H].
    rewrite lookup_empty in H. discriminate.
  - intros m e Hin Hs. exact (setupMethods_some _ ∅ m e Hin Hs).
Qed.

(** X6. The method table of a service that [NewRpcService] returns has a
    key exactly for the names of the methods of the receiver that have the
    signature registration asks for; the entry under a key is that of a
    method of the receiver of that name, with the types its signature gives
    for the arguments and the reply. *)
Theorem NewRpcService_table (receiver : reflect.Value R) (n : string)
    (svc : rpcserver.RpcService R) :
  rpcserver.NewRpcService receiver n = inl svc ->
  (forall k, is_Some (rpcserver.methods svc !! k) <->
     exists m e, In m (reflect.Methods receiver) /\ reflect.MethodName m = k /\
                 eligible m e) /\
  (forall k e, rpcserver.methods svc !! k = Some e ->
     reflect.MethodName (rpcserver.method e) = k /\
     In (rpcserver.method e) (reflect.Methods receiver) /\
     eligible (rpcserver.method e) e).
Proof.
  intros Hsvc. destruct (NewRpcService_entries receiver n svc Hsvc) as [Hentry Hkey].
  split.
  - intros k. split.
    + intros [e H]. destruct (Hentry k e H) as (m & Hin & Hn & Hs).
      exists m, e. split; [exact Hin|]. split; [exact Hn|]. now apply suitable_eligible.
    + intros (m & e & Hin & <- & He). apply suitable_eligible in He.
      exact (Hkey m e Hin He).
  - intros k e H. destruct (Hentry k e H) as (m & Hin & Hn & Hs).
    apply suitable_eligible in Hs. destruct Hs as [Hm Hs].
    rewrite Hm. split; [exact Hn|]. split; [exact Hin|]. split; [exact Hm|exact Hs].
Qed.

Lemma setupMethods_empty (ms : list (reflect.Method R)) :
  rpcserver.setupMethods ms ∅ = ∅ -> Forall (fun m => rpcserver.suitable m = None) ms.
Proof.
  intros H. apply List.Forall_forall. intros m Hin.
  destruct (rpcserver.suitable m) as [e|] eqn:Es; [|reflexivity].
  destruct (setupMethods_some ms ∅ m e Hin Es) as [x Hx].
  rewrite H, lookup_empty in Hx. discriminate.
Qed.

(** X7. For a receiver that is not nil, [NewRpcService] returns an error in
    two cases only: no name is given and the name of the type of the receiver
    is not exported, or no method of the receiver has the signature
    registration asks for. The error for a service without a name never
    comes out. A service that is returned has the name given, or else the
    name of the type, which is not empty; it holds the receiver, and its
    method table is not empty. (A nil pointer has nothing for
    [reflect.Indirect] to give the type of: with no name given the call does
    not return. The receivers here are values, never nil.) *)
Theorem NewRpcService_outcome (receiver : reflect.Value R) (n : string) :
  let inferred := reflect.Name (reflect.IndirectType (reflect.TypeOf receiver)) in
  match rpcserver.NewRpcService receiver n with
  | inl svc =>
      rpcserver.name svc = (if String.eqb n "" then inferred else n) /\
      rpcserver.name svc <> "" /\
      (n = "" -> rpcserver.IsExported (rpcserver.name svc) = true) /\
      rpcserver.rcvr svc = reflect.Interface_ receiver /\
      rpcserver.rcvrType svc = reflect.TypeOf receiver /\
      rpcserver.methods svc <> ∅
  | inr e =>
      (n = "" /\ rpcserver.IsExported inferred = false /\
       e = errorString ("rpc: type " ++ fmt.q inferred ++ " is not exported"))
      \/ (Forall (fun m => rpcserver.suitable m = None) (reflect.Methods receiver) /\
          e = errorString
                ("rpc: " ++ fmt.q (if String.eqb n "" then inferred else n)
                 ++ " has no exported methods of suitable type"))
  end.
Proof.
  cbv zeta. unfold rpcserver.NewRpcService.
  set (inferred := reflect.Name (reflect.IndirectType (reflect.TypeOf receiver))).
  destruct (String.eqb_spec n "") as [->|Hn]; cbn [andb].
  - destruct (rpcserver.IsExported inferred) eqn:Hx; cbn [negb].
    + destruct (String.eqb_spec inferred "") as [E|Hi].
      { rewrite E in Hx. discriminate. }
      destruct (Nat.eqb_spec (size (rpcserver.setupMethods (reflect.Methods receiver) ∅)) 0)
        as [E|E].
      * right. split; [|reflexivity]. now apply setupMethods_empty, map_size_empty_iff.
      * cbn. split; [reflexivity|]. split; [exact Hi|]. split; [intros _; exact Hx|].
        split; [reflexivity|]. split; [reflexivity|].
        intros H. apply E. now apply map_size_empty_iff.
    + left. auto.
  - destruct (String.eqb_spec n "") as [|_]; [contradiction|].
    destruct (Nat.eqb_spec (size (rpcserver.setupMethods (reflect.Methods receiver) ∅)) 0)
      as [E|E].
    + right. split; [|reflexivity]. now apply setupMethods_empty, map_size_empty_iff.
    + cbn. split; [reflexivity|]. split; [exact Hn|]. split; [intros H; contradiction|].
      split; [reflexivity|]. split; [reflexivity|].
      intros H. apply E. now apply map_size_empty_iff.
Qed.

(** X8. On a server that [NewServer] returns, [HasMethod] holds exactly
    for the names of two segments whose second segment is the name of a
    method of the receiver with the signature registration asks for, whatever
    the first segment is; registering a codec does not change it. *)
Theorem HasMethod_registered (receiver : reflect.Value R) (s : rpcserver.Server R)
    (codec : rpc.Codec) (contentType m : string) :
  rpcserver.NewServer receiver = inl s ->
  (rpcserver.HasMethod s m = true <->
   exists a b meth e, strings.Split m "." = [a; b] /\
     In meth (reflect.Methods receiver) /\ reflect.MethodName meth = b /\
     eligible meth e) /\
  rpcserver.HasMethod (rpcserver.RegisterCodec s codec contentType) m
  = rpcserver.HasMethod s m.
Proof.
  unfold rpcserver.NewServer.
  destruct (rpcserver.NewRpcService receiver "") as [svc|e] eqn:Esvc; [|discriminate].
  intros [= <-]. split; [|reflexivity].
  destruct (NewRpcService_entries receiver "" svc Esvc) as [Hentry Hkey].
  unfold rpcserver.HasMethod. cbn [rpcserver.service]. split.
  - destruct (Nat.eq_dec (List.length (strings.Split m ".")) 2) as [L|L].
    + destruct (strings.Split m ".") as [|a [|b [|]]] eqn:E; try discriminate.
      rewrite (Get_two svc m a b E).
      destruct (rpcserver.methods svc !! b) as [e|] eqn:Eb; [|discriminate]. intros _.
      destruct (Hentry b e Eb) as (meth & Hin & Hn & Hs).
      exists a, b, meth, e. split; [reflexivity|]. split; [exact Hin|].
      split; [exact Hn|]. now apply suitable_eligible.
    + rewrite Get_ill_formed by exact L. discriminate.
  - intros (a & b & meth & e & E & Hin & Hn & He).
    rewrite (Get_two svc m a b E). apply suitable_eligible in He.
    destruct (Hkey meth e Hin He) as [x Hx]. rewrite Hn in Hx. now rewrite Hx.
Qed.

End Table2.

(** The table of the mock. *)
Lemma NewRpcService_table_witness :
  (forall k, is_Some (rpcserver.methods (mock.service mock.NewMockRpcObject) !! k) <->
     exists m e, In m (reflect.Methods (mock.receiverOf mock.NewMockRpcObject)) /\
                 reflect.MethodName m = k /\ eligible m e) /\
  (forall k e, rpcserver.methods (mock.service mock.NewMockRpcObject) !! k = Some e ->
     reflect.MethodName (rpcserver.method e) = k /\
     In (rpcserver.method e) (reflect.Methods (mock.receiverOf mock.NewMockRpcObject)) /\
     eligible (rpcserver.method e) e).
Proof.
  apply (NewRpcService_table (mock.receiverOf mock.NewMockRpcObject) "").
  reflexivity.
Defined.

(** The server of the tests, before and after its codec is registered. *)
Lemma HasMethod_registered_witness :
  (rpcserver.HasMethod
     {| rpcserver.codecs := ∅; rpcserver.service := mock.service mock.NewMockRpcObject |}
     "MockRpcObject.Action" = true <->
   exists a b meth e, strings.Split "MockRpcObject.Action" "." = [a; b] /\
     In meth (reflect.Methods (mock.receiverOf mock.NewMockRpcObject)) /\
     reflect.MethodName meth = b /\ eligible meth e) /\
  rpcserver.HasMethod
    (rpcserver.RegisterCodec
       {| rpcserver.codecs := ∅; rpcserver.service := mock.service mock.NewMockRpcObject |}
       (jsonrpc2.asCodec jsonrpc2.NewCodec) "application/json") "MockRpcObject.Action"
  = rpcserver.HasMethod
      {| rpcserver.codecs := ∅; rpcserver.service := mock.service mock.NewMockRpcObject |}
      "MockRpcObject.Action".
Proof.
  apply (HasMethod_registered (mock.receiverOf mock.NewMockRpcObject)).
  reflexivity.
Defined.

(** ** The content type and the codec *)

Lemma index_none (t : string) (c : ascii) :
  strings.Count t c = 0%nat -> String.index 0 (String c "") t = None.
Proof.
  induction t as [|x t IH]; cbn [strings.Count String.index]; [reflexivity|].
  cbn [String.prefix]. destruct (ascii_dec c x) as [->|Hne].
  - rewrite Ascii.eqb_refl. discriminate.
  - destruct (Ascii.eqb_spec x c) as [->|_]; [contradiction|].
    intros H. now rewrite (IH H).
Qed.

Lemma index_first (t rest : string) (c : ascii) :
  strings.Count t c = 0%nat ->
  String.index 0 (String c "") (t ++ String c rest) = Some (String.length t).
Proof.
  induction t as [|x t IH]; cbn [strings.Count String.index String.append String.length].
  - intros _. cbn [String.prefix]. destruct (ascii_dec c c); [|contradiction].
    now destruct rest.
  - cbn [String.prefix]. destruct (ascii_dec c x) as [->|Hne].
    + rewrite Ascii.eqb_refl. discriminate.
    + destruct (Ascii.eqb_spec x c) as [->|_]; [contradiction|].
      intros H. now rewrite (IH H).
Qed.

Lemma substring_prefix (t rest : string) :
  String.substring 0 (String.length t) (t ++ rest) = t.
Proof.
  induction t as [|x t IH]; cbn [String.length String.append String.substring].
  - now destruct rest.
  - now rewrite IH.
Qed.

Lemma contentTypeOf_strip (r : http.Request) (t rest : string) :
  strings.Count t ";" = 0%nat ->
  http.HeaderGet (http.ReqHeader r) "Content-Type" = t
  \/ http.HeaderGet (http.ReqHeader r) "Content-Type" = t ++ String ";" rest ->
  rpcserver.contentTypeOf r = t.
Proof.
  intros H0 [H|H]; unfold rpcserver.contentTypeOf, strings.Index; rewrite H.
  - now rewrite index_none.
  - rewrite index_first by exact H0. apply substring_prefix.
Qed.

Lemma map_to_list_only {A : Type} (m : gmap string A) (k : string) (v : A) :
  size m = 1%nat -> m !! k = Some v -> map_to_list m = [(k, v)].
Proof.
  intros Hs Hk. apply elem_of_map_to_list in Hk.
  rewrite <- length_map_to_list in Hs.
  destruct (map_to_list m) as [|x [|y l]]; try discriminate.
  apply list_elem_of_singleton in Hk. now subst.
Qed.

Section Codecs.
Context {R : Type}.
Implicit Types (s : rpcserver.Server R) (w : http.ResponseWriter) (r : http.Request).

(** X9. A codec is found under the type it was registered with, whatever
    the case of the letters on either side and whatever follows a semicolon
    in the header of the request. *)
Theorem RegisterCodec_content_type s (codec : rpc.Codec) (contentType t rest : string) r :
  strings.Count t ";" = 0%nat ->
  http.HeaderGet (http.ReqHeader r) "Content-Type" = t
  \/ http.HeaderGet (http.ReqHeader r) "Content-Type" = t ++ String ";" rest ->
  strings.ToLower t = strings.ToLower contentType ->
  rpcserver.selectCodec (rpcserver.RegisterCodec s codec contentType)
    (rpcserver.contentTypeOf r) = Some codec.
Proof.
  intros H0 Hh Hl. rewrite (contentTypeOf_strip r t rest H0 Hh).
  unfold rpcserver.selectCodec, rpcserver.RegisterCodec. cbn [rpcserver.codecs].
  rewrite Hl.
  destruct (String.eqb t "" && _) eqn:E.
  - apply andb_prop in E as [_ E]. apply Nat.eqb_eq in E.
    rewrite (map_to_list_only _ (strings.ToLower contentType) codec E);
      [reflexivity|apply lookup_insert_eq].
  - apply lookup_insert_eq.
Qed.

(** X10. A request without a content type goes to the only codec of a
    server that has one codec, under whatever type that was registered. *)
Theorem selectCodec_only_codec s (k : string) (codec : rpc.Codec) r :
  rpcserver.codecs s !! k = Some codec ->
  size (rpcserver.codecs s) = 1%nat ->
  http.HeaderGet (http.ReqHeader r) "Content-Type" = "" ->
  rpcserver.selectCodec s (rpcserver.contentTypeOf r) = Some codec.
Proof.
  intros Hk Hs Hh.
  rewrite (contentTypeOf_strip r "" "" eq_refl (or_introl Hh)).
  unfold rpcserver.selectCodec. rewrite Hs. cbn.
  now rewrite (map_to_list_only _ k codec Hs Hk).
Qed.

(** ** The checks of the server before it resolves the method *)

(** X11. Only POST is served: any other method, in any case of letters,
    is answered 405 with the method in the message, and nothing is called. *)
Theorem ServeHTTP_post_only s w r :
  http.ReqMethod r <> "POST" ->
  http.wroteHeader w = false ->
  let out := rpcserver.ServeHTTP s w r in
  http.Status (rpcserver.response out) = 405%Z /\
  http.BodyBytes (rpcserver.response out)
  = http.BodyBytes w ++ "rpc: POST method required, received " ++ http.ReqMethod r /\
  rpcserver.calls out = [] /\
  rpcserver.receiver out = rpcserver.rcvr (rpcserver.service s).
Proof.
  intros Hm Hw out. subst out. unfold rpcserver.ServeHTTP.
  apply String.eqb_neq in Hm. rewrite Hm. cbn [negb rpcserver.untouched
    rpcserver.response rpcserver.calls rpcserver.receiver].
  rewrite WriteError_body, (WriteError_status w 405 _ Hw). repeat split.
Qed.

Lemma ServeHTTP_no_codec s w r :
  http.ReqMethod r = "POST" ->
  rpcserver.selectCodec s (rpcserver.contentTypeOf r) = None ->
  http.wroteHeader w = false ->
  let out := rpcserver.ServeHTTP s w r in
  http.Status (rpcserver.response out) = 415%Z /\
  http.BodyBytes (rpcserver.response out)
  = http.BodyBytes w ++ "rpc: unrecognized Content-Type: " ++ rpcserver.contentTypeOf r /\
  rpcserver.calls out = [] /\
  rpcserver.receiver out = rpcserver.rcvr (rpcserver.service s).
Proof.
  intros Hp E Hw out. subst out. unfold rpcserver.ServeHTTP. rewrite Hp.
  cbn [String.eqb Ascii.eqb Bool.eqb negb]. cbv zeta.
  rewrite E. cbn [rpcserver.untouched rpcserver.response rpcserver.calls rpcserver.receiver].
  rewrite WriteError_body, (WriteError_status w 415 _ Hw). repeat split.
Qed.

(** X12. A content type no codec is registered under is answered 415 with
    the type in the message, and nothing is called; an empty content type is
    among them unless the server has exactly one codec. *)
Theorem ServeHTTP_unrecognized_content_type s w r :
  http.ReqMethod r = "POST" ->
  rpcserver.codecs s !! strings.ToLower (rpcserver.contentTypeOf r) = None ->
  rpcserver.contentTypeOf r <> "" \/ size (rpcserver.codecs s) <> 1%nat ->
  http.wroteHeader w = false ->
  let out := rpcserver.ServeHTTP s w r in
  http.Status (rpcserver.response out) = 415%Z /\
  http.BodyBytes (rpcserver.response out)
  = http.BodyBytes w ++ "rpc: unrecognized Content-Type: " ++ rpcserver.contentTypeOf r /\
  rpcserver.calls out = [] /\
  rpcserver.receiver out = rpcserver.rcvr (rpcserver.service s).
Proof.
  intros Hp Hk Hd Hw. apply ServeHTTP_no_codec; [exact Hp| |exact Hw].
  unfold rpcserver.selectCodec.
  destruct (String.eqb_spec (rpcserver.contentTypeOf r) "") as [E|_]; cbn [andb].
  - destruct Hd as [Hd|Hd]; [contradiction|].
    apply Nat.eqb_neq in Hd. now rewrite Hd.
  - exact Hk.
Qed.

(** X13. A server as [NewServer] returns it has no codec: until one is
    registered, every POST is answered 415. *)
Theorem NewServer_without_codec (receiver : reflect.Value R) s w r :
  rpcserver.NewServer receiver = inl s ->
  http.ReqMethod r = "POST" ->
  http.wroteHeader w = false ->
  rpcserver.codecs s = ∅ /\
  http.Status (rpcserver.response (rpcserver.ServeHTTP s w r)) = 415%Z /\
  rpcserver.calls (rpcserver.ServeHTTP s w r) = [].
Proof.
  unfold rpcserver.NewServer.
  destruct (rpcserver.NewRpcService receiver "") as [svc|e]; [|discriminate].
  intros [= <-] Hp Hw. split; [reflexivity|].
  destruct (ServeHTTP_no_codec {| rpcserver.codecs := ∅; rpcserver.service := svc |}
              w r Hp) as (H1 & _ & H2 & _).
  - unfold rpcserver.selectCodec. cbn [rpcserver.codecs]. rewrite map_size_empty.
    cbn [Nat.eqb]. rewrite andb_false_r. apply lookup_empty.
  - exact Hw.
  - split; assumption.
Qed.

(** A request that has passed the first two checks. *)
Section Selected.
Variables (s : rpcserver.Server R) (w : http.ResponseWriter) (r : http.Request)
          (codec : rpc.Codec).
Hypothesis post : http.ReqMethod r = "POST".
Hypothesis selected : rpcserver.selectCodec s (rpcserver.contentTypeOf r) = Some codec.

Lemma ServeHTTP_selected :
  rpcserver.ServeHTTP s w r =
  let '(methodName, errMethod) :=
    @rpc.Method _ (rpc.RequestOps codec) (rpc.NewRequest codec r) in
  match errMethod with
  | Some errMethod => rpcserver.untouched s (rpcserver.WriteError w 400 (errorMessage errMethod))
  | None =>
  if String.eqb methodName "" then
    rpcserver.untouched s (rpcserver.WriteError w 400 "rpc: method field should not be empty")
  else if negb (rpcserver.PathHasMethod (http.Path r) methodName) then
    rpcserver.untouched s
      (rpcserver.WriteError w 404 ("rpc: URL.Path '" ++ http.Path r ++ "' does not end with '"
                         ++ methodName ++ "' methodName"))
  else
  match rpcserver.Get (Some (rpcserver.service s)) methodName with
  | inr errGet => rpcserver.untouched s (rpcserver.WriteError w 404 (errorMessage errGet))
  | inl methodSpec =>
  let '(codecReq, args, errRead) :=
    @rpc.ReadRequest _ (rpc.RequestOps codec) (rpc.NewRequest codec r)
      (reflect.Zero (rpcserver.argsType methodSpec)) in
  match errRead with
  | Some errRead =>
      rpcserver.untouched s (@rpc.WriteError _ (rpc.RequestOps codec) codecReq w 400 errRead)
  | None =>
  let '(rcvr_, reply, errResult) :=
    reflect.Func (rpcserver.method methodSpec) (rpcserver.rcvr (rpcserver.service s)) r args
      (reflect.Zero (rpcserver.replyType methodSpec)) in
  let w := http.SetHeader w "x-content-type-options" "nosniff" in
  {| rpcserver.receiver := rcvr_;
     rpcserver.calls := [(reflect.MethodName (rpcserver.method methodSpec), args)];
     rpcserver.response :=
       match errResult with
       | None => @rpc.WriteResponse _ (rpc.RequestOps codec) codecReq w (Some (VPtr reply))
       | Some e => @rpc.WriteError _ (rpc.RequestOps codec) codecReq w 400 e
       end |}
  end end end.
Proof.
  unfold rpcserver.ServeHTTP. rewrite post.
  cbn [String.eqb Ascii.eqb Bool.eqb negb]. cbv zeta. rewrite selected.
  destruct (rpc.Method _) as [methodName [e|]]; [reflexivity|].
  destruct (String.eqb methodName ""); [reflexivity|].
  destruct (negb _); [reflexivity|].
  destruct (rpcserver.Get _ _) as [methodSpec|errGet]; [|reflexivity].
  destruct (rpc.ReadRequest _ _) as [[cr' args] [errRead|]]; [reflexivity|].
  destruct (reflect.Func _ _ _ _ _) as [[rcvr_ reply] [e|]]; reflexivity.
Qed.

End Selected.

Lemma ServeHTTP_refused s w r (codec : rpc.Codec) (m : string) (e : error) :
  http.ReqMethod r = "POST" ->
  rpcserver.selectCodec s (rpcserver.contentTypeOf r) = Some codec ->
  @rpc.Method _ (rpc.RequestOps codec) (rpc.NewRequest codec r) = (m, Some e) ->
  rpcserver.ServeHTTP s w r
  = rpcserver.untouched s (rpcserver.WriteError w 400 (errorMessage e)).
Proof.
  intros Hp Hsel Hm. now rewrite (ServeHTTP_selected s w r codec Hp Hsel), Hm.
Qed.

(** X14. Whatever the codec, a request whose method the codec cannot
    tell is answered 400 with the message of the codec as plain text: no
    envelope is written and nothing is called. *)
Theorem ServeHTTP_codec_refuses s w r (codec : rpc.Codec) (m : string) (e : error) :
  http.ReqMethod r = "POST" ->
  rpcserver.selectCodec s (rpcserver.contentTypeOf r) = Some codec ->
  @rpc.Method _ (rpc.RequestOps codec) (rpc.NewRequest codec r) = (m, Some e) ->
  http.wroteHeader w = false ->
  let out := rpcserver.ServeHTTP s w r in
  http.Status (rpcserver.response out) = 400%Z /\
  http.BodyBytes (rpcserver.response out) = http.BodyBytes w ++ errorMessage e /\
  rpcserver.calls out = [] /\
  rpcserver.receiver out = rpcserver.rcvr (rpcserver.service s).
Proof.
  intros Hp Hsel Hm Hw out. subst out.
  rewrite (ServeHTTP_refused s w r codec m e Hp Hsel Hm).
  cbn [rpcserver.untouched rpcserver.response rpcserver.calls rpcserver.receiver].
  rewrite WriteError_body, (WriteError_status w 400 _ Hw). repeat split.
Qed.

(** X15. The checks of the server itself, for a codec that reports a
    method without checking it: an empty method name is answered 400, and a
    method that the last part of the path does not name is answered 404;
    nothing is called. *)
Theorem ServeHTTP_own_checks s w r (codec : rpc.Codec) (m : string) :
  http.ReqMethod r = "POST" ->
  rpcserver.selectCodec s (rpcserver.contentTypeOf r) = Some codec ->
  @rpc.Method _ (rpc.RequestOps codec) (rpc.NewRequest codec r) = (m, None) ->
  http.wroteHeader w = false ->
  let out := rpcserver.ServeHTTP s w r in
  (m = "" ->
   http.Status (rpcserver.response out) = 400%Z /\
   http.BodyBytes (rpcserver.response out)
   = http.BodyBytes w ++ "rpc: method field should not be empty" /\
   rpcserver.calls out = []) /\
  (m <> "" -> rpcserver.LastPart (http.Path r) <> m ->
   http.Status (rpcserver.response out) = 404%Z /\
   http.BodyBytes (rpcserver.response out)
   = http.BodyBytes w ++ "rpc: URL.Path '" ++ http.Path r ++ "' does not end with '"
     ++ m ++ "' methodName" /\
   rpcserver.calls out = []).
Proof.
  intros Hp Hsel Hm Hw out. subst out.
  rewrite (ServeHTTP_selected s w r codec Hp Hsel), Hm. split.
  - intros ->. cbn [String.eqb rpcserver.untouched rpcserver.response rpcserver.calls].
    rewrite WriteError_body, (WriteError_status w 400 _ Hw). repeat split.
  - intros Hne Hl. apply String.eqb_neq in Hne, Hl. rewrite Hne.
    unfold rpcserver.PathHasMethod. rewrite Hl.
    cbn [negb rpcserver.untouched rpcserver.response rpcserver.calls].
    rewrite WriteError_body, (WriteError_status w 404 _ Hw). repeat split.
Qed.

(** X16. A method name that does not resolve is answered 404 with the
    message of [Get], and nothing is called. A name without a dot, or with
    more than one, is among them whatever the service has. *)
Theorem ServeHTTP_unresolved s w r (codec : rpc.Codec) (m : string) :
  http.ReqMethod r = "POST" ->
  rpcserver.selectCodec s (rpcserver.contentTypeOf r) = Some codec ->
  @rpc.Method _ (rpc.RequestOps codec) (rpc.NewRequest codec r) = (m, None) ->
  m <> "" ->
  rpcserver.LastPart (http.Path r) = m ->
  http.wroteHeader w = false ->
  let out := rpcserver.ServeHTTP s w r in
  (forall e, rpcserver.Get (Some (rpcserver.service s)) m = inr e ->
     http.Status (rpcserver.response out) = 404%Z /\
     http.BodyBytes (rpcserver.response out) = http.BodyBytes w ++ errorMessage e /\
     rpcserver.calls out = [] /\
     rpcserver.receiver out = rpcserver.rcvr (rpcserver.service s)) /\
  (strings.Count m "." <> 1%nat ->
     http.Status (rpcserver.response out) = 404%Z /\
     http.BodyBytes (rpcserver.response out)
     = http.BodyBytes w ++ "rpc: service/method request ill-formed: " ++ fmt.q m /\
     rpcserver.calls out = []).
Proof.
  intros Hp Hsel Hm Hne Hl Hw out.
  assert (G : forall e, rpcserver.Get (Some (rpcserver.service s)) m = inr e ->
     http.Status (rpcserver.response out) = 404%Z /\
     http.BodyBytes (rpcserver.response out) = http.BodyBytes w ++ errorMessage e /\
     rpcserver.calls out = [] /\
     rpcserver.receiver out = rpcserver.rcvr (rpcserver.service s)).
  { intros e He. subst out.
    rewrite (ServeHTTP_selected s w r codec Hp Hsel), Hm.
    apply String.eqb_neq in Hne. rewrite Hne.
    unfold rpcserver.PathHasMethod. rewrite Hl, String.eqb_refl, He.
    cbn [negb rpcserver.untouched rpcserver.response rpcserver.calls rpcserver.receiver].
    rewrite WriteError_body, (WriteError_status w 404 _ Hw). repeat split. }
  split; [exact G|].
  intros Hc. destruct (G (rpcserver.errIllFormed m)) as (H1 & H2 & H3 & _).
  - apply Get_ill_formed. rewrite Split_length. lia.
  - repeat split; assumption.
Qed.

(** X17. A method of the service is called only for a POST request, sent
    to a codec the server has, whose method name the codec reports without
    error, that is not empty, that the last part of the path names and that
    resolves, and only after the codec has bound the parameters without
    error; then that method is called, once, with the arguments the codec
    has bound. In every other case nothing is called and the receiver is
    left as it was. *)
Theorem ServeHTTP_calls s w r :
  let out := rpcserver.ServeHTTP s w r in
  (rpcserver.calls out = [] /\
   rpcserver.receiver out = rpcserver.rcvr (rpcserver.service s))
  \/ (exists (codec : rpc.Codec) (m : string) methodSpec cr' args,
        http.ReqMethod r = "POST" /\
        rpcserver.selectCodec s (rpcserver.contentTypeOf r) = Some codec /\
        @rpc.Method _ (rpc.RequestOps codec) (rpc.NewRequest codec r) = (m, None) /\
        m <> "" /\
        rpcserver.LastPart (http.Path r) = m /\
        rpcserver.Get (Some (rpcserver.service s)) m = inl methodSpec /\
        @rpc.ReadRequest _ (rpc.RequestOps codec) (rpc.NewRequest codec r)
          (reflect.Zero (rpcserver.argsType methodSpec)) = (cr', args, None) /\
        rpcserver.calls out = [(reflect.MethodName (rpcserver.method methodSpec), args)] /\
        rpcserver.receiver out
        = fst (fst (reflect.Func (rpcserver.method methodSpec)
                      (rpcserver.rcvr (rpcserver.service s)) r args
                      (reflect.Zero (rpcserver.replyType methodSpec))))).
Proof.
  intros out. subst out.
  destruct (String.eqb_spec (http.ReqMethod r) "POST") as [Hp|Hp].
  2:{ left. unfold rpcserver.ServeHTTP. apply String.eqb_neq in Hp. rewrite Hp.
      split; reflexivity. }
  destruct (rpcserver.selectCodec s (rpcserver.contentTypeOf r)) as [codec|] eqn:Hsel.
  2:{ left. unfold rpcserver.ServeHTTP. rewrite Hp.
      cbn [String.eqb Ascii.eqb Bool.eqb negb]. cbv zeta. rewrite Hsel.
      split; reflexivity. }
  rewrite (ServeHTTP_selected s w r codec Hp Hsel).
  destruct (rpc.Method _) as [m [e|]] eqn:Hm; [left; split; reflexivity|].
  destruct (String.eqb_spec m "") as [|Hne]; [left; split; reflexivity|].
  unfold rpcserver.PathHasMethod.
  destruct (String.eqb_spec (rpcserver.LastPart (http.Path r)) m) as [Hl|];
    cbn [negb]; [|left; split; reflexivity].
  destruct (rpcserver.Get _ _) as [methodSpec|errGet] eqn:Hget; [|left; split; reflexivity].
  destruct (rpc.ReadRequest _ _) as [[cr' args] [errRead|]] eqn:Hread;
    [left; split; reflexivity|].
  right. exists codec, m, methodSpec, cr', args.
  destruct (reflect.Func _ _ _ _ _) as [[rcvr_ reply] errResult].
  repeat split; assumption.
Qed.

End Codecs.

(** The header [Application/JSON; charset=utf-8] finds the codec registered
    under [application/json]. *)
Lemma RegisterCodec_content_type_witness :
  rpcserver.selectCodec (mock.server jsonrpc2.NewCodec)
    (rpcserver.contentTypeOf (scenario.typed "Application/JSON; charset=utf-8"))
  = Some (jsonrpc2.asCodec jsonrpc2.NewCodec).
Proof.
  apply (RegisterCodec_content_type
           {| rpcserver.codecs := ∅;
              rpcserver.service := mock.service mock.NewMockRpcObject |}
           (jsonrpc2.asCodec jsonrpc2.NewCodec) "application/json"
           "Application/JSON" " charset=utf-8"
           (scenario.typed "Application/JSON; charset=utf-8")).
  - reflexivity.
  - right. reflexivity.
  - reflexivity.
Defined.

(** The requests of the tests carry no content type. *)
Lemma selectCodec_only_codec_witness :
  rpcserver.selectCodec (mock.server jsonrpc2.NewCodec)
    (rpcserver.contentTypeOf scenario.qualified)
  = Some (jsonrpc2.asCodec jsonrpc2.NewCodec).
Proof.
  apply (selectCodec_only_codec (mock.server jsonrpc2.NewCodec) "application/json").
  - apply lookup_insert_eq.
  - reflexivity.
  - reflexivity.
Defined.

(** The qualified call, asked for with GET. *)
Lemma ServeHTTP_post_only_witness :
  let out := rpcserver.ServeHTTP (mock.server jsonrpc2.NewCodec) http.NewRecorder
               scenario.withGet in
  http.Status (rpcserver.response out) = 405%Z /\
  http.BodyBytes (rpcserver.response out) = "rpc: POST method required, received GET" /\
  rpcserver.calls out = [] /\
  rpcserver.receiver out = mock.NewMockRpcObject.
Proof.
  apply (ServeHTTP_post_only (mock.server jsonrpc2.NewCodec) http.NewRecorder
           scenario.withGet).
  - discriminate.
  - reflexivity.
Defined.

(** The qualified call, sent as XML. *)
Lemma ServeHTTP_unrecognized_content_type_witness :
  let out := rpcserver.ServeHTTP (mock.server jsonrpc2.NewCodec) http.NewRecorder
               (scenario.typed "text/xml; charset=utf-8") in
  http.Status (rpcserver.response out) = 415%Z /\
  http.BodyBytes (rpcserver.response out) = "rpc: unrecognized Content-Type: text/xml" /\
  rpcserver.calls out = [] /\
  rpcserver.receiver out = mock.NewMockRpcObject.
Proof.
  apply (ServeHTTP_unrecognized_content_type (mock.server jsonrpc2.NewCodec)
           http.NewRecorder (scenario.typed "text/xml; charset=utf-8")).
  - reflexivity.
  - reflexivity.
  - left. discriminate.
  - reflexivity.
Defined.

(** The server of the mock as [NewServer] returns it. *)
Lemma NewServer_without_codec_witness :
  rpcserver.codecs
    {| rpcserver.codecs := ∅; rpcserver.service := mock.service mock.NewMockRpcObject |}
  = ∅ /\
  http.Status
    (rpcserver.response
       (rpcserver.ServeHTTP
          {| rpcserver.codecs := ∅;
             rpcserver.service := mock.service mock.NewMockRpcObject |}
          http.NewRecorder scenario.qualified)) = 415%Z /\
  rpcserver.calls
    (rpcserver.ServeHTTP
       {| rpcserver.codecs := ∅; rpcserver.service := mock.service mock.NewMockRpcObject |}
       http.NewRecorder scenario.qualified) = [].
Proof.
  apply (NewServer_without_codec (mock.receiverOf mock.NewMockRpcObject)); reflexivity.
Defined.

(** The empty body, which the decoder refuses with [EOF]. *)
Lemma ServeHTTP_codec_refuses_witness :
  let out := rpcserver.ServeHTTP (mock.server jsonrpc2.NewCodec) http.NewRecorder
               (mock.post "/svc/MockRpcObject.Action" "") in
  http.Status (rpcserver.response out) = 400%Z /\
  http.BodyBytes (rpcserver.response out) = "EOF" /\
  rpcserver.calls out = [] /\
  rpcserver.receiver out = mock.NewMockRpcObject.
Proof.
  apply (ServeHTTP_codec_refuses (mock.server jsonrpc2.NewCodec) http.NewRecorder
           (mock.post "/svc/MockRpcObject.Action" "") (jsonrpc2.asCodec jsonrpc2.NewCodec)
           ""
           (jsonrpc2.NewError jsonrpc2.E_PARSE "EOF"
              (Some (wire.DataRequest jsonrpc2.emptyRequest)))); reflexivity.
Defined.

(** The codec that takes the body for the method: an empty body, and the
    body [Action] sent to [/svc/Other]. *)
Lemma ServeHTTP_own_checks_witness :
  (let out := rpcserver.ServeHTTP (scenario.serverWith scenario.bodyNameCodec)
                http.NewRecorder (mock.post "/svc/Action" "") in
   http.Status (rpcserver.response out) = 400%Z /\
   http.BodyBytes (rpcserver.response out) = "rpc: method field should not be empty" /\
   rpcserver.calls out = []) /\
  (let out := rpcserver.ServeHTTP (scenario.serverWith scenario.bodyNameCodec)
                http.NewRecorder (mock.post "/svc/Other" "Action") in
   http.Status (rpcserver.response out) = 404%Z /\
   http.BodyBytes (rpcserver.response out)
   = "rpc: URL.Path '/svc/Other' does not end with 'Action' methodName" /\
   rpcserver.calls out = []).
Proof.
  split.
  - apply (proj1 (ServeHTTP_own_checks (scenario.serverWith scenario.bodyNameCodec)
                    http.NewRecorder (mock.post "/svc/Action" "") scenario.bodyNameCodec ""
                    eq_refl eq_refl eq_refl eq_refl)).
    reflexivity.
  - apply (proj2 (ServeHTTP_own_checks (scenario.serverWith scenario.bodyNameCodec)
                    http.NewRecorder (mock.post "/svc/Other" "Action")
                    scenario.bodyNameCodec "Action" eq_refl eq_refl eq_refl eq_refl));
      vm_compute; discriminate.
Defined.

(** A method the mock does not have, and the call of [Test_01_Sanity]. *)
Lemma ServeHTTP_unresolved_witness :
  (let out := rpcserver.ServeHTTP (mock.server jsonrpc2.NewCodec) http.NewRecorder
                scenario.unknownMethod in
   http.Status (rpcserver.response out) = 404%Z /\
   http.BodyBytes (rpcserver.response out)
   = "rpc: can't find method " ++ fmt.q "MockRpcObject.Missing" /\
   rpcserver.calls out = [] /\
   rpcserver.receiver out = mock.NewMockRpcObject) /\
  (let out := rpcserver.ServeHTTP (mock.server jsonrpc2.NewCodec) http.NewRecorder
                scenario.sanity in
   http.Status (rpcserver.response out) = 404%Z /\
   http.BodyBytes (rpcserver.response out)
   = "rpc: service/method request ill-formed: " ++ fmt.q "Action" /\
   rpcserver.calls out = []).
Proof.
  split.
  - apply (proj1 (ServeHTTP_unresolved (mock.server jsonrpc2.NewCodec) http.NewRecorder
                    scenario.unknownMethod (jsonrpc2.asCodec jsonrpc2.NewCodec)
                    "MockRpcObject.Missing" eq_refl eq_refl eq_refl
                    ltac:(discriminate) eq_refl eq_refl)
             (rpcserver.errNoMethod "MockRpcObject.Missing")).
    reflexivity.
  - apply (proj2 (ServeHTTP_unresolved (mock.server jsonrpc2.NewCodec) http.NewRecorder
                    scenario.sanity (jsonrpc2.asCodec jsonrpc2.NewCodec)
                    "Action" eq_refl eq_refl eq_refl
                    ltac:(discriminate) eq_refl eq_refl)).
    vm_compute. discriminate.
Defined.

(** ** The codec: accepting and binding *)

(** X18. [NewRequest] finds no fault exactly when the body decodes into
    a request with the version 2.0 and a method that is not empty and equal
    to the last part of the path. The method name such a request reports then
    passes the two checks the server makes after the codec. *)
Theorem NewRequest_accepts (c : jsonrpc2.Codec) (r : http.Request) :
  let req := fst (jsonrpc2.decodeRequest (http.Body r)) in
  (jsonrpc2.err (jsonrpc2.NewRequest c r) = None <->
   snd (jsonrpc2.decodeRequest (http.Body r)) = None /\
   wire.Version req = "2.0" /\ wire.Method req <> "" /\
   rpcserver.LastPart (http.Path r) = wire.Method req) /\
  (forall m, jsonrpc2.Method (jsonrpc2.NewRequest c r) = (m, None) ->
     m = wire.Method req /\ m <> "" /\
     rpcserver.PathHasMethod (http.Path r) m = true).
Proof.
  cbv zeta.
  assert (A : jsonrpc2.err (jsonrpc2.NewRequest c r) = None <->
   snd (jsonrpc2.decodeRequest (http.Body r)) = None /\
   wire.Version (fst (jsonrpc2.decodeRequest (http.Body r))) = "2.0" /\
   wire.Method (fst (jsonrpc2.decodeRequest (http.Body r))) <> "" /\
   rpcserver.LastPart (http.Path r)
   = wire.Method (fst (jsonrpc2.decodeRequest (http.Body r)))).
  { unfold jsonrpc2.NewRequest.
    destruct (jsonrpc2.decodeRequest (http.Body r)) as [req [msg|]];
      cbn [jsonrpc2.err fst snd].
    - split; [discriminate|]. intros [H _]. discriminate.
    - unfold jsonrpc2.Version.
      destruct (String.eqb_spec (wire.Version req) "2.0") as [Hv|Hv]; cbn [negb].
      2:{ split; [discriminate|]. intros (_ & H & _). contradiction. }
      destruct (String.eqb_spec (wire.Method req) "") as [Hm|Hm].
      { split; [discriminate|]. intros (_ & _ & H & _). contradiction. }
      destruct (String.eqb_spec (rpcserver.LastPart (http.Path r)) (wire.Method req))
        as [Hl|Hl]; cbn [negb].
      + split; auto.
      + split; [discriminate|]. intros (_ & _ & _ & H). contradiction. }
  split; [exact A|].
  intros m. unfold jsonrpc2.Method.
  destruct (jsonrpc2.err (jsonrpc2.NewRequest c r)) eqn:He; [discriminate|].
  intros [= <-]. rewrite (proj1 (NewRequest_request c r)).
  destruct (proj1 A eq_refl) as (_ & _ & Hm & Hl).
  split; [reflexivity|]. split; [exact Hm|].
  unfold rpcserver.PathHasMethod. rewrite Hl. apply String.eqb_refl.
Qed.

(** X19. [ReadRequest] has nothing to do for a codec request that holds
    an error or whose request has no parameters, absent or [null]: the
    arguments stay as they are and the error the codec request holds, if any,
    comes back. And the error of a binding that fails is kept: the method
    and any further binding report it. *)
Theorem ReadRequest_keeps_error (cr : jsonrpc2.CodecRequest) (args : gval) :
  (jsonrpc2.err cr <> None \/ wire.Params (jsonrpc2.request cr) = None ->
   jsonrpc2.ReadRequest cr args = (cr, args, jsonrpc2.err cr)) /\
  (forall cr' args' e,
     jsonrpc2.ReadRequest cr args = (cr', args', Some e) ->
     jsonrpc2.err cr' = Some e /\
     jsonrpc2.Method cr' = ("", Some e) /\
     forall again, jsonrpc2.ReadRequest cr' again = (cr', again, Some e)).
Proof.
  split.
  - unfold jsonrpc2.ReadRequest. intros [H|H].
    + destruct (jsonrpc2.err cr); [reflexivity|congruence].
    + rewrite H. now destruct (jsonrpc2.err cr).
  - intros cr' args' e H.
    assert (E : jsonrpc2.err cr' = Some e).
    { unfold jsonrpc2.ReadRequest in H.
      destruct (jsonrpc2.err cr) as [e0|] eqn:He.
      - injection H as <- _ <-. exact He.
      - destruct (wire.Params (jsonrpc2.request cr)) as [params|]; [|discriminate].
        destruct (json.Unmarshal params args) as [args1 [e1|]]; [|discriminate].
        destruct (json.UnmarshalArray1 params args1) as [args2 [e2|]]; [|discriminate].
        injection H as <- _ <-. reflexivity. }
    split; [exact E|]. unfold jsonrpc2.Method, jsonrpc2.ReadRequest. rewrite E.
    split; reflexivity.
Qed.

(** ** The texts of the envelopes *)

Lemma encodeResponse_result cr (v : gval) (t : string) :
  json.marshal v = Some t ->
  jsonrpc2.encodeResponse (jsonrpc2.responseOf cr (Some v))
  = Some (resultEnvelope t (wire.Id (jsonrpc2.request cr))).
Proof.
  intros H. unfold jsonrpc2.encodeResponse, jsonrpc2.responseOf, jsonrpc2.member.
  cbn [jsonrpc2.Result jsonrpc2.ResError jsonrpc2.ResId jsonrpc2.ResVersion].
  rewrite H. unfold resultEnvelope, idMember, jsonrpc2.Version.
  destruct (wire.Id (jsonrpc2.request cr)); f_equal; f_equal;
    rewrite !append_assoc; reflexivity.
Qed.

Lemma encodeResponse_no_result cr (v : gval) :
  json.marshal v = None ->
  jsonrpc2.encodeResponse (jsonrpc2.responseOf cr (Some v)) = None.
Proof.
  intros H. unfold jsonrpc2.encodeResponse, jsonrpc2.responseOf, jsonrpc2.member.
  cbn [jsonrpc2.Result]. now rewrite H.
Qed.

Lemma encodeResponse_error cr (status : Z) (e : error) (d : string) :
  match e with
  | jsonError je => jsonrpc2.member "data" jsonrpc2.encodeData (wire.Data je) = Some d
  | errorString _ => d = ""
  end ->
  jsonrpc2.encodeResponse (jsonrpc2.errorResponseOf cr status e)
  = Some (errorEnvelope
            match e with jsonError je => wire.Code je | errorString _ => status end
            (errorMessage e) d (wire.Id (jsonrpc2.request cr))).
Proof.
  intros H. unfold jsonrpc2.encodeResponse, jsonrpc2.errorResponseOf.
  cbn [jsonrpc2.Result jsonrpc2.ResError jsonrpc2.ResId jsonrpc2.ResVersion].
  unfold jsonrpc2.member at 1 2. unfold jsonrpc2.encodeError.
  destruct e as [msg|je]; cbn [wire.Data wire.Code wire.Message errorMessage].
  - subst d. cbn [jsonrpc2.member].
    unfold errorEnvelope, idMember, jsonrpc2.Version, jsonrpc2.member.
    destruct (wire.Id (jsonrpc2.request cr)); f_equal; f_equal;
      rewrite !append_assoc; repeat f_equal.
  - rewrite H.
    unfold errorEnvelope, idMember, jsonrpc2.Version, jsonrpc2.member.
    destruct (wire.Id (jsonrpc2.request cr)); f_equal; f_equal;
      rewrite !append_assoc; repeat f_equal.
Qed.

Lemma sent_content_type (h : http.Header) :
  http.HeaderSet h "Content-Type" "application/json; charset=utf-8" !! "Content-Type"
  = Some ["application/json; charset=utf-8"].
Proof. unfold http.HeaderSet. apply lookup_insert_eq. Qed.

Lemma writeServerResponse_encoded cr w res (bytes : string) :
  http.wroteHeader w = false ->
  wire.Id (jsonrpc2.request cr) <> None \/ jsonrpc2.respectNotifyMessages cr = false ->
  jsonrpc2.encodeResponse res = Some bytes ->
  let w' := jsonrpc2.writeServerResponse cr w res in
  http.Status w' = 200%Z /\
  http.BodyBytes w' = http.BodyBytes w ++ bytes ++ jsonrpc2.newline /\
  http.sentHeader w' !! "Content-Type" = Some ["application/json; charset=utf-8"].
Proof.
  intros Hw H He. cbv zeta. unfold jsonrpc2.writeServerResponse.
  rewrite (not_quiet cr H), He.
  unfold http.Write, http.WriteHeader, http.SetHeader, http.sentHeader.
  cbn [http.wroteHeader http.snapHeader http.HeaderMap http.Status http.BodyBytes].
  rewrite Hw.
  cbn [http.wroteHeader http.snapHeader http.HeaderMap http.Status http.BodyBytes].
  split; [reflexivity|]. split; [reflexivity|]. apply sent_content_type.
Qed.

Lemma writeServerResponse_not_encoded cr w res :
  http.wroteHeader w = false ->
  wire.Id (jsonrpc2.request cr) <> None \/ jsonrpc2.respectNotifyMessages cr = false ->
  jsonrpc2.encodeResponse res = None ->
  let w' := jsonrpc2.writeServerResponse cr w res in
  http.Status w' = 400%Z /\
  http.BodyBytes w' = http.BodyBytes w ++ json.errUnsupportedType /\
  http.sentHeader w' !! "Content-Type" = Some ["application/json; charset=utf-8"].
Proof.
  intros Hw H He. cbv zeta. unfold jsonrpc2.writeServerResponse.
  rewrite (not_quiet cr H), He.
  unfold rpcserver.WriteError, http.Write, http.WriteHeader, http.SetHeader, http.sentHeader.
  cbn [http.wroteHeader http.snapHeader http.HeaderMap http.Status http.BodyBytes].
  rewrite Hw.
  cbn [http.wroteHeader http.snapHeader http.HeaderMap http.Status http.BodyBytes].
  split; [reflexivity|]. split; [reflexivity|]. apply sent_content_type.
Qed.

(** ** The server with the codec of package jsonrpc2: what is answered *)

Section Answers.
Context {R : Type}.
Variables (s : rpcserver.Server R) (c : jsonrpc2.Codec) (r : http.Request)
          (w : http.ResponseWriter).
Implicit Types (methodSpec : rpcserver.RpcServiceMethod R).

#[local] Abbreviation requestId := (wire.Id (jsonrpc2.request (jsonrpc2.NewRequest c r))).

Lemma audible_after_read methodSpec cr' args e :
  jsonrpc2.ReadRequest (jsonrpc2.NewRequest c r)
    (reflect.Zero (rpcserver.argsType methodSpec)) = (cr', args, e) ->
  requestId <> None \/ jsonrpc2.RespectNotifyMessages c = false ->
  wire.Id (jsonrpc2.request cr') = requestId /\
  (wire.Id (jsonrpc2.request cr') <> None \/ jsonrpc2.respectNotifyMessages cr' = false).
Proof.
  intros Hread Hid.
  pose proof (ReadRequest_request (jsonrpc2.NewRequest c r)
                (reflect.Zero (rpcserver.argsType methodSpec))) as Hcr.
  rewrite Hread in Hcr. cbn [fst] in Hcr. destruct Hcr as [Hreq Hfl].
  rewrite Hreq, Hfl, (proj2 (NewRequest_request c r)). split; [reflexivity|exact Hid].
Qed.

(** X20. A call that succeeds is answered 200 with the result envelope:
    the version, the encoded reply and the id of the request, then a newline,
    under the content type of JSON; the receiver is as the method left it. *)
Theorem ServeHTTP_result methodSpec cr' args (rcvr' : R) (reply : gval) (t : string) :
  http.ReqMethod r = "POST" ->
  rpcserver.selectCodec s (rpcserver.contentTypeOf r) = Some (jsonrpc2.asCodec c) ->
  jsonrpc2.err (jsonrpc2.NewRequest c r) = None ->
  rpcserver.Get (Some (rpcserver.service s))
    (wire.Method (jsonrpc2.request (jsonrpc2.NewRequest c r))) = inl methodSpec ->
  jsonrpc2.ReadRequest (jsonrpc2.NewRequest c r)
    (reflect.Zero (rpcserver.argsType methodSpec)) = (cr', args, None) ->
  reflect.Func (rpcserver.method methodSpec) (rpcserver.rcvr (rpcserver.service s)) r args
    (reflect.Zero (rpcserver.replyType methodSpec)) = (rcvr', reply, None) ->
  json.marshal reply = Some t ->
  requestId <> None \/ jsonrpc2.RespectNotifyMessages c = false ->
  http.wroteHeader w = false ->
  let out := rpcserver.ServeHTTP s w r in
  http.Status (rpcserver.response out) = 200%Z /\
  http.BodyBytes (rpcserver.response out)
  = http.BodyBytes w ++ resultEnvelope t requestId ++ jsonrpc2.newline /\
  http.sentHeader (rpcserver.response out) !! "Content-Type"
  = Some ["application/json; charset=utf-8"] /\
  rpcserver.calls out = [(reflect.MethodName (rpcserver.method methodSpec), args)] /\
  rpcserver.receiver out = rcvr'.
Proof.
  intros Hpost Hsel He Hget Hread Hcall Ht Hid Hw out. subst out.
  rewrite (ServeHTTP_resolved s c r Hpost Hsel w He), Hget, Hread, Hcall.
  destruct (audible_after_read methodSpec cr' args None Hread Hid) as [Eid Haud].
  cbn [rpcserver.response rpcserver.calls rpcserver.receiver].
  unfold jsonrpc2.WriteResponse.
  destruct (writeServerResponse_encoded cr'
              (http.SetHeader w "x-content-type-options" "nosniff")
              (jsonrpc2.responseOf cr' (Some (VPtr reply)))
              (resultEnvelope t requestId) Hw Haud) as (H1 & H2 & H3).
  { rewrite <- Eid. apply encodeResponse_result. exact Ht. }
  repeat split; assumption.
Qed.

(** X21. A call that returns an error is answered 200 as well, with the
    error envelope. A plain error gets the code 400, the status the server
    passes to the codec, and its message; an error of package jsonrpc2 keeps
    its own code, message and data. The receiver is as the method left it. *)
Theorem ServeHTTP_method_error methodSpec cr' args (rcvr' : R) (reply : gval)
    (e : error) (d : string) :
  http.ReqMethod r = "POST" ->
  rpcserver.selectCodec s (rpcserver.contentTypeOf r) = Some (jsonrpc2.asCodec c) ->
  jsonrpc2.err (jsonrpc2.NewRequest c r) = None ->
  rpcserver.Get (Some (rpcserver.service s))
    (wire.Method (jsonrpc2.request (jsonrpc2.NewRequest c r))) = inl methodSpec ->
  jsonrpc2.ReadRequest (jsonrpc2.NewRequest c r)
    (reflect.Zero (rpcserver.argsType methodSpec)) = (cr', args, None) ->
  reflect.Func (rpcserver.method methodSpec) (rpcserver.rcvr (rpcserver.service s)) r args
    (reflect.Zero (rpcserver.replyType methodSpec)) = (rcvr', reply, Some e) ->
  match e with
  | jsonError je => jsonrpc2.member "data" jsonrpc2.encodeData (wire.Data je) = Some d
  | errorString _ => d = ""
  end ->
  requestId <> None \/ jsonrpc2.RespectNotifyMessages c = false ->
  http.wroteHeader w = false ->
  let out := rpcserver.ServeHTTP s w r in
  http.Status (rpcserver.response out) = 200%Z /\
  http.BodyBytes (rpcserver.response out)
  = http.BodyBytes w
    ++ errorEnvelope match e with jsonError je => wire.Code je | errorString _ => 400%Z end
         (errorMessage e) d requestId
    ++ jsonrpc2.newline /\
  rpcserver.calls out = [(reflect.MethodName (rpcserver.method methodSpec), args)] /\
  rpcserver.receiver out = rcvr'.
Proof.
  intros Hpost Hsel He Hget Hread Hcall Hd Hid Hw out. subst out.
  rewrite (ServeHTTP_resolved s c r Hpost Hsel w He), Hget, Hread, Hcall.
  destruct (audible_after_read methodSpec cr' args None Hread Hid) as [Eid Haud].
  cbn [rpcserver.response rpcserver.calls rpcserver.receiver].
  unfold jsonrpc2.WriteError.
  destruct (writeServerResponse_encoded cr'
              (http.SetHeader w "x-content-type-options" "nosniff")
              (jsonrpc2.errorResponseOf cr' 400 e) _ Hw Haud
              (encodeResponse_error cr' 400 e d Hd)) as (H1 & H2 & H3).
  rewrite Eid in H2. repeat split; assumption.
Qed.

(** X22. A reply that has no encoding is found out after the call: the
    method has run, and the answer is 400 with the message of the encoder as
    the body, sent under the content type of JSON that was set before. *)
Theorem ServeHTTP_unencodable_reply methodSpec cr' args (rcvr' : R) (reply : gval) :
  http.ReqMethod r = "POST" ->
  rpcserver.selectCodec s (rpcserver.contentTypeOf r) = Some (jsonrpc2.asCodec c) ->
  jsonrpc2.err (jsonrpc2.NewRequest c r) = None ->
  rpcserver.Get (Some (rpcserver.service s))
    (wire.Method (jsonrpc2.request (jsonrpc2.NewRequest c r))) = inl methodSpec ->
  jsonrpc2.ReadRequest (jsonrpc2.NewRequest c r)
    (reflect.Zero (rpcserver.argsType methodSpec)) = (cr', args, None) ->
  reflect.Func (rpcserver.method methodSpec) (rpcserver.rcvr (rpcserver.service s)) r args
    (reflect.Zero (rpcserver.replyType methodSpec)) = (rcvr', reply, None) ->
  json.marshal reply = None ->
  requestId <> None \/ jsonrpc2.RespectNotifyMessages c = false ->
  http.wroteHeader w = false ->
  let out := rpcserver.ServeHTTP s w r in
  http.Status (rpcserver.response out) = 400%Z /\
  http.BodyBytes (rpcserver.response out) = http.BodyBytes w ++ json.errUnsupportedType /\
  http.sentHeader (rpcserver.response out) !! "Content-Type"
  = Some ["application/json; charset=utf-8"] /\
  rpcserver.calls out = [(reflect.MethodName (rpcserver.method methodSpec), args)] /\
  rpcserver.receiver out = rcvr'.
Proof.
  intros Hpost Hsel He Hget Hread Hcall Ht Hid Hw out. subst out.
  rewrite (ServeHTTP_resolved s c r Hpost Hsel w He), Hget, Hread, Hcall.
  destruct (audible_after_read methodSpec cr' args None Hread Hid) as [Eid Haud].
  cbn [rpcserver.response rpcserver.calls rpcserver.receiver].
  unfold jsonrpc2.WriteResponse.
  destruct (writeServerResponse_not_encoded cr'
              (http.SetHeader w "x-content-type-options" "nosniff")
              (jsonrpc2.responseOf cr' (Some (VPtr reply))) Hw Haud) as (H1 & H2 & H3).
  { apply encodeResponse_no_result. exact Ht. }
  repeat split; assumption.
Qed.

(** X23. Parameters that do not bind are answered 200 with an error
    envelope of the code -32600, the message of the decoder and the raw
    parameters as data; the method is not called. *)
Theorem ServeHTTP_binding_error methodSpec cr' args (e : error) :
  http.ReqMethod r = "POST" ->
  rpcserver.selectCodec s (rpcserver.contentTypeOf r) = Some (jsonrpc2.asCodec c) ->
  jsonrpc2.err (jsonrpc2.NewRequest c r) = None ->
  rpcserver.Get (Some (rpcserver.service s))
    (wire.Method (jsonrpc2.request (jsonrpc2.NewRequest c r))) = inl methodSpec ->
  jsonrpc2.ReadRequest (jsonrpc2.NewRequest c r)
    (reflect.Zero (rpcserver.argsType methodSpec)) = (cr', args, Some e) ->
  requestId <> None \/ jsonrpc2.RespectNotifyMessages c = false ->
  http.wroteHeader w = false ->
  let out := rpcserver.ServeHTTP s w r in
  exists params,
    wire.Params (jsonrpc2.request (jsonrpc2.NewRequest c r)) = Some params /\
    http.Status (rpcserver.response out) = 200%Z /\
    http.BodyBytes (rpcserver.response out)
    = http.BodyBytes w
      ++ errorEnvelope (-32600) (errorMessage e)
           ("," ++ json.key "data" ++ json.marshalRaw params) requestId
      ++ jsonrpc2.newline /\
    rpcserver.calls out = [] /\
    rpcserver.receiver out = rpcserver.rcvr (rpcserver.service s).
Proof.
  intros Hpost Hsel He Hget Hread Hid Hw out. subst out.
  rewrite (ServeHTTP_resolved s c r Hpost Hsel w He), Hget, Hread.
  destruct (audible_after_read methodSpec cr' args (Some e) Hread Hid) as [Eid Haud].
  cbn [rpcserver.untouched rpcserver.response rpcserver.calls rpcserver.receiver].
  unfold jsonrpc2.ReadRequest in Hread. rewrite He in Hread.
  destruct (wire.Params (jsonrpc2.request (jsonrpc2.NewRequest c r))) as [params|];
    [|discriminate].
  destruct (json.Unmarshal params _) as [args1 [e1|]]; [|discriminate].
  destruct (json.UnmarshalArray1 params args1) as [args2 [e2|]]; [|discriminate].
  injection Hread as _ _ <-.
  exists params. split; [reflexivity|].
  unfold jsonrpc2.WriteError.
  destruct (writeServerResponse_encoded cr' w
              (jsonrpc2.errorResponseOf cr' 400
                 (jsonError {| wire.Code := jsonrpc2.E_INVALID_REQ; wire.Message := e2;
                               wire.Data := Some (wire.DataRaw params) |}))
              _ Hw Haud
              (encodeResponse_error cr' 400
                 (jsonError {| wire.Code := jsonrpc2.E_INVALID_REQ; wire.Message := e2;
                               wire.Data := Some (wire.DataRaw params) |})
                 ("," ++ json.key "data" ++ json.marshalRaw params) eq_refl))
    as (H1 & H2 & H3).
  rewrite Eid in H2. repeat split; assumption.
Qed.

(** X24. A request without parameters, absent or [null], has its method
    called with the zero value of the argument type. *)
Theorem ServeHTTP_without_params methodSpec :
  http.ReqMethod r = "POST" ->
  rpcserver.selectCodec s (rpcserver.contentTypeOf r) = Some (jsonrpc2.asCodec c) ->
  jsonrpc2.err (jsonrpc2.NewRequest c r) = None ->
  rpcserver.Get (Some (rpcserver.service s))
    (wire.Method (jsonrpc2.request (jsonrpc2.NewRequest c r))) = inl methodSpec ->
  wire.Params (jsonrpc2.request (jsonrpc2.NewRequest c r)) = None ->
  rpcserver.calls (rpcserver.ServeHTTP s w r)
  = [(reflect.MethodName (rpcserver.method methodSpec),
      reflect.Zero (rpcserver.argsType methodSpec))].
Proof.
  intros Hpost Hsel He Hget Hp.
  rewrite (ServeHTTP_resolved s c r Hpost Hsel w He), Hget.
  unfold jsonrpc2.ReadRequest. rewrite He, Hp.
  destruct (reflect.Func _ _ _ _ _) as [[rcvr_ reply] [e|]]; reflexivity.
Qed.

End Answers.

(** The call without parameters leaves the arguments alone. *)
Lemma ReadRequest_keeps_error_witness :
  jsonrpc2.ReadRequest (jsonrpc2.NewRequest jsonrpc2.NewCodec scenario.noParams)
    (reflect.Zero mock.MockArgs)
  = (jsonrpc2.NewRequest jsonrpc2.NewCodec scenario.noParams, reflect.Zero mock.MockArgs,
     None).
Proof.
  apply (proj1 (ReadRequest_keeps_error
                  (jsonrpc2.NewRequest jsonrpc2.NewCodec scenario.noParams)
                  (reflect.Zero mock.MockArgs))).
  right. reflexivity.
Defined.

(** The qualified call of [Action] with 5 and 2. *)
Lemma ServeHTTP_result_witness :
  let out := rpcserver.ServeHTTP (mock.server jsonrpc2.NewCodec) http.NewRecorder
               scenario.qualified in
  http.Status (rpcserver.response out) = 200%Z /\
  http.BodyBytes (rpcserver.response out)
  = mock.text "{'jsonrpc':'2.0','result':{'Value':3},'id':1}" ++ jsonrpc2.newline /\
  http.sentHeader (rpcserver.response out) !! "Content-Type"
  = Some ["application/json; charset=utf-8"] /\
  rpcserver.calls out = [("Action", VStruct [("A", VInt 5); ("B", VInt 2)])] /\
  mock.Called (rpcserver.receiver out) = 1%Z.
Proof.
  pose proof (ServeHTTP_result (mock.server jsonrpc2.NewCodec) jsonrpc2.NewCodec
                scenario.qualified http.NewRecorder mock.ActionSpec
                (jsonrpc2.NewRequest jsonrpc2.NewCodec scenario.qualified)
                (VStruct [("A", VInt 5); ("B", VInt 2)])
                {| mock.Called := 1; mock.A := 5; mock.B := 2; mock.Result := 3;
                   mock.Err := None |}
                (VStruct [("Value", VInt 3)]) (mock.text "{'Value':3}")
                eq_refl eq_refl eq_refl eq_refl eq_refl eq_refl eq_refl
                (or_intror eq_refl) eq_refl) as (H1 & H2 & H3 & H4 & H5).
  cbv zeta. rewrite H5. repeat split; assumption.
Defined.

(** [Action] with equal arguments, which returns a plain error, and with one
    argument ten times the other, which returns an error with the code 500. *)
Lemma ServeHTTP_method_error_witness :
  (let out := rpcserver.ServeHTTP (mock.server jsonrpc2.NewCodec) http.NewRecorder
                scenario.equalArgs in
   http.Status (rpcserver.response out) = 200%Z /\
   http.BodyBytes (rpcserver.response out)
   = mock.text "{'jsonrpc':'2.0','error':{'code':400,'message':'expected error A==B - simple'},'id':1}"
     ++ jsonrpc2.newline /\
   rpcserver.calls out = [("Action", VStruct [("A", VInt 5); ("B", VInt 5)])] /\
   mock.Called (rpcserver.receiver out) = 1%Z) /\
  (let out := rpcserver.ServeHTTP (mock.server jsonrpc2.NewCodec) http.NewRecorder
                scenario.tenfold in
   http.Status (rpcserver.response out) = 200%Z /\
   http.BodyBytes (rpcserver.response out)
   = mock.text "{'jsonrpc':'2.0','error':{'code':500,'message':'expected error A==Bx10 - jsonrpc-aware','data':{'A':10,'B':1}},'id':1}"
     ++ jsonrpc2.newline /\
   rpcserver.calls out = [("Action", VStruct [("A", VInt 10); ("B", VInt 1)])] /\
   mock.Called (rpcserver.receiver out) = 1%Z).
Proof.
  split.
  - pose proof (ServeHTTP_method_error (mock.server jsonrpc2.NewCodec) jsonrpc2.NewCodec
                  scenario.equalArgs http.NewRecorder mock.ActionSpec
                  (jsonrpc2.NewRequest jsonrpc2.NewCodec scenario.equalArgs)
                  (VStruct [("A", VInt 5); ("B", VInt 5)])
                  {| mock.Called := 1; mock.A := 5; mock.B := 5; mock.Result := 0;
                     mock.Err := Some (errorString "expected error A==B - simple") |}
                  (reflect.Zero mock.MockReply)
                  (errorString "expected error A==B - simple") ""
                  eq_refl eq_refl eq_refl eq_refl eq_refl eq_refl eq_refl
                  (or_intror eq_refl) eq_refl) as (H1 & H2 & H3 & H4).
    cbv zeta. rewrite H4. repeat split; assumption.
  - pose proof (ServeHTTP_method_error (mock.server jsonrpc2.NewCodec) jsonrpc2.NewCodec
                  scenario.tenfold http.NewRecorder mock.ActionSpec
                  (jsonrpc2.NewRequest jsonrpc2.NewCodec scenario.tenfold)
                  (VStruct [("A", VInt 10); ("B", VInt 1)])
                  {| mock.Called := 1; mock.A := 10; mock.B := 1; mock.Result := 0;
                     mock.Err :=
                       Some (jsonrpc2.NewError 500 "expected error A==Bx10 - jsonrpc-aware"
                               (Some (wire.DataValue
                                        (VPtr (VStruct [("A", VInt 10); ("B", VInt 1)]))))) |}
                  (reflect.Zero mock.MockReply)
                  (jsonrpc2.NewError 500 "expected error A==Bx10 - jsonrpc-aware"
                     (Some (wire.DataValue (VPtr (VStruct [("A", VInt 10); ("B", VInt 1)])))))
                  (mock.text ",'data':{'A':10,'B':1}")
                  eq_refl eq_refl eq_refl eq_refl eq_refl eq_refl eq_refl
                  (or_intror eq_refl) eq_refl) as (H1 & H2 & H3 & H4).
    cbv zeta. rewrite H4. repeat split; assumption.
Defined.

(** The method [Watch], whose reply is a channel. *)
Lemma ServeHTTP_unencodable_reply_witness :
  let out := rpcserver.ServeHTTP scenario.feedServer http.NewRecorder scenario.watch in
  http.Status (rpcserver.response out) = 400%Z /\
  http.BodyBytes (rpcserver.response out) = "json: unsupported type: chan int" /\
  http.sentHeader (rpcserver.response out) !! "Content-Type"
  = Some ["application/json; charset=utf-8"] /\
  rpcserver.calls out = [("Watch", reflect.Zero mock.MockArgs)] /\
  rpcserver.receiver out = tt.
Proof.
  apply (ServeHTTP_unencodable_reply scenario.feedServer jsonrpc2.NewCodec
           scenario.watch http.NewRecorder scenario.WatchSpec
           (jsonrpc2.NewRequest jsonrpc2.NewCodec scenario.watch)
           (reflect.Zero mock.MockArgs) tt VChan
           eq_refl eq_refl eq_refl eq_refl eq_refl eq_refl eq_refl
           (or_intror eq_refl) eq_refl).
Defined.

(** The parameters ["x"], for the arguments of [Action]. *)
Lemma ServeHTTP_binding_error_witness :
  let out := rpcserver.ServeHTTP (mock.server jsonrpc2.NewCodec) http.NewRecorder
               scenario.badParams in
  exists params,
    wire.Params (jsonrpc2.request (jsonrpc2.NewRequest jsonrpc2.NewCodec scenario.badParams))
    = Some params /\
    http.Status (rpcserver.response out) = 200%Z /\
    http.BodyBytes (rpcserver.response out)
    = errorEnvelope (-32600)
        "json: cannot unmarshal string into Go value of type [1]interface {}"
        ("," ++ json.key "data" ++ json.marshalRaw params) (Some "1")
      ++ jsonrpc2.newline /\
    rpcserver.calls out = [] /\
    rpcserver.receiver out = mock.NewMockRpcObject.
Proof.
  apply (ServeHTTP_binding_error (mock.server jsonrpc2.NewCodec) jsonrpc2.NewCodec
           scenario.badParams http.NewRecorder mock.ActionSpec
           (fst (fst (jsonrpc2.ReadRequest
                        (jsonrpc2.NewRequest jsonrpc2.NewCodec scenario.badParams)
                        (reflect.Zero mock.MockArgs))))
           (reflect.Zero mock.MockArgs)
           (jsonError
              {| wire.Code := (-32600)%Z;
                 wire.Message :=
                   "json: cannot unmarshal string into Go value of type [1]interface {}";
                 wire.Data := Some (wire.DataRaw (mock.text "'x'")) |})
           eq_refl eq_refl eq_refl eq_refl eq_refl (or_intror eq_refl) eq_refl).
Defined.

(** [Action] called without parameters gets the arguments 0 and 0. *)
Lemma ServeHTTP_without_params_witness :
  rpcserver.calls
    (rpcserver.ServeHTTP (mock.server jsonrpc2.NewCodec) http.NewRecorder scenario.noParams)
  = [("Action", VStruct [("A", VInt 0); ("B", VInt 0)])].
Proof.
  apply (ServeHTTP_without_params (mock.server jsonrpc2.NewCodec) jsonrpc2.NewCodec
           scenario.noParams http.NewRecorder mock.ActionSpec); reflexivity.
Defined.

(** ** The id *)

Lemma compact_verbatim (raw : string) (inString escaped : bool) :
  verbatim raw = true -> json.compact inString escaped raw = raw.
Proof.
  unfold verbatim. revert inString escaped.
  induction raw as [|x raw IH]; intros inString escaped H; [reflexivity|].
  cbn [list_ascii_of_string forallb] in H.
  apply andb_prop in H as [Hx H].
  apply andb_prop in Hx as [Hx H226]. apply andb_prop in Hx as [Hsp Hh].
  apply negb_true_iff in Hsp, Hh, H226.
  cbn [json.compact]. rewrite Hsp, Hh, H226. cbn [andb].
  destruct inString.
  - destruct escaped; [now rewrite IH|].
    destruct (Ascii.eqb x "\"); [now rewrite IH|].
    destruct (Ascii.eqb x dquote); [now rewrite IH|].
    destruct raw as [|c2 [|c3 s3]]; cbn [String.append]; now rewrite IH.
  - now rewrite IH.
Qed.

(** X25. The id of the request comes back in every envelope, as the last
    member; an id without white space, without the characters the encoder
    escapes for HTML and without the byte [0xE2] comes back byte for byte. *)
Theorem id_echo (cr : jsonrpc2.CodecRequest) (res : jsonrpc2.serverResponse)
    (raw bytes : string) :
  wire.Id (jsonrpc2.request cr) = Some raw ->
  envelopeOf cr res ->
  jsonrpc2.encodeResponse res = Some bytes ->
  (exists front, bytes = front ++ "," ++ json.key "id" ++ json.marshalRaw raw ++ "}") /\
  (verbatim raw = true -> json.marshalRaw raw = raw).
Proof.
  intros Hid Henv He. split; [|apply compact_verbatim].
  assert (E : jsonrpc2.ResId res = Some raw) by (destruct Henv; exact Hid).
  unfold jsonrpc2.encodeResponse in He. rewrite E in He.
  destruct (jsonrpc2.member "result" _ _) as [x|]; [|discriminate].
  destruct (jsonrpc2.member "error" _ _) as [y|]; [|discriminate].
  change (jsonrpc2.member "id" _ (Some raw))
    with (Some ("," ++ json.key "id" ++ json.marshalRaw raw)) in He.
  cbv iota beta in He.
  assert (B : bytes = "{" ++ json.key "jsonrpc" ++ json.quote (jsonrpc2.ResVersion res)
                      ++ x ++ y ++ ("," ++ json.key "id" ++ json.marshalRaw raw) ++ "}")
    by congruence.
  exists ("{" ++ json.key "jsonrpc" ++ json.quote (jsonrpc2.ResVersion res) ++ x ++ y).
  rewrite B. generalize (json.key "jsonrpc"), (json.quote (jsonrpc2.ResVersion res)),
    (json.key "id"), (json.marshalRaw raw).
  intros k v ki m. rewrite !append_assoc. reflexivity.
Qed.

(** The id [1] of the qualified call, in the envelope of a result. *)
Lemma id_echo_witness :
  (exists front,
     mock.text "{'jsonrpc':'2.0','result':7,'id':1}"
     = front ++ "," ++ json.key "id" ++ json.marshalRaw "1" ++ "}") /\
  (verbatim "1" = true -> json.marshalRaw "1" = "1").
Proof.
  apply (id_echo (jsonrpc2.NewRequest jsonrpc2.NewCodec scenario.qualified)
           (jsonrpc2.responseOf (jsonrpc2.NewRequest jsonrpc2.NewCodec scenario.qualified)
              (Some (VInt 7)))).
  - reflexivity.
  - constructor.
  - reflexivity.
Defined.

(** ** The nesting codec *)

Section NestedFacts.
Variables (super : rpc.Codec) (r : http.Request).

#[local] Abbreviation superRequest := (rpc.NewRequest super r).
#[local] Abbreviation superMethod :=
  (@rpc.Method _ (rpc.RequestOps super) (rpc.NewRequest super r)).

Lemma NewRequest_nested :
  methodcodec.nestedSuper (methodcodec.NewRequest super r) = superRequest /\
  methodcodec.nestedErr (methodcodec.NewRequest super r)
  = match superMethod with
    | (_, Some _) => None
    | (m, None) =>
        if methodcodec.PathHasMethod (http.Path r) m then None
        else Some (errorString ("URL.Path '" ++ http.Path r
                                ++ "' does not end with method '" ++ m ++ "'"))
    end.
Proof.
  unfold methodcodec.NewRequest.
  destruct superMethod as [m [e|]]; [split; reflexivity|].
  destruct (methodcodec.PathHasMethod (http.Path r) m); split; reflexivity.
Qed.

Lemma methodcodec_PathHasMethod_true (path m : string) :
  methodcodec.PathHasMethod path m = true ->
  m <> "" /\ rpcserver.PathHasMethod path m = true.
Proof.
  unfold methodcodec.PathHasMethod, rpcserver.PathHasMethod, rpcserver.LastPart.
  rewrite Split_length. cbn [Nat.ltb Nat.leb Nat.eqb].
  destruct (String.eqb_spec m "") as [->|Hne]; [discriminate|]. cbn [orb].
  intros H. split; assumption.
Qed.

(** X26. The nesting codec reports a method without error only if the
    codec underneath does and the method is not empty and is the last part of
    the path: the two checks the server makes after the codec then hold. Such
    a request is bound by the codec underneath; and responses and errors are
    always written by the codec underneath. *)
Theorem MethodCodec_accepts :
  let cr := methodcodec.NewRequest super r in
  (forall m, methodcodec.Method super cr = (m, None) ->
     superMethod = (m, None) /\ m <> "" /\
     rpcserver.PathHasMethod (http.Path r) m = true /\
     forall args,
       methodcodec.ReadRequest super cr args
       = let '(super', args', e) :=
           @rpc.ReadRequest _ (rpc.RequestOps super) superRequest args in
         (methodcodec.NewNestedCodecRequest super super' None, args', e)) /\
  (forall w reply,
     methodcodec.WriteResponse super cr w reply
     = @rpc.WriteResponse _ (rpc.RequestOps super) superRequest w reply) /\
  (forall w status e,
     methodcodec.WriteError super cr w status e
     = @rpc.WriteError _ (rpc.RequestOps super) superRequest w status e).
Proof.
  cbv zeta. destruct NewRequest_nested as [Hs He].
  unfold methodcodec.WriteResponse, methodcodec.WriteError. rewrite Hs.
  split; [|split; reflexivity].
  intros m. unfold methodcodec.Method, methodcodec.ReadRequest. rewrite He, Hs.
  destruct superMethod as [m' [e|]] eqn:Hm.
  - discriminate.
  - destruct (methodcodec.PathHasMethod (http.Path r) m') eqn:Hp; [|discriminate].
    intros [= <-].
    destruct (methodcodec_PathHasMethod_true _ _ Hp) as [Hne Hc].
    split; [reflexivity|]. split; [exact Hne|].
    split; [exact Hc|]. intros args. reflexivity.
Qed.

(** X27. Where the codec underneath reports a method that is empty or
    is not the last part of the path, the nesting codec holds an error of its
    own: its method and its binding report that error, the arguments are not
    touched, and the server answers 400 with the message as plain text, where
    its own check of the path would have answered 404. *)
Theorem MethodCodec_rejects (m : string) :
  superMethod = (m, None) ->
  methodcodec.PathHasMethod (http.Path r) m = false ->
  let cr := methodcodec.NewRequest super r in
  let e := errorString ("URL.Path '" ++ http.Path r
                        ++ "' does not end with method '" ++ m ++ "'") in
  methodcodec.Method super cr = ("", Some e) /\
  (forall args, methodcodec.ReadRequest super cr args = (cr, args, Some e)) /\
  (forall (R : Type) (s : rpcserver.Server R) (w : http.ResponseWriter),
     http.ReqMethod r = "POST" ->
     rpcserver.selectCodec s (rpcserver.contentTypeOf r)
     = Some (methodcodec.MethodCodec super) ->
     http.wroteHeader w = false ->
     http.Status (rpcserver.response (rpcserver.ServeHTTP s w r)) = 400%Z /\
     http.BodyBytes (rpcserver.response (rpcserver.ServeHTTP s w r))
     = http.BodyBytes w ++ errorMessage e /\
     rpcserver.calls (rpcserver.ServeHTTP s w r) = []).
Proof.
  intros Hm Hp. cbv zeta. destruct NewRequest_nested as [Hs He].
  rewrite Hm, Hp in He.
  assert (M : methodcodec.Method super (methodcodec.NewRequest super r)
              = ("", Some (errorString ("URL.Path '" ++ http.Path r
                        ++ "' does not end with method '" ++ m ++ "'")))).
  { unfold methodcodec.Method. now rewrite He. }
  split; [exact M|]. split.
  - intros args. unfold methodcodec.ReadRequest. now rewrite He.
  - intros R s w Hpost Hsel Hw.
    rewrite (ServeHTTP_refused s w r (methodcodec.MethodCodec super) "" _ Hpost Hsel M).
    cbn [rpcserver.untouched rpcserver.response rpcserver.calls].
    rewrite WriteError_body, (WriteError_status w 400 _ Hw). repeat split.
Qed.

End NestedFacts.

(** The nesting codec over the codec of package jsonrpc2, on the qualified
    call. *)
Lemma MethodCodec_accepts_witness :
  rpcserver.PathHasMethod (http.Path scenario.qualified) "MockRpcObject.Action" = true.
Proof.
  apply (proj1 (MethodCodec_accepts (jsonrpc2.asCodec jsonrpc2.NewCodec) scenario.qualified)
           "MockRpcObject.Action").
  reflexivity.
Defined.

(** The nesting codec over the codec that takes the body for the method, on
    the body [Action] sent to [/svc/Other]. *)
Lemma MethodCodec_rejects_witness :
  let out := rpcserver.ServeHTTP
               (scenario.serverWith (methodcodec.MethodCodec scenario.bodyNameCodec))
               http.NewRecorder (mock.post "/svc/Other" "Action") in
  http.Status (rpcserver.response out) = 400%Z /\
  http.BodyBytes (rpcserver.response out)
  = "URL.Path '/svc/Other' does not end with method 'Action'" /\
  rpcserver.calls out = [].
Proof.
  apply (proj2 (proj2 (MethodCodec_rejects scenario.bodyNameCodec
                         (mock.post "/svc/Other" "Action") "Action" eq_refl eq_refl))
           mock.MockRpcObject
           (scenario.serverWith (methodcodec.MethodCodec scenario.bodyNameCodec))
           http.NewRecorder); reflexivity.
Defined.

(** ** The sample service *)

Lemma wrap64_small (z : Z) : (minInt64 <= z <= maxInt64)%Z -> wrap64 z = z.
Proof.
  unfold minInt64, maxInt64, wrap64. intros H.
  rewrite Z.mod_small by lia. lia.
Qed.

Lemma wrap64_congruent (z k : Z) : wrap64 (z + k * 2 ^ 64) = wrap64 z.
Proof.
  unfold wrap64. replace (z + k * 2 ^ 64 + 2 ^ 63)%Z with (z + 2 ^ 63 + k * 2 ^ 64)%Z by lia.
  now rewrite Z_mod_plus_full.
Qed.

Lemma wrap64_mul_r (b q rm : Z) : wrap64 (b * wrap64 q + rm) = wrap64 (b * q + rm).
Proof.
  assert (E : exists k, wrap64 q = (q + k * 2 ^ 64)%Z).
  { exists (- ((q + 2 ^ 63) / 2 ^ 64))%Z. unfold wrap64.
    rewrite Z.mod_eq by lia. lia. }
  destruct E as [k ->].
  replace (b * (q + k * 2 ^ 64) + rm)%Z with (b * q + rm + (b * k) * 2 ^ 64)%Z by lia.
  apply wrap64_congruent.
Qed.

(** X28. [Divide] of the sample service: a divisor of zero gives the
    error [divide by zero] and leaves the quotient as it is; any other
    divisor gives a quotient and a remainder with [A = B*Quo + Rem] in the
    arithmetic of [int], the remainder smaller than the divisor in absolute
    value and of the sign of the dividend or zero. *)
Theorem Divide_quotient (t a b : Z) (r : http.Request) (quo : gval) :
  (minInt64 <= a <= maxInt64)%Z ->
  (minInt64 <= b <= maxInt64)%Z ->
  let args := VStruct [("A", VInt a); ("B", VInt b)] in
  (b = 0%Z -> arith.Divide t r args quo = (t, quo, Some (errorString "divide by zero"))) /\
  (b <> 0%Z ->
   exists q rm,
     arith.Divide t r args quo = (t, VStruct [("Quo", VInt q); ("Rem", VInt rm)], None) /\
     wrap64 (b * q + rm) = a /\ (Z.abs rm < Z.abs b)%Z /\ (0 <= rm * a)%Z).
Proof.
  intros Ha Hb args. subst args. unfold arith.Divide.
  change (mock.intField (VStruct [("A", VInt a); ("B", VInt b)]) "A") with a.
  change (mock.intField (VStruct [("A", VInt a); ("B", VInt b)]) "B") with b.
  split.
  - intros ->. reflexivity.
  - intros Hne. apply Z.eqb_neq in Hne as Hne'. rewrite Hne'.
    exists (wrap64 (Z.quot a b)), (Z.rem a b). split; [reflexivity|].
    split; [|split].
    + rewrite wrap64_mul_r, <- Z.quot_rem' . now apply wrap64_small.
    + apply Z.rem_bound_abs. exact Hne.
    + apply Z.rem_sign_mul. exact Hne.
Qed.

(** The call of the README, 10 by 2, and a division by zero. *)
Lemma Divide_quotient_witness :
  (exists q rm,
     arith.Divide 0 scenario.qualified (VStruct [("A", VInt 10); ("B", VInt 2)])
       (reflect.Zero arith.Quotient)
     = (0%Z, VStruct [("Quo", VInt q); ("Rem", VInt rm)], None) /\
     wrap64 (2 * q + rm) = 10%Z /\ (Z.abs rm < Z.abs 2)%Z /\ (0 <= rm * 10)%Z) /\
  arith.Divide 0 scenario.qualified (VStruct [("A", VInt 10); ("B", VInt 0)])
    (reflect.Zero arith.Quotient)
  = (0%Z, reflect.Zero arith.Quotient, Some (errorString "divide by zero")).
Proof.
  split.
  - apply (proj2 (Divide_quotient 0 10 2 scenario.qualified (reflect.Zero arith.Quotient)
                    ltac:(vm_compute; split; discriminate)
                    ltac:(vm_compute; split; discriminate))).
    discriminate.
  - apply (proj1 (Divide_quotient 0 10 0 scenario.qualified (reflect.Zero arith.Quotient)
                    ltac:(vm_compute; split; discriminate)
                    ltac:(vm_compute; split; discriminate))).
    reflexivity.
Defined.
